(** * USB Drop campaign manager: the web client's request, guard and view logic

    The development embeds the JavaScript of the Vue front end
    (services/api.js, stores/auth.js, router/index.js and the views) as
    Rocq functions.  JavaScript values keep their dynamic typing,
    numbers are IEEE-754 binary64 (Rocq's primitive floats), localStorage
    is a finite map, and asynchronous handlers run in a small monad that
    threads the component state, the replies of the REST server and the
    trace of observable effects. *)

From Stdlib Require Import ZArith List Bool Lia Ascii String Uint63 PrimFloat FloatOps SpecFloat.
From stdpp Require Import gmap strings.

Local Open Scope string_scope.
Local Open Scope list_scope.
Local Open Scope Z_scope.

(** ** JavaScript values *)

Module Js.

Inductive value : Type :=
| Undefined
| Null
| Boolean (b : bool)
| Num (f : float)
| Str (s : string).

(** ToBoolean: [undefined], [null], [false], [0], [-0], [NaN] and the
    empty string are falsy. *)
Definition truthy (v : value) : bool :=
  match v with
  | Undefined | Null => false
  | Boolean b => b
  | Num f => negb (PrimFloat.eqb f 0%float) && negb (PrimFloat.is_nan f)
  | Str s => negb (String.eqb s "")
  end.

(** [!v] *)
Definition not (v : value) : bool := negb (truthy v).

(** [a || b] and [a && b] return one of their operands. *)
Definition or (a b : value) : value := if truthy a then a else b.
Definition and (a b : value) : value := if truthy a then b else a.

(** [v !== null && v !== undefined] *)
Definition non_null (v : value) : bool :=
  match v with
  | Undefined | Null => false
  | _ => true
  end.

(** [a === b] *)
Definition strict_eq (a b : value) : bool :=
  match a, b with
  | Undefined, Undefined => true
  | Null, Null => true
  | Boolean x, Boolean y => Bool.eqb x y
  | Num x, Num y => PrimFloat.eqb x y
  | Str x, Str y => String.eqb x y
  | _, _ => false
  end.

Definition is_number (v : value) : bool :=
  match v with Num _ => true | _ => false end.

(** A non-negative integer as a Number; exact below 2^53. *)
Definition of_Z (z : Z) : float := PrimFloat.of_uint63 (Uint63.of_Z z).

Definition int (z : Z) : value := Num (of_Z z).

(** ToNumber.  The conversion of a string to a number is the engine's
    StringToNumber, taken as a parameter. *)
Definition toNumber (StringToNumber : string -> float) (v : value) : float :=
  match v with
  | Undefined => PrimFloat.nan
  | Null => 0%float
  | Boolean b => if b then 1%float else 0%float
  | Num f => f
  | Str s => StringToNumber s
  end.

(** Math.round: the integer nearest to [x], ties towards +infinity;
    NaN, the infinities and the zeros are returned unchanged, and a
    negative argument that rounds to zero gives [-0].  The argument is
    decoded to [m * 2^e] and rounded exactly over [Z]. *)
Definition Math_round (x : float) : float :=
  match Prim2SF x with
  | S754_finite s m e =>
      if (0 <=? e)%Z then x
      else
        let num := (if s then - Z.pos m else Z.pos m)%Z in
        let n := ((2 * num + 2 ^ (- e)) / 2 ^ (1 - e))%Z in
        if (n =? 0)%Z then (if s then (-0)%float else 0%float)
        else if (n <? 0)%Z then PrimFloat.opp (of_Z (- n))
        else of_Z n
  | _ => x
  end.

(** The integer a Number stands for, when it is one. *)
Definition to_integer (x : float) : option Z :=
  match Prim2SF x with
  | S754_zero _ => Some 0%Z
  | S754_finite s m e =>
      let sign := (if s then -1 else 1)%Z in
      if (0 <=? e)%Z then Some (sign * Z.pos m * 2 ^ e)%Z
      else if (Z.pos m mod 2 ^ (- e) =? 0)%Z
           then Some (sign * (Z.pos m / 2 ^ (- e)))%Z
           else None
  | _ => None
  end.

(** Vue's [looseToNumber], applied by the [.number] modifier of
    [v-model]: [parseFloat] the text and keep the text itself when the
    result is NaN. *)
Definition looseToNumber (parseFloat : string -> float) (val : string) : value :=
  let n := parseFloat val in
  if PrimFloat.is_nan n then Str val else Num n.

End Js.

(** ** Success rate cards (CampaignDetail.vue, Reports view) *)

Module SuccessRate.
Import Js.

(** The fields of a stats or report object that the cards read. *)
Record Stats : Type := mkStats {
  total_drives : value;
  deployed : value;
  triggered : value
}.

(** Operands of every division the expression evaluates, as numbers:
    (dividend, divisor). *)
Definition divisions : Type := list (float * float).

Section Engine.
Variable StringToNumber : string -> float.

(** [a / b], recording the operands. *)
Definition js_div (a b : value) : float * divisions :=
  let x := toNumber StringToNumber a in
  let y := toNumber StringToNumber b in
  (PrimFloat.div x y, [(x, y)]).

(** CampaignDetail.vue:
    [stats?.deployed ? Math.round((stats.triggered / stats.deployed) * 100) : 0]
    with [stats] a ref that is [null] until the stats are loaded. *)
Definition statsSuccessRate (stats : option Stats) : value * divisions :=
  match stats with
  | None => (Num 0%float, [])
  | Some s =>
      if truthy (deployed s)
      then let '(q, log) := js_div (triggered s) (deployed s) in
           (Num (Math_round (PrimFloat.mul q 100%float)), log)
      else (Num 0%float, [])
  end.

(** Reports view, rendered under [v-else-if="report"]:
    [report.deployed ? Math.round((report.triggered / report.deployed) * 100) : 0] *)
Definition reportSuccessRate (report : Stats) : value * divisions :=
  if truthy (deployed report)
  then let '(q, log) := js_div (triggered report) (deployed report) in
       (Num (Math_round (PrimFloat.mul q 100%float)), log)
  else (Num 0%float, []).
End Engine.

(** round(100 * t / d) over the rationals, ties upwards. *)
Definition exact_rate (t d : Z) : Z := (200 * t + d) / (2 * d).

(** 100 * t / d lies exactly halfway between two integers. *)
Definition is_tie (t d : Z) : bool := (200 * t) mod (2 * d) =? d.

(** The percentage shown for integer counts, as an integer. *)
Definition shown (t d : Z) : option Z :=
  match fst (statsSuccessRate (fun _ => PrimFloat.nan)
               (Some (mkStats (int d) (int d) (int t)))) with
  | Num f => to_integer f
  | _ => None
  end.

Definition agrees (t d : Z) : bool :=
  match shown t d with
  | Some n => (n =? exact_rate t d) || (is_tie t d && (n =? exact_rate t d - 1))
  | None => false
  end.

Definition agrees_upto (N : nat) : bool :=
  forallb (fun d => forallb (fun t => agrees (Z.of_nat t) (Z.of_nat (S d)))
                      (seq 0 (S (S d))))
          (seq 0 N).
End SuccessRate.

(** ** HTTP requests built by services/api.js *)

Module Http.

Inductive method : Type := GET | POST | PUT | DELETE.

(** A plain JavaScript object with primitive fields. *)
Abbreviation object := (gmap string Js.value).

(** [o.k], [undefined] when the key is absent. *)
Definition field (o : object) (k : string) : Js.value :=
  default Js.Undefined (o !! k).

(** The arguments of one call of the axios instance. *)
Record config : Type := mkConfig {
  cfg_method : method;
  cfg_url : string;
  cfg_params : option object;
  cfg_data : option object;
  cfg_responseType : option string
}.

Definition get (url : string) : config := mkConfig GET url None None None.
Definition get_params (url : string) (params : object) : config :=
  mkConfig GET url (Some params) None None.
Definition get_blob (url : string) : config :=
  mkConfig GET url None None (Some "blob").
Definition post (url : string) : config := mkConfig POST url None None None.
Definition post_data (url : string) (data : object) : config :=
  mkConfig POST url None (Some data) None.
Definition put (url : string) (data : object) : config :=
  mkConfig PUT url None (Some data) None.
Definition delete (url : string) : config := mkConfig DELETE url None None None.

(** The request writes to the server and carries the key [k]. *)
Definition writes_field (c : config) (k : string) : bool :=
  match cfg_method c, cfg_data c with
  | (POST | PUT), Some d => bool_decide (is_Some (d !! k))
  | _, _ => false
  end.

End Http.

(** The helper objects exported by services/api.js. *)

Module campaignsApi.
Import Http.
Definition list : config := get "/campaigns".
Definition get (id : string) : config := Http.get ("/campaigns/" +:+ id).
Definition create (data : object) : config := post_data "/campaigns" data.
Definition update (id : string) (data : object) : config := put ("/campaigns/" +:+ id) data.
Definition delete (id : string) : config := Http.delete ("/campaigns/" +:+ id).
Definition stats (id : string) : config := Http.get ("/campaigns/" +:+ id +:+ "/stats").
End campaignsApi.

Module drivesApi.
Import Http.
Definition list (params : object) : config := get_params "/drives" params.
Definition get (id : string) : config := Http.get ("/drives/" +:+ id).
Definition getByCode (code : string) : config := Http.get ("/drives/by-code/" +:+ code).
Definition create (data : object) : config := post_data "/drives" data.
Definition update (id : string) (data : object) : config := put ("/drives/" +:+ id) data.
Definition prepare (id : string) : config := post ("/drives/" +:+ id +:+ "/prepare").
Definition deploy (id : string) (data : object) : config :=
  post_data ("/drives/" +:+ id +:+ "/deploy") data.
Definition download (id : string) : config := get_blob ("/drives/" +:+ id +:+ "/download").
Definition tokens (id : string) : config := Http.get ("/drives/" +:+ id +:+ "/tokens").
End drivesApi.

Module profilesApi.
Import Http.
Definition list : config := get "/profiles".
Definition get (id : string) : config := Http.get ("/profiles/" +:+ id).
Definition create (data : object) : config := post_data "/profiles" data.
Definition update (id : string) (data : object) : config := put ("/profiles/" +:+ id) data.
Definition delete (id : string) : config := Http.delete ("/profiles/" +:+ id).
Definition preview (id : string) : config := Http.get ("/profiles/" +:+ id +:+ "/preview").
End profilesApi.

Module alertsApi.
Import Http.
Definition list (params : object) : config := get_params "/alerts" params.
(** [recent: (hours = 24) => ...]: the default applies to a missing or
    [undefined] argument only. *)
Definition recent (hours : Js.value) : config :=
  let hours := match hours with Js.Undefined => Js.int 24 | h => h end in
  get_params "/alerts/recent" {[ "hours" := hours ]}.
Definition stats (campaignId : Js.value) : config :=
  get_params "/alerts/stats" {[ "campaign_id" := campaignId ]}.
Definition map (params : object) : config := get_params "/alerts/map" params.
End alertsApi.

Module reportsApi.
Import Http.
Definition campaign (id : string) : config := Http.get ("/reports/campaign/" +:+ id).
Definition exportCsv (id : string) : config := get_blob ("/reports/export/" +:+ id +:+ "/csv").
Definition summary : config := get "/reports/summary".
End reportsApi.

(** ** Asynchronous handlers

    A handler of a component runs against the component state and
    leaves a trace of effects; it resolves or rejects.  The reply of the
    server to each request is an argument of the handler. *)

Module Async.

Inductive effect : Type :=
| Request (c : Http.config)
| Alert (msg : string)
| ConsoleError (msg : string)
| RouterPush (path : string)
| SaveFile (name : string).

Inductive error : Type :=
| HttpError (status : option Z)
| TypeError.

Inductive outcome (A : Type) : Type :=
| Resolved (a : A)
| Rejected (e : error).
Arguments Resolved {A} a.
Arguments Rejected {A} e.

(** What the server answers to one request. *)
Inductive reply (A : Type) : Type :=
| Ok (data : A)
| Err (status : option Z).
Arguments Ok {A} data.
Arguments Err {A} status.

Definition t (S A : Type) : Type := S -> outcome A * S * list effect.

Section Ops.
Context {S : Type}.

Definition ret {A} (a : A) : t S A := fun s => (Resolved a, s, []).

Definition throw {A} (e : error) : t S A := fun s => (Rejected e, s, []).

Definition bind {A B} (m : t S A) (k : A -> t S B) : t S B :=
  fun s =>
    match m s with
    | (Resolved a, s1, tr1) =>
        let '(o, s2, tr2) := k a s1 in (o, s2, tr1 ++ tr2)
    | (Rejected e, s1, tr1) => (Rejected e, s1, tr1)
    end.

Definition read : t S S := fun s => (Resolved s, s, []).

Definition modify (f : S -> S) : t S unit := fun s => (Resolved tt, f s, []).

Definition emit (e : effect) : t S unit := fun s => (Resolved tt, s, [e]).

(** [await api(c)] *)
Definition call {A} (c : Http.config) (r : reply A) : t S A :=
  fun s =>
    (match r with Ok a => Resolved a | Err st => Rejected (HttpError st) end,
     s, [Request c]).

(** [await Promise.all([api(c1), api(c2)])]: both requests are
    issued; the first rejection wins. *)
Definition call_both {A B} (c1 : Http.config) (r1 : reply A)
    (c2 : Http.config) (r2 : reply B) : t S (A * B) :=
  fun s =>
    (match r1, r2 with
     | Ok a, Ok b => Resolved (a, b)
     | Err st, _ => Rejected (HttpError st)
     | _, Err st => Rejected (HttpError st)
     end, s, [Request c1; Request c2]).

(** [try { m } catch (e) { h e }] *)
Definition try_catch {A} (m : t S A) (h : error -> t S A) : t S A :=
  fun s =>
    match m s with
    | (Resolved a, s1, tr1) => (Resolved a, s1, tr1)
    | (Rejected e, s1, tr1) =>
        let '(o, s2, tr2) := h e s1 in (o, s2, tr1 ++ tr2)
    end.

(** [try { m } finally { f }] with [f] a block that cannot throw. *)
Definition try_finally {A} (m : t S A) (f : S -> S) : t S A :=
  fun s => let '(o, s1, tr) := m s in (o, f s1, tr).

(** Reading a property of a ref that may hold [null]. *)
Definition deref {A} (r : option A) : t S A :=
  match r with
  | Some a => ret a
  | None => throw TypeError
  end.

Definition trace_of {A} (m : t S A) (s : S) : list effect := snd (m s).
Definition state_of {A} (m : t S A) (s : S) : S := snd (fst (m s)).
Definition outcome_of {A} (m : t S A) (s : S) : outcome A := fst (fst (m s)).
End Ops.

(** The requests among the effects. *)
Definition requests (tr : list effect) : list Http.config :=
  omap (fun e => match e with Request c => Some c | _ => None end) tr.

End Async.

#[global] Instance async_ret {S} : MRet (Async.t S) := fun A a => Async.ret a.
#[global] Instance async_bind {S} : MBind (Async.t S) := fun A B k m => Async.bind m k.

(** ** Drives: the list view (Drives.vue) and the detail view (DriveDetail.vue) *)

Module Model.
(** The fields of a drive that the views read. *)
Record Drive : Type := mkDrive {
  id : string;
  status : Js.value;
  unique_code : string
}.

Record Token : Type := mkToken {
  token_type : Js.value;
  filename : Js.value;
  trigger_count : Js.value
}.

Definition has_status (d : Drive) (s : string) : bool :=
  Js.strict_eq (status d) (Js.Str s).
End Model.

Module Drives.
Import Model Js Http Async.

Record Filters : Type := mkFilters {
  f_campaign_id : value;
  f_status : value
}.

Record State : Type := mkState {
  drives : list Drive;
  loading : bool;
  showCreateModal : bool;
  filters : Filters;
  newDrive : object
}.

Definition emptyDrive : object :=
  <["campaign_id" := Str ""]> (<["profile_id" := Str ""]> {["label" := Str ""]}).

Definition initial : State :=
  mkState [] true false (mkFilters (Str "") (Str "")) emptyDrive.

Definition loadDrives (r_list : reply (list Drive)) : Async.t State unit :=
  modify (fun st => mkState (drives st) true (showCreateModal st) (filters st) (newDrive st));;
  try_finally
    (st ← read;
     let params : object := ∅ in
     let params :=
       if truthy (f_campaign_id (filters st))
       then <["campaign_id" := f_campaign_id (filters st)]> params else params in
     let params :=
       if truthy (f_status (filters st))
       then <["status" := f_status (filters st)]> params else params in
     rows ← call (drivesApi.list params) r_list;
     modify (fun st => mkState rows (loading st) (showCreateModal st) (filters st)
                               (newDrive st)))
    (fun st => mkState (drives st) false (showCreateModal st) (filters st) (newDrive st)).

Definition createDrive (r_create : reply unit) (r_list : reply (list Drive))
  : Async.t State unit :=
  st ← read;
  call (drivesApi.create (newDrive st)) r_create;;
  modify (fun st => mkState (drives st) (loading st) false (filters st) emptyDrive);;
  loadDrives r_list.

Definition prepareDrive (id : string) (r_prepare : reply unit)
    (r_list : reply (list Drive)) : Async.t State unit :=
  call (drivesApi.prepare id) r_prepare;;
  loadDrives r_list.

Definition downloadDrive (id : string) (r_download : reply unit) : Async.t State unit :=
  call (drivesApi.download id) r_download;;
  emit (SaveFile ("drive-" +:+ id +:+ ".zip")).

(** The controls of the Actions cell of one table row. *)
Inductive action : Type :=
| PrepareButton (id : string)
| DownloadButton (id : string)
| DeployLink (to : string)
| ViewLink (to : string).

Definition rowActions (drive : Drive) : list action :=
  (if has_status drive "created" then [PrepareButton (id drive)] else [])
  ++ (if has_status drive "prepared" then [DownloadButton (id drive)] else [])
  ++ (if has_status drive "prepared"
      then [DeployLink ("/drives/" +:+ id drive +:+ "?action=deploy")] else [])
  ++ [ViewLink ("/drives/" +:+ id drive)].

(** [filteredDrives] is the list as loaded; the table has one Actions
    cell per drive. *)
Definition filteredDrives (st : State) : list Drive := drives st.

Definition table (st : State) : list (list action) :=
  map rowActions (filteredDrives st).
End Drives.

Module DriveDetail.
Import Model Js Http Async.

Record State : Type := mkState {
  drive : option Drive;
  tokens : list Token;
  loading : bool;
  showDeployModal : bool;
  deploying : bool;
  gettingLocation : bool;
  deployment : object
}.

Definition set_drive (d : option Drive) (st : State) : State :=
  mkState d (tokens st) (loading st) (showDeployModal st) (deploying st)
          (gettingLocation st) (deployment st).
Definition set_tokens (ts : list Token) (st : State) : State :=
  mkState (drive st) ts (loading st) (showDeployModal st) (deploying st)
          (gettingLocation st) (deployment st).
Definition set_loading (b : bool) (st : State) : State :=
  mkState (drive st) (tokens st) b (showDeployModal st) (deploying st)
          (gettingLocation st) (deployment st).
Definition set_showDeployModal (b : bool) (st : State) : State :=
  mkState (drive st) (tokens st) (loading st) b (deploying st)
          (gettingLocation st) (deployment st).
Definition set_deploying (b : bool) (st : State) : State :=
  mkState (drive st) (tokens st) (loading st) (showDeployModal st) b
          (gettingLocation st) (deployment st).
Definition set_gettingLocation (b : bool) (st : State) : State :=
  mkState (drive st) (tokens st) (loading st) (showDeployModal st) (deploying st)
          b (deployment st).
(** [deployment.value.k = v] *)
Definition set_deployment (k : string) (v : value) (st : State) : State :=
  mkState (drive st) (tokens st) (loading st) (showDeployModal st) (deploying st)
          (gettingLocation st) (<[k := v]> (deployment st)).

Definition initial : State :=
  mkState None [] true false false false
    (<["latitude" := Null]> (<["longitude" := Null]>
      (<["location_description" := Str ""]> {["deployed_by" := Str ""]}))).


(** Replies of the server to the two requests of [loadDrive]. *)
Record reload : Type := mkReload {
  r_get : reply Drive;
  r_tokens : reply (list Token)
}.

Section Component.
(** [route.params.id] and [route.query.action] *)
Variable route_id : string.
Variable route_action : value.
(** The engine's [parseFloat], used by [v-model.number]. *)
Variable parseFloat : string -> float.

Definition loadDrive (r : reload) : Async.t State unit :=
  modify (set_loading true);;
  try_finally
    (try_catch
       (res ← call_both (drivesApi.get route_id) (r_get r)
                        (drivesApi.tokens route_id) (r_tokens r);
        modify (fun st => set_tokens (snd res) (set_drive (Some (fst res)) st)))
       (fun _ =>
          emit (ConsoleError "Failed to load drive:");;
          emit (RouterPush "/drives")))
    (set_loading false).

Definition onMounted (r : reload) : Async.t State unit :=
  loadDrive r;;
  if strict_eq route_action (Str "deploy")
  then modify (set_showDeployModal true)
  else mret tt.

Definition prepareDrive (r_prepare : reply unit) (r : reload) : Async.t State unit :=
  st ← read;
  d ← deref (drive st);
  call (drivesApi.prepare (id d)) r_prepare;;
  loadDrive r.

Definition downloadDrive (r_download : reply unit) : Async.t State unit :=
  st ← read;
  d ← deref (drive st);
  call (drivesApi.download (id d)) r_download;;
  st ← read;
  d ← deref (drive st);
  emit (SaveFile (unique_code d +:+ ".zip")).

(** [geo]: [None] when the browser has no geolocation, otherwise the
    position passed to the success callback or [None] for the error
    callback. *)
Definition getCurrentLocation (geo : option (option (float * float)))
  : Async.t State unit :=
  match geo with
  | None => emit (Alert "Geolocation is not supported by your browser")
  | Some pos =>
      modify (set_gettingLocation true);;
      match pos with
      | Some (lat, lng) =>
          modify (set_deployment "latitude" (Num lat));;
          modify (set_deployment "longitude" (Num lng));;
          modify (set_gettingLocation false)
      | None =>
          emit (ConsoleError "Geolocation error:");;
          emit (Alert "Failed to get current location");;
          modify (set_gettingLocation false)
      end
  end.

Definition deployDrive (r_deploy : reply unit) (r : reload) : Async.t State unit :=
  st ← read;
  if Js.not (field (deployment st) "latitude")
     || Js.not (field (deployment st) "longitude")
  then emit (Alert "Please provide location coordinates")
  else
    modify (set_deploying true);;
    try_finally
      (st ← read;
       d ← deref (drive st);
       call (drivesApi.deploy (id d) (deployment st)) r_deploy;;
       modify (set_showDeployModal false);;
       loadDrive r)
      (set_deploying false).

(** The interactive elements of the template. *)
Inductive control : Type :=
| PrepareButton
| DownloadButton
| RecordDeploymentButton
| DeployForm
| UseCurrentLocation
| CancelButton.

Definition actionButtons (d : Drive) : list control :=
  (if has_status d "created" then [PrepareButton] else [])
  ++ (if has_status d "prepared" then [DownloadButton] else [])
  ++ (if has_status d "prepared" then [RecordDeploymentButton] else []).

(** The page is a spinner while loading, else the drive with its
    action buttons; the deploy modal is a sibling of both, under
    [v-if="showDeployModal"] alone. *)
Definition render (st : State) : list control :=
  (if loading st then []
   else match drive st with
        | Some d => actionButtons d
        | None => []
        end)
  ++ (if showDeployModal st
      then [DeployForm; UseCurrentLocation; CancelButton] else []).

(** What the operator can do, with the replies the server will give. *)
Inductive event : Type :=
| ClickPrepare (r_prepare : reply unit) (r : reload)
| ClickDownload (r_download : reply unit)
| ClickRecordDeployment
| InputLatitude (text : string)
| InputLongitude (text : string)
| InputDescription (text : string)
| InputDeployedBy (text : string)
| ClickUseCurrentLocation (geo : option (option (float * float)))
| SubmitDeployForm (r_deploy : reply unit) (r : reload)
| ClickCancel.

Definition control_of (ev : event) : control :=
  match ev with
  | ClickPrepare _ _ => PrepareButton
  | ClickDownload _ => DownloadButton
  | ClickRecordDeployment => RecordDeploymentButton
  | InputLatitude _ | InputLongitude _ | InputDescription _
  | InputDeployedBy _ | SubmitDeployForm _ _ => DeployForm
  | ClickUseCurrentLocation _ => UseCurrentLocation
  | ClickCancel => CancelButton
  end.

Definition control_eqb (a b : control) : bool :=
  match a, b with
  | PrepareButton, PrepareButton
  | DownloadButton, DownloadButton
  | RecordDeploymentButton, RecordDeploymentButton
  | DeployForm, DeployForm
  | UseCurrentLocation, UseCurrentLocation
  | CancelButton, CancelButton => true
  | _, _ => false
  end.

(** An event can happen only on an element that is on the page; the
    submit button of the form is disabled while [deploying]. *)
Definition offered (st : State) (ev : event) : bool :=
  existsb (control_eqb (control_of ev)) (render st)
  && match ev with
     | SubmitDeployForm _ _ => negb (deploying st)
     | _ => true
     end.

Definition handle (ev : event) : Async.t State unit :=
  match ev with
  | ClickPrepare rp r => prepareDrive rp r
  | ClickDownload rd => downloadDrive rd
  | ClickRecordDeployment => modify (set_showDeployModal true)
  | InputLatitude text =>
      modify (set_deployment "latitude" (looseToNumber parseFloat text))
  | InputLongitude text =>
      modify (set_deployment "longitude" (looseToNumber parseFloat text))
  | InputDescription text =>
      modify (set_deployment "location_description" (Str text))
  | InputDeployedBy text =>
      modify (set_deployment "deployed_by" (Str text))
  | ClickUseCurrentLocation geo => getCurrentLocation geo
  | SubmitDeployForm rd r => deployDrive rd r
  | ClickCancel => modify (set_showDeployModal false)
  end.

(** The value of an [<input type="number">] is the empty string or the
    text of a floating-point number. *)
Definition number_input_value (text : string) : Prop :=
  text = "" \/ PrimFloat.is_nan (parseFloat text) = false.

Definition well_formed (ev : event) : Prop :=
  match ev with
  | InputLatitude text | InputLongitude text => number_input_value text
  | _ => True
  end.

(** The guard of [deployDrive] lets the request through. *)
Definition guard_passes (st : State) : bool :=
  truthy (field (deployment st) "latitude") && truthy (field (deployment st) "longitude").




(** One step of the page: events on absent elements do nothing. *)
Definition step (st : State) (ev : event) : State * list effect :=
  if offered st ev
  then let '(_, st', tr) := handle ev st in (st', tr)
  else (st, []).

(** A session: the component is mounted, then events arrive. *)
Fixpoint run (st : State) (evs : list event) : State * list effect :=
  match evs with
  | [] => (st, [])
  | ev :: evs' =>
      let '(st1, tr1) := step st ev in
      let '(st2, tr2) := run st1 evs' in
      (st2, tr1 ++ tr2)
  end.

Definition session (r : reload) (evs : list event) : State * list effect :=
  let '(_, st0, tr0) := onMounted r initial in
  let '(st, tr) := run st0 evs in
  (st, tr0 ++ tr).
End Component.

End DriveDetail.

(** ** Campaigns: the list view (Campaigns.vue) and the detail view (CampaignDetail.vue) *)

Module Campaigns.
Import Js Http Async.

(** One row of the table, as returned by [GET /campaigns]. *)
Record Row : Type := mkRow {
  id : value;
  name : value;
  client_name : value;
  status : value;
  drive_count : value;
  triggered_count : value
}.

Record State : Type := mkState {
  campaigns : list Row;
  loading : bool;
  showCreateModal : bool;
  newCampaign : object
}.

Definition emptyCampaign : object :=
  <["name" := Str ""]> (<["client_name" := Str ""]> {["description" := Str ""]}).

Definition initial : State := mkState [] true false emptyCampaign.

(** The text inputs of the create form, bound with [v-model]. *)
Inductive input : Type := NameInput | ClientNameInput | DescriptionInput.

Definition key_of (i : input) : string :=
  match i with
  | NameInput => "name"
  | ClientNameInput => "client_name"
  | DescriptionInput => "description"
  end.

Definition type (i : input) (text : string) (st : State) : State :=
  mkState (campaigns st) (loading st) (showCreateModal st)
          (<[key_of i := Str text]> (newCampaign st)).

Definition setModal (b : bool) (st : State) : State :=
  mkState (campaigns st) (loading st) b (newCampaign st).

Definition loadCampaigns (r_list : reply (list Row)) : Async.t State unit :=
  modify (fun st => mkState (campaigns st) true (showCreateModal st) (newCampaign st));;
  try_finally
    (rows ← call campaignsApi.list r_list;
     modify (fun st => mkState rows (loading st) (showCreateModal st) (newCampaign st)))
    (fun st => mkState (campaigns st) false (showCreateModal st) (newCampaign st)).

Definition createCampaign (r_create : reply unit) (r_list : reply (list Row))
  : Async.t State unit :=
  st ← read;
  call (campaignsApi.create (newCampaign st)) r_create;;
  modify (setModal false);;
  modify (fun st => mkState (campaigns st) (loading st) (showCreateModal st) emptyCampaign);;
  loadCampaigns r_list.

(** The states that the page can be in. *)
Inductive reachable : State -> Prop :=
| reach_initial : reachable initial
| reach_load (r_list : reply (list Row)) (st : State) :
    reachable st -> reachable (state_of (loadCampaigns r_list) st)
| reach_modal (b : bool) (st : State) :
    reachable st -> reachable (setModal b st)
| reach_type (i : input) (text : string) (st : State) :
    reachable st -> reachable (type i text st)
| reach_create (r_create : reply unit) (r_list : reply (list Row)) (st : State) :
    reachable st -> reachable (state_of (createCampaign r_create r_list) st).

Definition campaignKeys : gset string := {[ "name"; "client_name"; "description" ]}.
End Campaigns.

Module CampaignDetail.
Import Js Http Async.

Record Campaign : Type := mkCampaign {
  id : string;
  name : value;
  client_name : value;
  description : value;
  status : value
}.

Record State : Type := mkState {
  campaign : option Campaign;
  stats : option SuccessRate.Stats;
  loading : bool;
  showEditModal : bool;
  editForm : object
}.

Definition initial : State := mkState None None true false ∅.

(** The [<option>] values of the status [<select>]. *)
Definition statusOptions : list string :=
  ["draft"; "active"; "completed"; "archived"].

Definition formOf (c : Campaign) : object :=
  <["name" := name c]> (<["client_name" := client_name c]>
    (<["description" := description c]> {["status" := status c]})).

Section Component.
Variable route_id : string.

(** [loadCampaign]; the table of the campaign's drives is not kept in
    this state. *)
Definition loadCampaign (r_get : reply Campaign) (r_stats : reply SuccessRate.Stats)
  : Async.t State unit :=
  modify (fun st => mkState (campaign st) (stats st) true (showEditModal st) (editForm st));;
  try_finally
    (try_catch
       (res ← call_both (campaignsApi.get route_id) r_get
                        (campaignsApi.stats route_id) r_stats;
        modify (fun st =>
          mkState (Some (fst res)) (Some (snd res)) (loading st)
                  (showEditModal st) (formOf (fst res))))
       (fun _ =>
          emit (ConsoleError "Failed to load campaign:");;
          emit (RouterPush "/campaigns")))
    (fun st => mkState (campaign st) (stats st) false (showEditModal st) (editForm st)).

(** [v-model="editForm.k"] on a text field, and on the status select,
    whose value is always one of its options. *)
Definition typeField (k : string) (text : string) (st : State) : State :=
  mkState (campaign st) (stats st) (loading st) (showEditModal st)
          (<[k := Str text]> (editForm st)).

Definition selectStatus (i : nat) (st : State) : State :=
  match statusOptions !! i with
  | Some opt =>
      mkState (campaign st) (stats st) (loading st) (showEditModal st)
              (<["status" := Str opt]> (editForm st))
  | None => st
  end.

Definition updateCampaign (r_update : reply unit) (r_get : reply Campaign)
    (r_stats : reply SuccessRate.Stats) : Async.t State unit :=
  st ← read;
  c ← deref (campaign st);
  call (campaignsApi.update (id c) (editForm st)) r_update;;
  modify (fun st => mkState (campaign st) (stats st) (loading st) false (editForm st));;
  loadCampaign r_get r_stats.

(** [confirmed]: the answer to the [confirm] dialog. *)
Definition deleteCampaign (confirmed : bool) (r_delete : reply unit)
  : Async.t State unit :=
  if confirmed
  then st ← read;
       c ← deref (campaign st);
       call (campaignsApi.delete (id c)) r_delete;;
       emit (RouterPush "/campaigns")
  else mret tt.
End Component.

(** Every handler of the two campaign views that calls the server, but
    for the initial load of the list. *)
Inductive handler : Type :=
| CreateCampaign (st : Campaigns.State) (r_create : reply unit)
    (r_list : reply (list Campaigns.Row))
| LoadCampaign (st : State) (r_get : reply Campaign) (r_stats : reply SuccessRate.Stats)
| UpdateCampaign (st : State) (r_update : reply unit) (r_get : reply Campaign)
    (r_stats : reply SuccessRate.Stats)
| DeleteCampaign (st : State) (confirmed : bool) (r_delete : reply unit).

Definition well_formed (h : handler) : Prop :=
  match h with
  | CreateCampaign st _ _ => Campaigns.reachable st
  | _ => True
  end.

Definition requests_of (route_id : string) (h : handler) : list Http.config :=
  match h with
  | CreateCampaign st rc rl =>
      requests (trace_of (Campaigns.createCampaign rc rl) st)
  | LoadCampaign st rg rs =>
      requests (trace_of (loadCampaign route_id rg rs) st)
  | UpdateCampaign st ru rg rs =>
      requests (trace_of (updateCampaign route_id ru rg rs) st)
  | DeleteCampaign st c rd =>
      requests (trace_of (deleteCampaign c rd) st)
  end.
End CampaignDetail.

(** ** Alerts: the list view (Alerts.vue), the dashboard and the map (MapView.vue) *)

Module Alerts.
Import Js Http Async.

(** One element of the array returned by [GET /alerts/recent]. *)
Record Alert : Type := mkAlert {
  alert_id : value;
  campaign_id : value;
  drive_id : value;
  drive_code : value;
  token_type : value;
  token_filename : value;
  source_ip : value;
  geo_city : value;
  geo_country : value;
  user_agent : value;
  triggered_at : value
}.

Record Filters : Type := mkFilters {
  f_campaign_id : value;
  f_hours : value
}.

Record State : Type := mkState {
  alerts : list Alert;
  loading : bool;
  autoRefresh : bool;
  refreshInterval : bool;
  filters : Filters
}.

Definition initial : State :=
  mkState [] true true false (mkFilters (Str "") (int 24)).

(** [hourOptions]: value and label. *)
Definition hourOptions : list (Z * string) :=
  [(1, "Last hour"); (6, "Last 6 hours"); (24, "Last 24 hours");
   (72, "Last 3 days"); (168, "Last 7 days"); (720, "Last 30 days")].

Definition set_filters (f : Filters) (st : State) : State :=
  mkState (alerts st) (loading st) (autoRefresh st) (refreshInterval st) f.

(** The time-range select binds [filters.hours] to the value of the
    chosen option; the campaign select binds [filters.campaign_id] to
    [''] or to the id of a campaign. *)
Definition selectHours (i : nat) (st : State) : State :=
  match hourOptions !! i with
  | Some opt => set_filters (mkFilters (f_campaign_id (filters st)) (int (fst opt))) st
  | None => st
  end.

Definition selectCampaign (id : value) (st : State) : State :=
  set_filters (mkFilters id (f_hours (filters st))) st.

(** [loadAlerts]; the stats reply is not kept in this state. *)
Definition loadAlerts (r_recent : reply (list Alert)) (r_stats : reply unit)
  : Async.t State unit :=
  modify (fun st => mkState (alerts st) true (autoRefresh st) (refreshInterval st) (filters st));;
  try_finally
    (st ← read;
     res ← call_both
             (alertsApi.recent (f_hours (filters st))) r_recent
             (alertsApi.stats (Js.or (f_campaign_id (filters st)) Undefined)) r_stats;
     let data :=
       if truthy (f_campaign_id (filters st))
       then filter (fun a => strict_eq (campaign_id a) (f_campaign_id (filters st)) = true)
                   (fst res)
       else fst res in
     modify (fun st => mkState data (loading st) (autoRefresh st) (refreshInterval st)
                               (filters st)))
    (fun st => mkState (alerts st) false (autoRefresh st) (refreshInterval st) (filters st)).

Definition startAutoRefresh (st : State) : State :=
  if autoRefresh st
  then mkState (alerts st) (loading st) (autoRefresh st) true (filters st)
  else st.

Definition stopAutoRefresh (st : State) : State :=
  mkState (alerts st) (loading st) (autoRefresh st) false (filters st).

Definition toggleAutoRefresh (st : State) : State :=
  let st := mkState (alerts st) (loading st) (negb (autoRefresh st))
                    (refreshInterval st) (filters st) in
  if autoRefresh st then startAutoRefresh st else stopAutoRefresh st.

Inductive event : Type :=
| SelectHours (i : nat)
| SelectCampaign (id : value)
| ClickApply (r_recent : reply (list Alert)) (r_stats : reply unit)
| ClickRefresh (r_recent : reply (list Alert)) (r_stats : reply unit)
| Tick (r_recent : reply (list Alert)) (r_stats : reply unit)
| ToggleAutoRefresh.

Definition handle (ev : event) : Async.t State unit :=
  match ev with
  | SelectHours i => modify (selectHours i)
  | SelectCampaign id => modify (selectCampaign id)
  | ClickApply rr rs | ClickRefresh rr rs => loadAlerts rr rs
  | Tick rr rs =>
      st ← read;
      if refreshInterval st then loadAlerts rr rs else mret tt
  | ToggleAutoRefresh => modify toggleAutoRefresh
  end.

Fixpoint run (st : State) (evs : list event) : State * list effect :=
  match evs with
  | [] => (st, [])
  | ev :: evs' =>
      let '(_, st1, tr1) := handle ev st in
      let '(st2, tr2) := run st1 evs' in
      (st2, tr1 ++ tr2)
  end.

(** [onMounted]: [await Promise.all([loadCampaigns(), loadAlerts()])],
    then [startAutoRefresh()] unless one of the two failed; events
    follow.  [Promise.all] rejects with the rejection that comes first;
    the requests are taken to be answered in the order they were sent,
    so that a failure of [loadCampaigns] comes before one of
    [loadAlerts], which runs to its end all the same. *)
Definition onMounted (r_campaigns : reply unit) (r_recent : reply (list Alert))
    (r_stats : reply unit) : Async.t State unit :=
  emit (Request campaignsApi.list);;
  try_catch (loadAlerts r_recent r_stats)
            (fun e => match r_campaigns with
                      | Ok _ => throw e
                      | Err st => throw (HttpError st)
                      end);;
  match r_campaigns with
  | Ok _ => modify startAutoRefresh
  | Err st => throw (HttpError st)
  end.

Definition session (r_campaigns : reply unit) (r_recent : reply (list Alert))
    (r_stats : reply unit) (evs : list event) : State * list effect :=
  let '(_, st0, tr0) := onMounted r_campaigns r_recent r_stats initial in
  let '(st, tr) := run st0 evs in
  (st, tr0 ++ tr).

(** The values the time-range select can give to [filters.hours]. *)
Definition hours_allowed (v : value) : Prop :=
  exists n, In n [1; 6; 24; 72; 168; 720] /\ v = int n.

(** The dashboard asks for the last day. *)
Definition dashboardRecent : Http.config := alertsApi.recent (int 24).

(** *** One entry of the list, as the template renders it.

    A text interpolation keeps the value it shows: Vue prints [null]
    and [undefined] as the empty string. *)
Record Row : Type := mkRow {
  row_drive_code : value;
  row_token_type : value;
  row_filename : option value;
  row_ip : value;
  row_location : option (value * value * value);
  row_user_agent : option value;
  row_time : value
}.

Definition renderAlert (alert : Alert) : Row :=
  mkRow
    (drive_code alert)
    (token_type alert)
    (if truthy (token_filename alert) then Some (token_filename alert) else None)
    (Js.or (source_ip alert) (Str "Unknown IP"))
    (if truthy (Js.or (geo_city alert) (geo_country alert))
     then Some (geo_city alert,
                (if truthy (Js.and (geo_city alert) (geo_country alert))
                 then Str ", " else Str ""),
                geo_country alert)
     else None)
    (if truthy (user_agent alert) then Some (user_agent alert) else None)
    (triggered_at alert).

End Alerts.

Module MapView.
Import Js Http Async.

Record DeploymentPoint : Type := mkDeploymentPoint {
  d_drive_code : value;
  latitude : value;
  longitude : value;
  location_description : value;
  deployed_at : value
}.

Record TriggerPoint : Type := mkTriggerPoint {
  t_drive_code : value;
  t_token_type : value;
  t_filename : value;
  geo_latitude : value;
  geo_longitude : value;
  t_geo_city : value;
  t_geo_country : value;
  t_source_ip : value;
  t_triggered_at : value
}.

(** The reply of [GET /alerts/map]; a list may be missing. *)
Record MapData : Type := mkMapData {
  deployments : option (list DeploymentPoint);
  triggers : option (list TriggerPoint)
}.

Inductive layer : Type :=
| TileLayer
| DeploymentMarker (d : DeploymentPoint)
| TriggerMarker (t : TriggerPoint).

Definition is_marker (l : layer) : bool :=
  match l with TileLayer => false | _ => true end.

Record Filters : Type := mkFilters {
  f_campaign_id : value;
  f_type : value
}.

Record State : Type := mkState {
  layers : list layer;
  view : option (list (value * value));
  mapData : MapData;
  loading : bool;
  filters : Filters
}.

(** After [initMap]: the tile layer alone, no data yet. *)
Definition initial (query_campaign_id : value) : State :=
  mkState [TileLayer] None (mkMapData None None) true
          (mkFilters (Js.or query_campaign_id (Str "")) (Str "both")).

Definition shows (f : Filters) (kind : string) : bool :=
  strict_eq (f_type f) (Str kind) || strict_eq (f_type f) (Str "both").

(** [list?.forEach(...)] *)
Definition forEach {A B} (l : option (list A)) (f : A -> list B) : list B :=
  match l with
  | Some xs => concat (map f xs)
  | None => []
  end.

Definition updateMarkers (st : State) : State :=
  let kept := filter (fun l => is_marker l = false) (layers st) in
  let ds :=
    if shows (filters st) "deployments"
    then forEach (deployments (mapData st)) (fun d =>
           if truthy (Js.and (latitude d) (longitude d))
           then [(DeploymentMarker d, (latitude d, longitude d))] else [])
    else [] in
  let ts :=
    if shows (filters st) "triggers"
    then forEach (triggers (mapData st)) (fun t =>
           if truthy (Js.and (geo_latitude t) (geo_longitude t))
           then [(TriggerMarker t, (geo_latitude t, geo_longitude t))] else [])
    else [] in
  let bounds := map snd (ds ++ ts) in
  mkState (kept ++ map fst (ds ++ ts))
          (if (0 <? length bounds)%nat then Some bounds else view st)
          (mapData st) (loading st) (filters st).

Definition loadMapData (r_map : reply MapData) : Async.t State unit :=
  modify (fun st => mkState (layers st) (view st) (mapData st) true (filters st));;
  try_finally
    (st ← read;
     let params : object :=
       if truthy (f_campaign_id (filters st))
       then {[ "campaign_id" := f_campaign_id (filters st) ]} else ∅ in
     data ← call (alertsApi.map params) r_map;
     modify (fun st => mkState (layers st) (view st) data (loading st) (filters st));;
     modify updateMarkers)
    (fun st => mkState (layers st) (view st) (mapData st) false (filters st)).

(** The values of the Show select. *)
Definition typeOptions : list string := ["both"; "deployments"; "triggers"].

(** A change of [filters] runs the watcher, which reloads the data. *)
Definition selectType (i : nat) (r_map : reply MapData) : Async.t State unit :=
  match typeOptions !! i with
  | Some opt =>
      modify (fun st => mkState (layers st) (view st) (mapData st) (loading st)
                                (mkFilters (f_campaign_id (filters st)) (Str opt)));;
      loadMapData r_map
  | None => mret tt
  end.

Definition selectCampaign (id : value) (r_map : reply MapData) : Async.t State unit :=
  modify (fun st => mkState (layers st) (view st) (mapData st) (loading st)
                            (mkFilters id (f_type (filters st))));;
  loadMapData r_map.

End MapView.

(** ** The auth store (stores/auth.js) and the router guard (router/index.js) *)

Module Auth.
Abbreviation storage := (gmap string string).

(** [localStorage.getItem(k)] is [null] or a string; a string is truthy
    when it is not empty. *)
Definition truthy_item (v : option string) : bool :=
  match v with
  | Some s => negb (String.eqb s "")
  | None => false
  end.

Record Store : Type := mkStore {
  user : option string;
  accessToken : option string;
  refreshToken : option string
}.

(** The store as created from what localStorage holds. *)
Definition useAuthStore (localStorage : storage) : Store :=
  mkStore None (localStorage !! "accessToken") (localStorage !! "refreshToken").

(** [computed(() => !!accessToken.value)] *)
Definition isAuthenticated (s : Store) : bool := truthy_item (accessToken s).

Definition logout (s : Store) (localStorage : storage) : Store * storage :=
  (mkStore None None None,
   delete "refreshToken" (delete "accessToken" localStorage)).
End Auth.

Module Router.
Import Js.

Record RouteRecord : Type := mkRoute {
  path : string;
  name : string;
  meta_public : value
}.

Definition routes : list RouteRecord :=
  [ mkRoute "/login" "Login" (Boolean true);
    mkRoute "/" "Dashboard" Undefined;
    mkRoute "/campaigns" "Campaigns" Undefined;
    mkRoute "/campaigns/:id" "CampaignDetail" Undefined;
    mkRoute "/profiles" "Profiles" Undefined;
    mkRoute "/drives" "Drives" Undefined;
    mkRoute "/drives/:id" "DriveDetail" Undefined;
    mkRoute "/map" "Map" Undefined;
    mkRoute "/alerts" "Alerts" Undefined;
    mkRoute "/reports" "Reports" Undefined ].

(** The target of a navigation: its path and the meta of the record
    it matched ([to.meta.public] is [undefined] without a match). *)
Record Location : Type := mkLocation {
  to_path : string;
  to_name : option string;
  to_meta_public : value
}.

(** Path segments between slashes. *)
Fixpoint segments (acc : string) (s : string) : list string :=
  match s with
  | EmptyString => [acc]
  | String c rest =>
      if Ascii.eqb c "/"%char then acc :: segments "" rest
      else segments (acc +:+ String c "") rest
  end.

Definition segment_matches (pat seg : string) : bool :=
  match pat with
  | String ":" _ => negb (String.eqb seg "")
  | _ => String.eqb pat seg
  end.

Fixpoint segments_match (pats segs : list string) : bool :=
  match pats, segs with
  | [], [] => true
  | p :: pats', s :: segs' => segment_matches p s && segments_match pats' segs'
  | _, _ => false
  end.

(** A path matches a record segment by segment, as it is written: the
    paths followed here are those the code itself writes, of the spelling
    of the route records, without query or hash. *)
Definition matches (r : RouteRecord) (p : string) : bool :=
  segments_match (segments "" (path r)) (segments "" p).

Definition resolve (p : string) : Location :=
  match List.find (fun r => matches r p) routes with
  | Some r => mkLocation p (Some (name r)) (meta_public r)
  | None => mkLocation p None Undefined
  end.

(** What the guard passes to [next]. *)
Inductive decision : Type :=
| Proceed
| Redirect (target : string).

Definition beforeEach (to : Location) (authStore : Auth.Store) : decision :=
  if Js.not (to_meta_public to) && negb (Auth.isAuthenticated authStore)
  then Redirect "/login"
  else if String.eqb (to_path to) "/login" && Auth.isAuthenticated authStore
  then Redirect "/"
  else Proceed.

(** A navigation: the guard runs again on the target of a redirect. *)
Fixpoint navigate (fuel : nat) (p : string) (authStore : Auth.Store)
  : option Location :=
  match fuel with
  | O => None
  | S fuel' =>
      let to := resolve p in
      match beforeEach to authStore with
      | Proceed => Some to
      | Redirect target => navigate fuel' target authStore
      end
  end.
End Router.


(** ** The axios instance and its interceptors (services/api.js) *)

Module Transport.
Import Auth.

(** A request on its way through the instance: the call's arguments, the
    Authorization header and the [_retry] mark. *)
Record Request : Type := mkRequest {
  config : Http.config;
  authorization : option string;
  _retry : bool
}.

Definition fresh (c : Http.config) : Request := mkRequest c None false.

(** The body of a successful reply: the two token fields, each a string
    or missing. *)
Record Body : Type := mkBody {
  access_token : option string;
  refresh_token : option string
}.

(** What comes back over the wire; [status] is [None] when no response
    was received. *)
Inductive wire : Type :=
| Success (data : Body)
| Failure (status : option Z).

(** What leaves the browser. *)
Inductive sent : Type :=
| SentApi (r : Request)
| SentRefresh (refresh_token : string).

(** The browser and the server: the server answers the latest request
    knowing all that was sent before it. *)
Record World : Type := mkWorld {
  localStorage : storage;
  location_href : string;
  log : list sent;
  server : list sent -> wire
}.

Inductive outcome : Type :=
| Resolved (data : Body)
| Rejected (status : option Z) (originalRequest : Request).

(** [String(v)] of a field that may be [undefined]. *)
Definition toString (v : option string) : string := default "undefined" v.

Definition send (m : sent) (w : World) : wire * World :=
  let log' := log w ++ [m] in
  (server w log', mkWorld (localStorage w) (location_href w) log' (server w)).

(** The request interceptor. *)
Definition onRequest (w : World) (r : Request) : Request :=
  match localStorage w !! "accessToken" with
  | Some token =>
      if truthy_item (Some token)
      then mkRequest (config r) (Some ("Bearer " +:+ token)) (_retry r)
      else r
  | None => r
  end.

Definition is_401 (status : option Z) : bool :=
  match status with
  | Some s => (s =? 401)%Z
  | None => false
  end.

(** [api(request)]: the request interceptor, the exchange, and on an
    error the response interceptor, which may call [api] again. *)
Fixpoint api (fuel : nat) (request : Request) (w : World) : option (outcome * World) :=
  match fuel with
  | O => None
  | S fuel' =>
      let request := onRequest w request in
      let '(reply, w) := send (SentApi request) w in
      match reply with
      | Success data => Some (Resolved data, w)
      | Failure status =>
          if is_401 status && negb (_retry request)
          then
            let originalRequest := mkRequest (config request) (authorization request) true in
            let refreshToken := localStorage w !! "refreshToken" in
            match refreshToken with
            | Some token =>
                if truthy_item refreshToken
                then
                  let '(reply, w) := send (SentRefresh token) w in
                  match reply with
                  | Success data =>
                      let newToken := toString (access_token data) in
                      let w := mkWorld
                                 (<["refreshToken" := toString (refresh_token data)]>
                                    (<["accessToken" := newToken]> (localStorage w)))
                                 (location_href w) (log w) (server w) in
                      let originalRequest :=
                        mkRequest (config originalRequest)
                                  (Some ("Bearer " +:+ newToken)) true in
                      api fuel' originalRequest w
                  | Failure _ =>
                      let w := mkWorld
                                 (delete "refreshToken"
                                    (delete "accessToken" (localStorage w)))
                                 "/login" (log w) (server w) in
                      Some (Rejected status originalRequest, w)
                  end
                else Some (Rejected status originalRequest, w)
            | None => Some (Rejected status originalRequest, w)
            end
          else Some (Rejected status request, w)
      end
  end.

(** The exchanges of the original request (not the refresh call). *)
Definition api_sends (l : list sent) : list Request :=
  omap (fun m => match m with SentApi r => Some r | SentRefresh _ => None end) l.

Definition refresh_sends (l : list sent) : list string :=
  omap (fun m => match m with SentRefresh t => Some t | SentApi _ => None end) l.

(** What was sent during a call: the log past its first [n] entries. *)
Definition since (n : nat) (w : World) : list sent := drop n (log w).
End Transport.


(** ** The trigger-ingestion pipeline

    The webhook handler and the lifecycle engine are server code that is
    not part of the client sources; they are modelled from sections 3,
    4.1, 4.2 and 5 of the specification. *)

Module Pipeline.

(** Modelled from the spec: the drive states of section 4.1 (the server's
    status type is missing). *)
Inductive Status : Type := created | prepared | deployed | triggered | recovered.

(** Modelled from the spec: the inbound webhook payload of section 6
    (external token identifier, source address, user agent, metadata)
    with the trigger timestamp that the fingerprint of section 4.2 reads. *)
Record Payload : Type := mkPayload {
  external_id : string;
  source_addr : string;
  timestamp : Z;
  user_agent : string;
  metadata : string
}.

(** Modelled from the spec: the result of the Geo Enricher of section 4.4. *)
Record Geo : Type := mkGeo {
  city : string;
  country : string;
  lat_long : Z * Z
}.

(** Modelled from the spec: the TriggerEvent record of section 3. *)
Record TriggerEvent : Type := mkEvent {
  ev_token : nat;
  ev_source : string;
  ev_geo : option Geo;
  ev_user_agent : string;
  ev_metadata : string;
  ev_time : Z
}.

(** Modelled from the spec: the IngestResult of section 4.2 with the
    error kinds of section 7. *)
Inductive IngestResult : Type :=
| Accepted (event : TriggerEvent) (transitioned : bool)
| Unauthorized
| UnknownToken
| InvalidTransition
| NotFound.

(** Modelled from the spec: the fingerprint of section 4.2, step 3:
    (token identifier, source address, timestamp, payload hash). *)
Definition Fingerprint : Type := string * string * Z * Z.

(** Modelled from the spec: a status change of a drive (from, to). *)
Definition Transition : Type := nat * Status * Status.

(** Modelled from the spec: the persisted state of section 6: the Token
    Registry (external id to token and drive), the drives, the trigger
    counters, the append-only event log, the transitions that fired, and
    the window of recent fingerprints with the time and the result of
    their ingestion. *)
Record State : Type := mkState {
  registry : gmap string (nat * nat);
  drives : gmap nat Status;
  trigger_count : gmap nat nat;
  events : list TriggerEvent;
  transitions : list Transition;
  recent : list (Fingerprint * Z * IngestResult)
}.

(** Modelled from the spec: [recordTrigger] of section 4.1: the first
    accepted trigger of a deployed drive fires deployed -> triggered;
    later triggers, and triggers of a recovered drive, are logged
    without a transition; a drive that has not reached [deployed] fails
    the guard. *)
Definition recordTrigger (drive : nat) (st : State)
  : (bool * gmap nat Status * list Transition) + IngestResult :=
  match drives st !! drive with
  | None => inr NotFound
  | Some deployed =>
      inl (true, <[drive := triggered]> (drives st),
           transitions st ++ [(drive, deployed, triggered)])
  | Some triggered | Some recovered =>
      inl (false, drives st, transitions st)
  | Some created | Some prepared => inr InvalidTransition
  end.

(** Modelled from the spec: identical fingerprints, field by field. *)
Definition fingerprint_eqb (a b : Fingerprint) : bool :=
  let '(t1, s1, ts1, h1) := a in
  let '(t2, s2, ts2, h2) := b in
  String.eqb t1 t2 && String.eqb s1 s2 && (ts1 =? ts2)%Z && (h1 =? h2)%Z.

Section Ingest.
(** The signature check, the payload hash, the geo lookup and the length
    of the trailing window are left open by the specification. *)
Variable authentic : Payload -> bool.
Variable payload_hash : Payload -> Z.
Variable lookup : string -> option Geo.
Variable window : Z.

(** Modelled from the spec: section 4.2, step 3. *)
Definition fingerprint (p : Payload) : Fingerprint :=
  (external_id p, source_addr p, timestamp p, payload_hash p).

(** Modelled from the spec: section 5, time-based eviction of the
    fingerprints that left the trailing window. *)
Definition evict (now : Z) (l : list (Fingerprint * Z * IngestResult))
  : list (Fingerprint * Z * IngestResult) :=
  List.filter (fun e => (now - snd (fst e) <=? window)%Z) l.

(** Modelled from the spec: the prior result of an identical fingerprint
    ingested within the window. *)
Definition prior (now : Z) (fp : Fingerprint) (st : State) : option IngestResult :=
  match List.find (fun e => fingerprint_eqb (fst (fst e)) fp) (evict now (recent st)) with
  | Some e => Some (snd e)
  | None => None
  end.

(** Modelled from the spec: [ingest] of section 4.2: authenticate,
    resolve, deduplicate, enrich, persist and transition as one unit;
    [now] is the time of receipt. *)
Definition ingest (now : Z) (p : Payload) (st : State) : IngestResult * State :=
  if negb (authentic p) then (Unauthorized, st)
  else
    match registry st !! external_id p with
    | None => (UnknownToken, st)
    | Some (token, drive) =>
        match prior now (fingerprint p) st with
        | Some r =>
            (r, mkState (registry st) (drives st) (trigger_count st) (events st)
                        (transitions st) (evict now (recent st)))
        | None =>
            let ev := mkEvent token (source_addr p) (lookup (source_addr p))
                              (user_agent p) (metadata p) (timestamp p) in
            match recordTrigger drive st with
            | inl (transitioned, drives', transitions') =>
                let r := Accepted ev transitioned in
                (r, mkState (registry st) drives'
                            (<[token := S (default O (trigger_count st !! token))]>
                               (trigger_count st))
                            (events st ++ [ev]) transitions'
                            ((fingerprint p, now, r) :: evict now (recent st)))
            | inr err => (err, st)
            end
        end
    end.
End Ingest.

(** Modelled from the spec: the transitions deployed -> triggered that fired. *)
Definition fired (l : list Transition) : nat :=
  length (List.filter (fun t => match t with
                                | (_, deployed, triggered) => true
                                | _ => false
                                end) l).
End Pipeline.

(** ** Webhook deliveries in receipt order *)

Module Deliveries.
Import Pipeline.

(** Modelled from the spec: a webhook delivery as the pipeline receives
    it (section 4.2): the time of receipt and the payload. *)
Definition Delivery : Type := (Z * Payload)%type.

Section Run.
Variable authentic : Payload -> bool.
Variable payload_hash : Payload -> Z.
Variable lookup : string -> option Geo.
Variable window : Z.

(** Modelled from the spec: deliveries are ingested one at a time, each
    as one unit, in the order of their receipt (section 4.2, ordering
    guarantee; section 5, per-event commit path). *)
Fixpoint run (ds : list Delivery) (st : State) : State :=
  match ds with
  | [] => st
  | d :: ds' =>
      run ds' (snd (ingest authentic payload_hash lookup window (fst d) (snd d) st))
  end.
End Run.




End Deliveries.

(** ** The actions of the auth store (stores/auth.js) and the logout of App.vue *)

Module AuthStore.
Import Auth Http Async.

(** The store together with the localStorage it writes through to. *)
Definition session : Type := Store * storage.

Definition setUser (u : option string) (s : session) : session :=
  (mkStore u (accessToken (fst s)) (refreshToken (fst s)), snd s).

(** [accessToken.value = response.data.access_token], the same for the
    refresh token, then the two [localStorage.setItem] calls, which store
    [String(value)]. *)
Definition setTokens (data : Transport.Body) (s : session) : session :=
  (mkStore (user (fst s)) (Transport.access_token data) (Transport.refresh_token data),
   <["refreshToken" := Transport.toString (Transport.refresh_token data)]>
     (<["accessToken" := Transport.toString (Transport.access_token data)]> (snd s))).

Definition logout : Async.t session unit :=
  modify (fun s => Auth.logout (fst s) (snd s)).

(** App.vue: [authStore.logout(); router.push('/login')]. *)
Definition appLogout : Async.t session unit :=
  logout;;
  emit (RouterPush "/login").

(** The navigation bar is rendered under [v-if="isAuthenticated"]. *)
Definition navShown (s : session) : bool := isAuthenticated (fst s).

(** The refs of the store hold what localStorage holds. *)
Definition synced (s : session) : Prop :=
  accessToken (fst s) = snd s !! "accessToken"
  /\ refreshToken (fst s) = snd s !! "refreshToken".

Definition loggedOut (s : session) : Prop :=
  fst s = mkStore None None None
  /\ snd s !! "accessToken" = None /\ snd s !! "refreshToken" = None.

(** *** The actions that call the server

    [login], [fetchUser] and [refresh] call the axios instance of
    services/api.js, whose interceptors read and write the same
    localStorage and may set the location.  They run on the store
    together with the world of that instance. *)
Definition page : Type := (Store * Transport.World)%type.

Definition session_of (b : page) : session :=
  (fst b, Transport.localStorage (snd b)).

(** A step of the store that touches its refs and localStorage only. *)
Definition in_page (f : session -> session) (b : page) : page :=
  let s := f (session_of b) in
  (fst s, Transport.mkWorld (snd s) (Transport.location_href (snd b))
                            (Transport.log (snd b)) (Transport.server (snd b))).

(** [None]: the rounds allowed to the instance ran out. *)
Definition result : Type := option (outcome unit * page).

Section Instance.
(** The rounds allowed to [api]; two are enough for every call. *)
Variable fuel : nat.
(** [response.data] of [GET /auth/me], which the store keeps as the user. *)
Variable userOf : Transport.Body -> string.

Definition fetchUser (b : page) : result :=
  if negb (truthy_item (accessToken (fst b))) then Some (Resolved tt, b)
  else
    match Transport.api fuel (Transport.fresh (Http.get "/auth/me")) (snd b) with
    | Some (Transport.Resolved data, w) =>
        Some (Resolved tt, in_page (setUser (Some (userOf data))) (fst b, w))
    | Some (Transport.Rejected _ _, w) =>
        Some (Resolved tt, in_page (fun s => Auth.logout (fst s) (snd s)) (fst b, w))
    | None => None
    end.

(** [login]: the form data is the body of the request (its content-type
    header is not part of [config]). *)
Definition login (username password : string) (b : page) : result :=
  match Transport.api fuel
          (Transport.fresh
             (post_data "/auth/login"
                (<["username" := Js.Str username]> {["password" := Js.Str password]})))
          (snd b) with
  | Some (Transport.Resolved data, w) => fetchUser (in_page (setTokens data) (fst b, w))
  | Some (Transport.Rejected status _, w) => Some (Rejected (HttpError status), (fst b, w))
  | None => None
  end.

Definition refresh (b : page) : result :=
  match refreshToken (fst b) with
  | Some token =>
      if negb (truthy_item (Some token)) then Some (Resolved tt, b)
      else
        match Transport.api fuel
                (Transport.fresh
                   (post_data "/auth/refresh" {["refresh_token" := Js.Str token]}))
                (snd b) with
        | Some (Transport.Resolved data, w) =>
            Some (Resolved tt, in_page (setTokens data) (fst b, w))
        | Some (Transport.Rejected _ _, w) =>
            Some (Resolved tt, in_page (fun s => Auth.logout (fst s) (snd s)) (fst b, w))
        | None => None
        end
  | None => Some (Resolved tt, b)
  end.

(** The store as [defineStore] sets it up on a page load: the refs are
    read from localStorage and the user is fetched when a token is there. *)
Definition create (w : Transport.World) : result :=
  let b : page := (useAuthStore (Transport.localStorage w), w) in
  if truthy_item (accessToken (fst b)) then fetchUser b else Some (Resolved tt, b).

(** What a caller can do with the store. *)
Inductive action : Type :=
| Login (username password : string)
| FetchUser
| Refresh
| Logout.

Definition perform (a : action) (b : page) : result :=
  match a with
  | Login u p => login u p b
  | FetchUser => fetchUser b
  | Refresh => refresh b
  | Logout => Some (Resolved tt, in_page (fun s => Auth.logout (fst s) (snd s)) b)
  end.

Fixpoint run (b : page) (acts : list action) : option page :=
  match acts with
  | [] => Some b
  | a :: acts' =>
      match perform a b with
      | Some (_, b') => run b' acts'
      | None => None
      end
  end.
End Instance.

(** The server never answers with a 401. *)
Definition never_401 (w : Transport.World) : Prop :=
  forall l status,
    Transport.server w l = Transport.Failure status -> Transport.is_401 status = false.

(** The requests whose reply carries tokens. *)
Definition token_request (r : Transport.Request) : bool :=
  String.eqb (cfg_url (Transport.config r)) "/auth/login"
  || String.eqb (cfg_url (Transport.config r)) "/auth/refresh".

(** A successful reply to such a request carries both tokens. *)
Definition complete (w : Transport.World) : Prop :=
  forall l r data,
    token_request r = true ->
    Transport.server w (l ++ [Transport.SentApi r]) = Transport.Success data ->
    is_Some (Transport.access_token data) /\ is_Some (Transport.refresh_token data).

(** The url of each request, as the code writes it. *)
Definition urls (l : list Transport.sent) : list string :=
  map (fun m => match m with
                | Transport.SentApi r => cfg_url (Transport.config r)
                | Transport.SentRefresh _ => "/api/auth/refresh"
                end) l.
End AuthStore.

(** ** The filter bar of the drives list (Drives.vue) *)

Module DrivesFilters.
Import Model Js Http Async Drives.

Definition set_filters (f : Filters) (st : State) : State :=
  mkState (drives st) (loading st) (showCreateModal st) f (newDrive st).

(** The two selects, bound with [v-model]. *)
Definition selectCampaign (id : value) (st : State) : State :=
  set_filters (mkFilters id (f_status (filters st))) st.

Definition selectStatus (s : value) (st : State) : State :=
  set_filters (mkFilters (f_campaign_id (filters st)) s) st.

Definition applyFilters (r_list : reply (list Drive)) : Async.t State unit :=
  loadDrives r_list.

Definition clearFilters (r_list : reply (list Drive)) : Async.t State unit :=
  modify (set_filters (mkFilters (Str "") (Str "")));;
  loadDrives r_list.
End DrivesFilters.

(** ** The refresh timer of the alerts view (Alerts.vue) *)

Module AlertsTimer.
Import Alerts.


(** The events that leave the timer alone. *)
Definition keeps_timer (ev : event) : bool :=
  match ev with ToggleAutoRefresh => false | _ => true end.

(** The events that call the server whatever the timer. *)
Definition is_click (ev : event) : bool :=
  match ev with ClickApply _ _ | ClickRefresh _ _ => true | _ => false end.
End AlertsTimer.

(** ** The markers of the map view (MapView.vue) *)

Module MapMarkers.
Import Js MapView.



End MapMarkers.

(** ** The dashboard (Dashboard.vue) *)

Module Dashboard.
Import Js Http Async.

(** The reply of [GET /reports/summary]; [drives_by_status] may be
    missing. *)
Record Summary : Type := mkSummary {
  total_campaigns : value;
  active_campaigns : value;
  total_drives : value;
  total_triggers : value;
  drives_by_status : option object
}.

Record State : Type := mkState {
  stats : option Summary;
  recentAlerts : list Alerts.Alert;
  loading : bool
}.

Definition initial : State := mkState None [] true.

(** [onMounted]; [slice(0, 10)] keeps the first ten alerts. *)
Definition onMounted (r_summary : reply Summary) (r_alerts : reply (list Alerts.Alert))
  : Async.t State unit :=
  try_finally
    (try_catch
       (res ← call_both reportsApi.summary r_summary
                        (alertsApi.recent (int 24)) r_alerts;
        modify (fun st => mkState (Some (fst res)) (recentAlerts st) (loading st));;
        modify (fun st => mkState (stats st) (take 10 (snd res)) (loading st)))
       (fun _ => emit (ConsoleError "Failed to load dashboard data:")))
    (fun st => mkState (stats st) (recentAlerts st) false).

(** [stats?.k || 0] and [stats?.drives_by_status?.k || 0] *)
Definition card (st : State) (k : Summary -> value) : value :=
  Js.or (from_option k Undefined (stats st)) (int 0).

Definition statusCard (st : State) (k : string) : value :=
  Js.or (match stats st with
         | Some s => from_option (fun o => field o k) Undefined (drives_by_status s)
         | None => Undefined
         end) (int 0).

(** One entry of the recent alerts. *)
Record Row : Type := mkRow {
  row_drive_code : value;
  row_token_type : value;
  row_filename : option value;
  row_ip : value;
  row_city : value;
  row_separator : value;
  row_country : value
}.

Definition renderAlert (alert : Alerts.Alert) : Row :=
  mkRow
    (Alerts.drive_code alert)
    (Alerts.token_type alert)
    (if truthy (Alerts.token_filename alert) then Some (Alerts.token_filename alert) else None)
    (Js.or (Alerts.source_ip alert) (Str "Unknown IP"))
    (Alerts.geo_city alert)
    (if truthy (Js.and (Alerts.geo_city alert) (Alerts.geo_country alert))
     then Str ", " else Str "")
    (Alerts.geo_country alert).

(** The page: the spinner, or the seven numbers of the four cards, the
    alerts and the notice shown when there is none. *)
Inductive page : Type :=
| Spinner
| Loaded (numbers : list value) (rows : list Row) (noAlerts : bool).

Definition render (st : State) : page :=
  if loading st then Spinner
  else Loaded [card st total_campaigns; card st active_campaigns;
               card st total_drives; statusCard st "deployed";
               card st total_triggers; statusCard st "triggered";
               statusCard st "prepared"]
              (map renderAlert (recentAlerts st))
              (length (recentAlerts st) =? 0)%nat.
End Dashboard.

(** ** The reports view (Reports.vue) *)

Module Reports.
Import Js Http Async.

Record State : Type := mkState {
  campaigns : list Campaigns.Row;
  selectedCampaign : value;
  report : option SuccessRate.Stats;
  loading : bool
}.

Definition initial : State := mkState [] (Str "") None true.

Definition set_loading (b : bool) (st : State) : State :=
  mkState (campaigns st) (selectedCampaign st) (report st) b.
Definition set_selectedCampaign (v : value) (st : State) : State :=
  mkState (campaigns st) v (report st) (loading st).

Section Component.
(** The engine's ToString, applied by a template literal. *)
Variable ToString : value -> string.

(** [loadReport]; the charts that [updateCharts] draws are not kept in
    this state. *)
Definition loadReport (r_report : reply SuccessRate.Stats) : Async.t State unit :=
  st ← read;
  if negb (truthy (selectedCampaign st)) then mret tt
  else
    modify (set_loading true);;
    try_finally
      (rep ← call (reportsApi.campaign (ToString (selectedCampaign st))) r_report;
       modify (fun st => mkState (campaigns st) (selectedCampaign st) (Some rep) (loading st)))
      (set_loading false).

Definition loadCampaigns (r_list : reply (list Campaigns.Row))
    (r_report : reply SuccessRate.Stats) : Async.t State unit :=
  modify (set_loading true);;
  try_finally
    (rows ← call campaignsApi.list r_list;
     modify (fun st => mkState rows (selectedCampaign st) (report st) (loading st));;
     match rows with
     | first :: _ =>
         modify (set_selectedCampaign (Campaigns.id first));;
         loadReport r_report
     | [] => mret tt
     end)
    (set_loading false).

Definition exportCsv (r_csv : reply unit) : Async.t State unit :=
  st ← read;
  call (reportsApi.exportCsv (ToString (selectedCampaign st))) r_csv;;
  emit (SaveFile ("campaign-" +:+ ToString (selectedCampaign st) +:+ "-report.csv")).

(** The select binds [selectedCampaign] to the id of the chosen
    campaign and then calls [loadReport]; the Export button is rendered
    under [v-if="selectedCampaign"]. *)
Inductive event : Type :=
| SelectCampaign (i : nat) (r_report : reply SuccessRate.Stats)
| ClickExport (r_csv : reply unit).

Definition handle (ev : event) : Async.t State unit :=
  match ev with
  | SelectCampaign i r_report =>
      st ← read;
      match campaigns st !! i with
      | Some c => modify (set_selectedCampaign (Campaigns.id c));; loadReport r_report
      | None => mret tt
      end
  | ClickExport r_csv =>
      st ← read;
      if truthy (selectedCampaign st) then exportCsv r_csv else mret tt
  end.

Fixpoint run (st : State) (evs : list event) : State * list effect :=
  match evs with
  | [] => (st, [])
  | ev :: evs' =>
      let '(_, st1, tr1) := handle ev st in
      let '(st2, tr2) := run st1 evs' in
      (st2, tr1 ++ tr2)
  end.

(** [onMounted] runs [loadCampaigns]; events follow. *)
Definition session (r_list : reply (list Campaigns.Row))
    (r_report : reply SuccessRate.Stats) (evs : list event) : State * list effect :=
  let '(_, st0, tr0) := loadCampaigns r_list r_report initial in
  let '(st, tr) := run st0 evs in
  (st, tr0 ++ tr).

(** The effect concerns the campaign [c] of the list. *)
Definition about (c : Campaigns.Row) (e : effect) : Prop :=
  e = Request (reportsApi.campaign (ToString (Campaigns.id c)))
  \/ e = Request (reportsApi.exportCsv (ToString (Campaigns.id c)))
  \/ e = SaveFile ("campaign-" +:+ ToString (Campaigns.id c) +:+ "-report.csv").

(** Every effect concerns a campaign of the list. *)
Definition all_about (rows : list Campaigns.Row) (tr : list effect) : Prop :=
  forall e, In e tr -> exists c, In c rows /\ about c e.
End Component.

(** The list is the one the server gave, and a chosen campaign is one
    of the list. *)
Definition chosen_from (rows : list Campaigns.Row) (st : State) : Prop :=
  campaigns st = rows
  /\ (truthy (selectedCampaign st) = true ->
      exists c, In c rows /\ selectedCampaign st = Campaigns.id c).

(** The campaigns the select offers, given the reply to the list
    request. *)
Definition listed (r_list : reply (list Campaigns.Row)) : list Campaigns.Row :=
  match r_list with Ok rows => rows | Err _ => [] end.
End Reports.

(** ** The profile form (Profiles.vue) *)

Module Profiles.

(** [tokenTypes]: the values of the buttons. *)
Definition tokenTypes : list string := ["dns"; "word"; "excel"; "pdf"; "folder"; "qr"].

(** [token_config.types] of a new or reset form. *)
Definition defaultTypes : list string := ["dns"; "word"].

(** [types.indexOf(type)], [None] for -1. *)
Fixpoint indexOf (type : string) (types : list string) : option nat :=
  match types with
  | [] => None
  | t :: rest => if String.eqb t type then Some 0%nat else option_map S (indexOf type rest)
  end.

(** [types.includes(type)] *)
Definition includes (type : string) (types : list string) : bool :=
  existsb (String.eqb type) types.

(** [types.splice(index, 1)] *)
Definition splice1 (index : nat) (types : list string) : list string :=
  take index types ++ drop (S index) types.

Definition toggleTokenType (type : string) (types : list string) : list string :=
  match indexOf type types with
  | None => types ++ [type]
  | Some index => splice1 index types
  end.

(** The types after a series of clicks on the buttons of a fresh form. *)
Definition clicks (types : list string) (cs : list string) : list string :=
  fold_left (fun ts c => toggleTokenType c ts) cs types.

(** How often the button of [type] is among the clicks. *)
Definition clicked (type : string) (cs : list string) : nat :=
  length (List.filter (String.eqb type) cs).

(** *** Label suggestions

    A string is its sequence of UTF-16 code units. *)
Definition jsstring : Type := list Z.

Definition comma : Z := 44.
Definition space : Z := 32.

(** WhiteSpace and LineTerminator of ECMAScript, which [trim] strips. *)
Definition isWhiteSpace (c : Z) : bool :=
  (c =? 9) || (c =? 10) || (c =? 11) || (c =? 12) || (c =? 13) || (c =? 32)
  || (c =? 160) || (c =? 5760) || ((8192 <=? c) && (c <=? 8202))
  || (c =? 8232) || (c =? 8233) || (c =? 8239) || (c =? 8287)
  || (c =? 12288) || (c =? 65279).

(** [s.split(',')] *)
Fixpoint split (s : jsstring) : list jsstring :=
  match s with
  | [] => [[]]
  | c :: rest =>
      if c =? comma then [] :: split rest
      else match split rest with
           | x :: xs => (c :: x) :: xs
           | [] => [[c]]
           end
  end.

Fixpoint trimStart (s : jsstring) : jsstring :=
  match s with
  | [] => []
  | c :: rest => if isWhiteSpace c then trimStart rest else s
  end.

Definition trimEnd (s : jsstring) : jsstring := rev (trimStart (rev s)).

Definition trim (s : jsstring) : jsstring := trimEnd (trimStart s).

(** [labels.join(', ')] *)
Fixpoint join (labels : list jsstring) : jsstring :=
  match labels with
  | [] => []
  | [l] => l
  | l :: rest => l ++ [comma; space] ++ join rest
  end.

(** The [@input] handler:
    [value.split(',').map(s => s.trim()).filter(Boolean)] *)
Definition parse (text : jsstring) : list jsstring :=
  List.filter (fun s => negb (length s =? 0)%nat) (map trim (split text)).

(** A label that the handler can produce: not empty, without a comma,
    and with no white space at either end. *)
Definition clean (l : jsstring) : Prop :=
  l <> [] /\ ~ In comma l /\ trimStart l = l /\ trimStart (rev l) = rev l.
End Profiles.


(** * Properties *)

(** ** JavaScript values *)

Example Math_round_half : Js.Math_round (115 / 2)%float = 58%float.
Proof. reflexivity. Qed.

Example Math_round_below_half : Js.Math_round ((23 / 40) * 100)%float = 57%float.
Proof. reflexivity. Qed.

Example Math_round_negative_half : Js.Math_round (-5 / 2)%float = (-2)%float.
Proof. reflexivity. Qed.

Example Math_round_small : Js.Math_round (1 / 4)%float = 0%float.
Proof. reflexivity. Qed.


Lemma truthy_or (a b : Js.value) :
  Js.truthy (Js.or a b) = Js.truthy a || Js.truthy b.
Proof. unfold Js.or. destruct (Js.truthy a) eqn:E; simpl; auto. Qed.

Lemma truthy_non_null (v : Js.value) : Js.truthy v = true -> Js.non_null v = true.
Proof. destruct v; simpl; auto. Qed.

(** A number is truthy exactly when it is neither a zero nor NaN. *)
Lemma truthy_num (f : float) :
  Js.truthy (Js.Num f) = true <->
  PrimFloat.eqb f 0%float = false /\ PrimFloat.is_nan f = false.
Proof.
  simpl. rewrite andb_true_iff, !negb_true_iff. tauto.
Qed.

(** ** Success rate *)

Section SuccessRateFacts.
Import Js SuccessRate.
Variable StringToNumber : string -> float.

Lemma report_is_stats (s : Stats) :
  reportSuccessRate StringToNumber s = statsSuccessRate StringToNumber (Some s).
Proof. reflexivity. Qed.

(** No stats, or a falsy [deployed]: the card shows 0 and nothing is divided. *)
Lemma rate_without_deployed (stats : option Stats) :
  truthy (from_option deployed Undefined stats) = false ->
  statsSuccessRate StringToNumber stats = (Num 0%float, []).
Proof.
  destruct stats as [s|]; simpl; [|reflexivity].
  unfold statsSuccessRate. intros ->. reflexivity.
Qed.

Lemma rate_with_deployed (s : Stats) :
  truthy (deployed s) = true ->
  statsSuccessRate StringToNumber (Some s) =
    (Num (Math_round (PrimFloat.mul
            (PrimFloat.div (toNumber StringToNumber (triggered s))
                           (toNumber StringToNumber (deployed s))) 100%float)),
     [(toNumber StringToNumber (triggered s), toNumber StringToNumber (deployed s))]).
Proof. unfold statsSuccessRate. intros ->. reflexivity. Qed.

(** A divisor that is a number, [null] or [undefined] is never zero. *)
Lemma divisor_nonzero (stats : option Stats) (x y : float) :
  (forall s str, stats = Some s -> deployed s <> Str str) ->
  In (x, y) (snd (statsSuccessRate StringToNumber stats)) ->
  PrimFloat.eqb y 0%float = false.
Proof.
  intros Hstr Hin. destruct stats as [s|]; simpl in Hin; [|contradiction].
  unfold statsSuccessRate in Hin.
  destruct (truthy (deployed s)) eqn:Ht; simpl in Hin; [|contradiction].
  destruct Hin as [Heq|[]]. inversion Heq; subst. clear Heq.
  destruct (deployed s) eqn:Hd; simpl in *; try discriminate.
  - destruct b; [reflexivity | discriminate].
  - apply andb_true_iff in Ht as [Hz _]. now apply negb_true_iff in Hz.
  - exfalso. eapply Hstr; eauto.
Qed.
End SuccessRateFacts.

Lemma agrees_upto_sound (N : nat) (t d : Z) :
  SuccessRate.agrees_upto N = true ->
  0 <= t <= d -> 0 < d <= Z.of_nat N ->
  SuccessRate.agrees t d = true.
Proof.
  intros H Ht Hd. unfold SuccessRate.agrees_upto in H.
  rewrite forallb_forall in H.
  specialize (H (Z.to_nat (d - 1))).
  rewrite forallb_forall in H.
  replace (Z.of_nat (S (Z.to_nat (d - 1)))) with d in H by lia.
  specialize (fun Hin => H Hin (Z.to_nat t)).
  rewrite Z2Nat.id in H by lia.
  apply H; apply in_seq; lia.
Qed.

Lemma agrees_upto_200 : SuccessRate.agrees_upto 200 = true.
Proof. vm_compute. reflexivity. Qed.

(** C10 (as amended): the success rate card shows
    [Math.round((triggered / deployed) * 100)], computed in double
    precision, when the stats are loaded and [deployed] is a number other
    than zero and NaN, and 0 when the stats are missing or [deployed] is
    zero, [null] or [undefined]; the report card evaluates the same
    expression.  The only division evaluated is the one by a truthy
    [deployed], so no division by a zero count takes place.  For integer
    counts [0 <= triggered <= deployed <= 200] the number shown is the
    exactly rounded percentage, except that it may be one less when the
    percentage lies exactly halfway between two integers. *)
Theorem success_rate_shown (StringToNumber : string -> float)
    (stats : option SuccessRate.Stats) :
  (Js.truthy (from_option SuccessRate.deployed Js.Undefined stats) = false ->
   SuccessRate.statsSuccessRate StringToNumber stats = (Js.Num 0%float, []))
  /\ (forall s f,
        stats = Some s -> SuccessRate.deployed s = Js.Num f ->
        PrimFloat.eqb f 0%float = false -> PrimFloat.is_nan f = false ->
        SuccessRate.statsSuccessRate StringToNumber stats =
          (Js.Num (Js.Math_round (PrimFloat.mul
             (PrimFloat.div (Js.toNumber StringToNumber (SuccessRate.triggered s)) f)
             100%float)),
           [(Js.toNumber StringToNumber (SuccessRate.triggered s), f)]))
  /\ (forall x y,
        (forall s str, stats = Some s -> SuccessRate.deployed s <> Js.Str str) ->
        In (x, y) (snd (SuccessRate.statsSuccessRate StringToNumber stats)) ->
        PrimFloat.eqb y 0%float = false)
  /\ (forall s, stats = Some s ->
        SuccessRate.reportSuccessRate StringToNumber s =
        SuccessRate.statsSuccessRate StringToNumber stats)
  /\ (forall t d, 0 <= t <= d -> 0 < d <= 200 ->
        SuccessRate.shown t d = Some (SuccessRate.exact_rate t d)
        \/ (SuccessRate.is_tie t d = true
            /\ SuccessRate.shown t d = Some (SuccessRate.exact_rate t d - 1))).
Proof.
  split; [apply rate_without_deployed|].
  split.
  { intros s f -> Hd Hz Hn.
    rewrite rate_with_deployed.
    - rewrite Hd. reflexivity.
    - rewrite Hd. apply truthy_num. auto. }
  split.
  { intros x y Hs Hin. eapply divisor_nonzero; eauto. }
  split.
  { intros s ->. apply report_is_stats. }
  intros t d Ht Hd.
  pose proof (agrees_upto_sound 200 t d agrees_upto_200 Ht) as H.
  specialize (H ltac:(simpl; lia)).
  unfold SuccessRate.agrees in H.
  destruct (SuccessRate.shown t d) as [n|]; [|discriminate].
  apply orb_true_iff in H as [H|H].
  - left. apply Z.eqb_eq in H. congruence.
  - right. apply andb_true_iff in H as [H1 H2].
    apply Z.eqb_eq in H2. split; congruence.
Qed.

Lemma success_rate_shown_witness :
  SuccessRate.statsSuccessRate (fun _ => PrimFloat.nan) None = (Js.Num 0%float, [])
  /\ fst (SuccessRate.statsSuccessRate (fun _ => PrimFloat.nan)
            (Some (SuccessRate.mkStats (Js.int 10) (Js.int 8) (Js.int 3))))
     = Js.Num 38%float
  /\ SuccessRate.shown 1 3 = Some 33.
Proof.
  split.
  { apply (success_rate_shown (fun _ => PrimFloat.nan) None). reflexivity. }
  split.
  { destruct (success_rate_shown (fun _ => PrimFloat.nan)
                (Some (SuccessRate.mkStats (Js.int 10) (Js.int 8) (Js.int 3))))
      as (_ & H & _).
    rewrite (H _ 8%float eq_refl eq_refl eq_refl eq_refl). reflexivity. }
  destruct (success_rate_shown (fun _ => PrimFloat.nan) None) as (_ & _ & _ & _ & H).
  destruct (H 1 3 ltac:(lia) ltac:(lia)) as [E|[E _]].
  - exact E.
  - discriminate E.
Defined.

(** C10 (as stated) fails: with 23 of 40 deployed drives triggered the
    card shows 57, while 100 * 23 / 40 = 57.5 rounds to 58. *)
Lemma success_rate_not_exact :
  fst (SuccessRate.statsSuccessRate (fun _ => PrimFloat.nan)
         (Some (SuccessRate.mkStats (Js.int 40) (Js.int 40) (Js.int 23))))
    = Js.Num 57%float
  /\ SuccessRate.exact_rate 23 40 = 58
  /\ Js.Math_round (100 * 23 / 40)%float = 58%float.
Proof. repeat split; reflexivity. Qed.

(** ** Drive detail view *)

Section DriveDetailFacts.
Import Model Js Http Async DriveDetail.
Variable route_id : string.
Variable route_action : value.
Variable parseFloat : string -> float.

Ltac async_unfold :=
  cbv [mbind mret async_bind async_ret Async.bind Async.ret Async.throw Async.read
       Async.modify Async.emit Async.call Async.call_both Async.try_catch
       Async.try_finally Async.deref Async.trace_of Async.state_of Async.outcome_of].

Lemma loadDrive_run (r : reload) (st : State) :
  loadDrive route_id r st =
  match r_get r, r_tokens r with
  | Ok d, Ok ts =>
      (Resolved tt, set_loading false (set_tokens ts (set_drive (Some d) (set_loading true st))),
       [Request (drivesApi.get route_id); Request (drivesApi.tokens route_id)])
  | _, _ =>
      (Resolved tt, set_loading false (set_loading true st),
       [Request (drivesApi.get route_id); Request (drivesApi.tokens route_id);
        ConsoleError "Failed to load drive:"; RouterPush "/drives"])
  end.
Proof.
  unfold loadDrive. async_unfold.
  destruct (r_get r), (r_tokens r); reflexivity.
Qed.

(** [loadDrive] always resolves, leaves the form alone and sends no data. *)
Lemma loadDrive_facts (r : reload) (st : State) :
  exists st' tr,
    loadDrive route_id r st = (Resolved tt, st', tr)
    /\ deployment st' = deployment st
    /\ showDeployModal st' = showDeployModal st
    /\ deploying st' = deploying st
    /\ (forall c, In (Request c) tr -> cfg_data c = None).
Proof.
  rewrite loadDrive_run.
  destruct (r_get r), (r_tokens r); do 2 eexists; (split; [reflexivity|]);
    repeat split; simpl; intros c Hc;
    repeat (destruct Hc as [Hc|Hc]; [inversion Hc; reflexivity|]); try contradiction;
    try discriminate.
Qed.

Lemma deployDrive_run (rd : reply unit) (r : reload) (st : State) :
  deployDrive route_id rd r st =
  if guard_passes st
  then match drive st with
       | None => (Rejected TypeError, set_deploying false (set_deploying true st), [])
       | Some d =>
           match rd with
           | Err s =>
               (Rejected (HttpError s), set_deploying false (set_deploying true st),
                [Request (drivesApi.deploy (id d) (deployment st))])
           | Ok _ =>
               let '(o, st', tr) :=
                 loadDrive route_id r (set_showDeployModal false (set_deploying true st)) in
               (o, set_deploying false st',
                Request (drivesApi.deploy (id d) (deployment st)) :: tr)
           end
       end
  else (Resolved tt, st, [Alert "Please provide location coordinates"]).
Proof.
  unfold deployDrive, guard_passes, Js.not. async_unfold.
  destruct (truthy (field (deployment st) "latitude")); simpl; [|reflexivity].
  destruct (truthy (field (deployment st) "longitude")); simpl; [|reflexivity].
  destruct (drive st) as [d|]; simpl; [|reflexivity].
  destruct rd; simpl; [|reflexivity].
  destruct (loadDrive route_id r _) as [[o s'] tr]. reflexivity.
Qed.

Lemma prepareDrive_run (rp : reply unit) (r : reload) (st : State) :
  prepareDrive route_id rp r st =
  match drive st with
  | None => (Rejected TypeError, st, [])
  | Some d =>
      match rp with
      | Err s => (Rejected (HttpError s), st, [Request (drivesApi.prepare (id d))])
      | Ok _ =>
          let '(o, st', tr) := loadDrive route_id r st in
          (o, st', Request (drivesApi.prepare (id d)) :: tr)
      end
  end.
Proof.
  unfold prepareDrive. async_unfold.
  destruct (drive st) as [d|]; simpl; [|reflexivity].
  destruct rp; simpl; [|reflexivity].
  destruct (loadDrive route_id r _) as [[o s'] tr]. reflexivity.
Qed.

Lemma downloadDrive_run (rd : reply unit) (st : State) :
  downloadDrive rd st =
  match drive st with
  | None => (Rejected TypeError, st, [])
  | Some d =>
      match rd with
      | Err s => (Rejected (HttpError s), st, [Request (drivesApi.download (id d))])
      | Ok _ => (Resolved tt, st, [Request (drivesApi.download (id d));
                                   SaveFile (unique_code d +:+ ".zip")])
      end
  end.
Proof.
  unfold downloadDrive. async_unfold.
  destruct (drive st) as [d|] eqn:E; simpl; [|reflexivity].
  destruct rd; simpl; [|reflexivity].
  rewrite E. reflexivity.
Qed.

Lemma onMounted_run (r : reload) (st : State) :
  onMounted route_id route_action r st =
  let '(o, st', tr) := loadDrive route_id r st in
  (Resolved tt,
   (if strict_eq route_action (Str "deploy") then set_showDeployModal true st' else st'),
   tr).
Proof.
  unfold onMounted. async_unfold.
  destruct (loadDrive_facts r st) as (st' & tr & E & _). rewrite E.
  destruct (strict_eq route_action (Str "deploy")); simpl; rewrite app_nil_r; reflexivity.
Qed.








Lemma field_insert_eq (o : object) (k : string) (v : value) :
  field (<[k := v]> o) k = v.
Proof. unfold field. rewrite lookup_insert_eq. reflexivity. Qed.

Lemma field_insert_ne (o : object) (k k' : string) (v : value) :
  k <> k' -> field (<[k := v]> o) k' = field o k'.
Proof. intros H. unfold field. rewrite lookup_insert_ne by exact H. reflexivity. Qed.


End DriveDetailFacts.

Section DriveDetailSessions.
Import Model Js Http Async DriveDetail.
Variable route_id : string.
Variable route_action : value.
Variable parseFloat : string -> float.




(** The deployment request goes out exactly when the guard passes. *)
Lemma deployDrive_sends (rd : reply unit) (r : reload) (st : State) (d : Drive) :
  drive st = Some d ->
  In (Request (drivesApi.deploy (id d) (deployment st)))
     (snd (deployDrive route_id rd r st))
  <-> guard_passes st = true.
Proof.
  intros Hd. rewrite deployDrive_run, Hd.
  destruct (guard_passes st).
  - split; [reflexivity|]. intros _.
    destruct rd.
    + destruct (loadDrive route_id r _) as [[o st'] tr]. left. reflexivity.
    + left. reflexivity.
  - split; [|discriminate]. intros [H|[]]. discriminate.
Qed.

(** When the guard fails the operator gets the alert and nothing is sent. *)
Lemma deployDrive_alert (rd : reply unit) (r : reload) (st : State) :
  guard_passes st = false ->
  deployDrive route_id rd r st =
    (Resolved tt, st, [Alert "Please provide location coordinates"]).
Proof. intros H. rewrite deployDrive_run, H. reflexivity. Qed.

(** A coordinate that is [null] does not pass the guard. *)
Lemma guard_needs_non_null (st : State) :
  guard_passes st = true ->
  non_null (field (deployment st) "latitude") = true
  /\ non_null (field (deployment st) "longitude") = true.
Proof.
  unfold guard_passes. intros H. apply andb_true_iff in H as [H1 H2].
  split; apply truthy_non_null; assumption.
Qed.
End DriveDetailSessions.



(** C1 (evaluated where it fails): the operator opens the deploy form of
    a prepared drive, types latitude 0 and longitude -78.5 and submits.
    Both coordinates are numbers, not [null], yet [deployDrive] shows the
    alert and sends no request: the trace holds the two requests of the
    initial load and the alert only. *)
Theorem deployDrive_rejects_zero_latitude :
  let parseFloat := fun s : string =>
    if String.eqb s "0" then 0%float
    else if String.eqb s "-78.5" then (-157 / 2)%float
    else PrimFloat.nan in
  let r := DriveDetail.mkReload
             (Async.Ok (Model.mkDrive "7" (Js.Str "prepared") "USB-A1B2-ACME"))
             (Async.Ok []) in
  let run := DriveDetail.session "7" Js.Undefined parseFloat r
               [DriveDetail.ClickRecordDeployment;
                DriveDetail.InputLatitude "0";
                DriveDetail.InputLongitude "-78.5";
                DriveDetail.SubmitDeployForm (Async.Ok tt) r] in
  Http.field (DriveDetail.deployment (fst run)) "latitude" = Js.Num 0%float
  /\ Http.field (DriveDetail.deployment (fst run)) "longitude" = Js.Num (-157 / 2)%float
  /\ Js.non_null (Http.field (DriveDetail.deployment (fst run)) "latitude") = true
  /\ Js.non_null (Http.field (DriveDetail.deployment (fst run)) "longitude") = true
  /\ snd run = [Async.Request (drivesApi.get "7");
                Async.Request (drivesApi.tokens "7");
                Async.Alert "Please provide location coordinates"].
Proof. vm_compute. repeat split; reflexivity. Qed.

(** ** Action buttons of the drive views *)

Lemma rowActions_guarded (d : Model.Drive) :
  (forall id, In (Drives.PrepareButton id) (Drives.rowActions d) ->
     Model.has_status d "created" = true /\ id = Model.id d)
  /\ (forall id, In (Drives.DownloadButton id) (Drives.rowActions d) ->
     Model.has_status d "prepared" = true /\ id = Model.id d)
  /\ (forall to, In (Drives.DeployLink to) (Drives.rowActions d) ->
     Model.has_status d "prepared" = true
     /\ to = "/drives/" +:+ Model.id d +:+ "?action=deploy").
Proof.
  unfold Drives.rowActions.
  destruct (Model.has_status d "created"), (Model.has_status d "prepared"); simpl;
    (split; [|split]); intros x Hin;
    repeat (destruct Hin as [Hin|Hin]; [inversion Hin; subst; auto|]); try destruct Hin;
    try discriminate.
Qed.

Lemma actionButtons_guarded (d : Model.Drive) :
  (In DriveDetail.PrepareButton (DriveDetail.actionButtons d) <->
     Model.has_status d "created" = true)
  /\ (In DriveDetail.DownloadButton (DriveDetail.actionButtons d) <->
     Model.has_status d "prepared" = true)
  /\ (In DriveDetail.RecordDeploymentButton (DriveDetail.actionButtons d) <->
     Model.has_status d "prepared" = true).
Proof.
  unfold DriveDetail.actionButtons.
  destruct (Model.has_status d "created"), (Model.has_status d "prepared"); simpl;
    (split; [|split]); (split; intros Hin); try reflexivity; try discriminate;
    try (simpl; tauto);
    repeat (destruct Hin as [Hin|Hin]; try discriminate); try destruct Hin.
Qed.

(** The three buttons of the detail page follow the status of the drive. *)
Lemma buttons_offered_by_status (st : DriveDetail.State) :
  (forall rp r, DriveDetail.offered st (DriveDetail.ClickPrepare rp r) = true ->
     exists d, DriveDetail.drive st = Some d /\ Model.has_status d "created" = true)
  /\ (forall rd, DriveDetail.offered st (DriveDetail.ClickDownload rd) = true ->
     exists d, DriveDetail.drive st = Some d /\ Model.has_status d "prepared" = true)
  /\ (DriveDetail.offered st DriveDetail.ClickRecordDeployment = true ->
     exists d, DriveDetail.drive st = Some d /\ Model.has_status d "prepared" = true).
Proof.
  unfold DriveDetail.offered, DriveDetail.render, DriveDetail.actionButtons.
  (split; [|split]); intros;
    destruct (DriveDetail.loading st), (DriveDetail.drive st) as [d|],
      (DriveDetail.showDeployModal st);
    try (simpl in *; discriminate);
    destruct (Model.has_status d "created") eqn:E1,
      (Model.has_status d "prepared") eqn:E2;
    try (simpl in *; discriminate); eauto.
Qed.

(** C2 (evaluated where it fails): the detail page of a drive whose
    status is [created] is opened with [?action=deploy].  [onMounted]
    shows the deploy form, although none of the three action buttons for
    it is on the page, and submitting the form with coordinates sends
    [POST /drives/7/deploy]. *)
Theorem deploy_form_offered_for_created_drive :
  let d := Model.mkDrive "7" (Js.Str "created") "USB-A1B2-ACME" in
  let r := DriveDetail.mkReload (Async.Ok d) (Async.Ok []) in
  let parseFloat := fun _ : string => PrimFloat.nan in
  let st0 := snd (fst (DriveDetail.onMounted "7" (Js.Str "deploy") r DriveDetail.initial)) in
  let submit := DriveDetail.SubmitDeployForm (Async.Ok tt) r in
  let evs := [DriveDetail.ClickUseCurrentLocation
                (Some (Some ((75 / 2)%float, (-489 / 4)%float)));
              submit] in
  let body : Http.object :=
    <["longitude" := Js.Num (-489 / 4)%float]> (<["latitude" := Js.Num (75 / 2)%float]>
      (DriveDetail.deployment DriveDetail.initial)) in
  DriveDetail.drive st0 = Some d
  /\ Model.has_status d "prepared" = false
  /\ DriveDetail.render st0 =
       [DriveDetail.PrepareButton; DriveDetail.DeployForm;
        DriveDetail.UseCurrentLocation; DriveDetail.CancelButton]
  /\ DriveDetail.offered st0 submit = true
  /\ snd (DriveDetail.session "7" (Js.Str "deploy") parseFloat r evs) =
       [Async.Request (drivesApi.get "7");
        Async.Request (drivesApi.tokens "7");
        Async.Request (drivesApi.deploy "7" body);
        Async.Request (drivesApi.get "7");
        Async.Request (drivesApi.tokens "7")].
Proof. vm_compute. repeat split; reflexivity. Qed.

(** ** Campaign views *)

Section CampaignFacts.
Import Js Http Async.

Ltac async_unfold :=
  cbv [mbind mret async_bind async_ret Async.bind Async.ret Async.throw Async.read
       Async.modify Async.emit Async.call Async.call_both Async.try_catch
       Async.try_finally Async.deref Async.trace_of Async.state_of Async.outcome_of].

Lemma loadCampaigns_run (rl : reply (list Campaigns.Row)) (st : Campaigns.State) :
  exists o st',
    Campaigns.loadCampaigns rl st = (o, st', [Request campaignsApi.list])
    /\ Campaigns.newCampaign st' = Campaigns.newCampaign st.
Proof.
  unfold Campaigns.loadCampaigns. async_unfold.
  destruct rl; do 2 eexists; split; reflexivity.
Qed.

Lemma createCampaign_run (rc : reply unit) (rl : reply (list Campaigns.Row))
    (st : Campaigns.State) :
  exists o st',
    Campaigns.createCampaign rc rl st =
      (o, st', Request (campaignsApi.create (Campaigns.newCampaign st))
               :: match rc with Ok _ => [Request campaignsApi.list] | Err _ => [] end)
    /\ Campaigns.newCampaign st' =
         match rc with
         | Ok _ => Campaigns.emptyCampaign
         | Err _ => Campaigns.newCampaign st
         end.
Proof.
  unfold Campaigns.createCampaign.
  cbv [mbind mret async_bind async_ret Async.bind Async.ret Async.throw Async.read
       Async.modify Async.emit Async.call].
  destruct rc as [[]|s]; simpl.
  - match goal with |- context [Campaigns.loadCampaigns rl ?s] =>
      destruct (loadCampaigns_run rl s) as (o & st' & E & Hn); rewrite E end.
    do 2 eexists. split; [reflexivity | exact Hn].
  - do 2 eexists. split; reflexivity.
Qed.

Lemma emptyCampaign_keys : dom Campaigns.emptyCampaign = Campaigns.campaignKeys.
Proof.
  unfold Campaigns.campaignKeys, Campaigns.emptyCampaign.
  rewrite !dom_insert_L, dom_singleton_L. reflexivity.
Qed.

Lemma newCampaign_keys (st : Campaigns.State) :
  Campaigns.reachable st -> dom (Campaigns.newCampaign st) = Campaigns.campaignKeys.
Proof.
  induction 1 as [|rl st _ IH|b st _ IH|i text st _ IH|rc rl st _ IH].
  - apply emptyCampaign_keys.
  - unfold state_of. destruct (loadCampaigns_run rl st) as (o & st' & E & Hn).
    rewrite E. simpl. rewrite Hn. exact IH.
  - exact IH.
  - simpl. rewrite dom_insert_L, IH. unfold Campaigns.campaignKeys.
    destruct i; simpl; set_solver.
  - unfold state_of. destruct (createCampaign_run rc rl st) as (o & st' & E & Hn).
    rewrite E. simpl. rewrite Hn. destruct rc; [apply emptyCampaign_keys | exact IH].
Qed.

Lemma create_has_no_status (st : Campaigns.State) :
  Campaigns.reachable st ->
  writes_field (campaignsApi.create (Campaigns.newCampaign st)) "status" = false.
Proof.
  intros H. simpl. apply bool_decide_eq_false.
  rewrite <- elem_of_dom, (newCampaign_keys st H).
  unfold Campaigns.campaignKeys.
  rewrite !elem_of_union, !elem_of_singleton. intros [[E|E]|E]; discriminate.
Qed.

Variable route_id : string.

Lemma loadCampaign_run (rg : reply CampaignDetail.Campaign)
    (rs : reply SuccessRate.Stats) (st : CampaignDetail.State) :
  exists o st',
    CampaignDetail.loadCampaign route_id rg rs st =
      (o, st', Request (campaignsApi.get route_id)
               :: Request (campaignsApi.stats route_id)
               :: match rg, rs with
                  | Ok _, Ok _ => []
                  | _, _ => [ConsoleError "Failed to load campaign:";
                             RouterPush "/campaigns"]
                  end).
Proof.
  unfold CampaignDetail.loadCampaign. async_unfold.
  destruct rg, rs; do 2 eexists; reflexivity.
Qed.

Lemma updateCampaign_requests (ru : reply unit) (rg : reply CampaignDetail.Campaign)
    (rs : reply SuccessRate.Stats) (st : CampaignDetail.State) :
  requests (trace_of (CampaignDetail.updateCampaign route_id ru rg rs) st) =
  match CampaignDetail.campaign st with
  | None => []
  | Some c =>
      campaignsApi.update (CampaignDetail.id c) (CampaignDetail.editForm st)
      :: match ru with
         | Ok _ => [campaignsApi.get route_id; campaignsApi.stats route_id]
         | Err _ => []
         end
  end.
Proof.
  unfold CampaignDetail.updateCampaign, trace_of.
  cbv [mbind mret async_bind async_ret Async.bind Async.ret Async.throw Async.read
       Async.modify Async.emit Async.call Async.deref].
  destruct (CampaignDetail.campaign st) as [c|]; simpl; [|reflexivity].
  destruct ru; simpl; [|reflexivity].
  match goal with |- context [CampaignDetail.loadCampaign route_id rg rs ?s] =>
    destruct (loadCampaign_run rg rs s) as (o & st' & E); rewrite E end.
  simpl. destruct rg, rs; reflexivity.
Qed.

Lemma selectStatus_sets (i : nat) (opt : string) (st : CampaignDetail.State) :
  CampaignDetail.statusOptions !! i = Some opt ->
  field (CampaignDetail.editForm (CampaignDetail.selectStatus i st)) "status" = Str opt.
Proof.
  intros H. unfold CampaignDetail.selectStatus. rewrite H. simpl.
  unfold field. rewrite lookup_insert_eq. reflexivity.
Qed.

Lemma selectStatus_option (i : nat) (st : CampaignDetail.State) :
  CampaignDetail.selectStatus i st = st
  \/ exists opt, In opt ["draft"; "active"; "completed"; "archived"]
       /\ CampaignDetail.editForm (CampaignDetail.selectStatus i st) =
          <["status" := Str opt]> (CampaignDetail.editForm st).
Proof.
  unfold CampaignDetail.selectStatus.
  destruct (CampaignDetail.statusOptions !! i) as [opt|] eqn:E; [|left; reflexivity].
  right. exists opt. split; [|reflexivity].
  apply list_elem_of_lookup_2, list_elem_of_In in E. exact E.
Qed.

Lemma typeField_keeps_status (k text : string) (st : CampaignDetail.State) :
  k <> "status" ->
  field (CampaignDetail.editForm (CampaignDetail.typeField k text st)) "status" =
  field (CampaignDetail.editForm st) "status".
Proof.
  intros H. unfold CampaignDetail.typeField, field. simpl.
  rewrite lookup_insert_ne by exact H. reflexivity.
Qed.
End CampaignFacts.

(** C6: the status select of the edit form offers [draft], [active],
    [completed] and [archived]; choosing an option stores it in
    [editForm.status], editing another field leaves it alone, and
    [updateCampaign] sends [PUT /campaigns/{id}] with the edit form as
    its body, so with the status as the form holds it.  Among the
    requests of the campaign views (create, load, update, delete) that
    is the only one that writes a [status]. *)
Theorem campaign_status_operator_set (route_id : string) :
  CampaignDetail.statusOptions = ["draft"; "active"; "completed"; "archived"]
  /\ (forall i opt st,
        CampaignDetail.statusOptions !! i = Some opt ->
        Http.field (CampaignDetail.editForm (CampaignDetail.selectStatus i st)) "status"
          = Js.Str opt)
  /\ (forall k text st, k <> "status" ->
        Http.field (CampaignDetail.editForm (CampaignDetail.typeField k text st)) "status"
          = Http.field (CampaignDetail.editForm st) "status")
  /\ (forall st c ru rg rs,
        CampaignDetail.campaign st = Some c ->
        exists rest,
          Async.requests (Async.trace_of
            (CampaignDetail.updateCampaign route_id ru rg rs) st) =
          Http.mkConfig Http.PUT ("/campaigns/" +:+ CampaignDetail.id c) None
                        (Some (CampaignDetail.editForm st)) None :: rest)
  /\ (forall h c,
        CampaignDetail.well_formed h ->
        In c (CampaignDetail.requests_of route_id h) ->
        Http.writes_field c "status" = true ->
        exists st ru rg rs cmp,
          h = CampaignDetail.UpdateCampaign st ru rg rs
          /\ CampaignDetail.campaign st = Some cmp
          /\ c = campaignsApi.update (CampaignDetail.id cmp) (CampaignDetail.editForm st)).
Proof.
  split; [reflexivity|].
  split; [intros; apply selectStatus_sets; assumption|].
  split; [intros; apply typeField_keeps_status; assumption|].
  split.
  { intros st c ru rg rs Hc. rewrite updateCampaign_requests, Hc.
    eexists. reflexivity. }
  intros h c Hwf Hin Hw.
  destruct h as [st rc rl|st rg rs|st ru rg rs|st b rd]; simpl in Hin.
  - exfalso. unfold Async.trace_of in Hin.
    destruct (createCampaign_run rc rl st) as (o & st' & E & _). rewrite E in Hin.
    simpl in Hwf. pose proof (create_has_no_status st Hwf) as Hno.
    destruct rc; simpl in Hin.
    + destruct Hin as [<-|[<-|[]]]; [congruence | discriminate].
    + destruct Hin as [<-|[]]. congruence.
  - exfalso. unfold Async.trace_of in Hin.
    destruct (loadCampaign_run route_id rg rs st) as (o & st' & E).
    rewrite E in Hin. simpl in Hin.
    destruct Hin as [<-|[<-|Hin]]; try discriminate.
    destruct rg, rs; simpl in Hin; destruct Hin.
  - rewrite updateCampaign_requests in Hin.
    destruct (CampaignDetail.campaign st) as [cmp|] eqn:Hc; [|destruct Hin].
    destruct Hin as [<-|Hin].
    + exists st, ru, rg, rs, cmp. auto.
    + exfalso. destruct ru; simpl in Hin; [|destruct Hin].
      destruct Hin as [<-|[<-|[]]]; discriminate.
  - exfalso. unfold Async.trace_of, CampaignDetail.deleteCampaign in Hin.
    destruct b; [|destruct Hin].
    cbv [mbind mret async_bind async_ret Async.bind Async.ret Async.throw Async.read
         Async.modify Async.emit Async.call Async.deref] in Hin.
    destruct (CampaignDetail.campaign st) as [cmp|]; simpl in Hin; [|destruct Hin].
    destruct rd; simpl in Hin; destruct Hin as [<-|[]]; discriminate.
Qed.

Lemma campaign_status_operator_set_witness :
  let c := CampaignDetail.mkCampaign "42" (Js.Str "Q1 2024 Assessment") (Js.Str "Acme Corp")
             Js.Null (Js.Str "draft") in
  let st := CampaignDetail.selectStatus 2
              (CampaignDetail.mkState (Some c) None false true (CampaignDetail.formOf c)) in
  Http.field (CampaignDetail.editForm st) "status" = Js.Str "completed"
  /\ exists rest,
       Async.requests (Async.trace_of
         (CampaignDetail.updateCampaign "42" (Async.Ok tt) (Async.Ok c)
            (Async.Err None)) st) =
       Http.mkConfig Http.PUT "/campaigns/42" None
                     (Some (CampaignDetail.editForm st)) None :: rest.
Proof.
  intros c st.
  destruct (campaign_status_operator_set "42") as (_ & Hsel & _ & Hput & _).
  split.
  - apply (Hsel 2%nat "completed"). reflexivity.
  - apply (Hput st c). reflexivity.
Defined.

(** ** Alerts view and map *)

Section AlertsFacts.
Import Js Http Async Alerts.

Lemma loadAlerts_run (rr : reply (list Alert)) (rs : reply unit) (st : State) :
  exists o st',
    loadAlerts rr rs st =
      (o, st', [Request (alertsApi.recent (f_hours (filters st)));
                Request (alertsApi.stats (Js.or (f_campaign_id (filters st)) Undefined))])
    /\ filters st' = filters st
    /\ refreshInterval st' = refreshInterval st
    /\ autoRefresh st' = autoRefresh st.
Proof.
  unfold loadAlerts.
  cbv [mbind mret async_bind async_ret Async.bind Async.ret Async.throw Async.read
       Async.modify Async.emit Async.call Async.call_both Async.try_finally].
  destruct rr, rs; simpl; do 2 eexists; repeat split; reflexivity.
Qed.

Lemma selectHours_allowed (i : nat) (st : State) :
  hours_allowed (f_hours (filters st)) ->
  hours_allowed (f_hours (filters (selectHours i st))).
Proof.
  intros H. unfold selectHours.
  destruct (hourOptions !! i) as [[n label]|] eqn:E; [|exact H].
  simpl. exists n. split; [|reflexivity].
  apply list_elem_of_lookup_2, list_elem_of_In in E.
  simpl in E. simpl.
  repeat (destruct E as [E|E]; [inversion E; subst; tauto|]). destruct E.
Qed.

Lemma handle_hours (ev : event) (st : State) :
  hours_allowed (f_hours (filters st)) ->
  hours_allowed (f_hours (filters (snd (fst (handle ev st)))))
  /\ forall c, In (Request c) (snd (handle ev st)) ->
       c = alertsApi.recent (f_hours (filters st))
       \/ c = alertsApi.stats (Js.or (f_campaign_id (filters st)) Undefined).
Proof.
  intros H.
  destruct ev as [i|id|rr rs|rr rs|rr rs|]; simpl.
  - split; [apply selectHours_allowed; exact H | intros c []].
  - split; [exact H | intros c []].
  - destruct (loadAlerts_run rr rs st) as (o & st' & E & Hf & _). rewrite E. simpl.
    rewrite Hf. split; [exact H|].
    intros c [Hc|[Hc|[]]]; inversion Hc; auto.
  - destruct (loadAlerts_run rr rs st) as (o & st' & E & Hf & _). rewrite E. simpl.
    rewrite Hf. split; [exact H|].
    intros c [Hc|[Hc|[]]]; inversion Hc; auto.
  - cbv [mbind mret async_bind async_ret Async.bind Async.ret Async.read].
    destruct (refreshInterval st).
    + destruct (loadAlerts_run rr rs st) as (o & st' & E & Hf & _). rewrite E. simpl.
      rewrite Hf. split; [exact H|].
      intros c [Hc|[Hc|[]]]; inversion Hc; auto.
    + simpl. split; [exact H | intros c []].
  - split; [|intros c []].
    unfold toggleAutoRefresh, startAutoRefresh, stopAutoRefresh. simpl.
    destruct (autoRefresh st); simpl; exact H.
Qed.

Lemma run_hours (evs : list event) : forall st : State,
  hours_allowed (f_hours (filters st)) ->
  hours_allowed (f_hours (filters (fst (run st evs))))
  /\ forall c, In (Request c) (snd (run st evs)) ->
       (exists h, hours_allowed h /\ c = alertsApi.recent h)
       \/ exists id, c = alertsApi.stats id.
Proof.
  induction evs as [|ev evs IH]; intros st H; simpl.
  - split; [exact H | intros c []].
  - destruct (handle_hours ev st H) as [H1 Hreq].
    destruct (handle ev st) as [[o st1] tr1]. simpl in *.
    destruct (IH st1 H1) as [H2 Hreq2].
    destruct (run st1 evs) as [st2 tr2]. simpl in *.
    split; [exact H2|].
    intros c Hin. apply in_app_or in Hin as [Hin|Hin].
    + destruct (Hreq c Hin) as [->| ->]; eauto.
    + auto.
Qed.

Lemma recent_of_allowed (h : value) :
  hours_allowed h ->
  alertsApi.recent h = mkConfig GET "/alerts/recent" (Some {[ "hours" := h ]}) None None.
Proof. intros (n & _ & ->). reflexivity. Qed.
End AlertsFacts.

Lemma onMounted_alerts (rc : Async.reply unit) (rr : Async.reply (list Alerts.Alert))
    (rs : Async.reply unit) (st : Alerts.State) :
  exists o st',
    Alerts.onMounted rc rr rs st =
      (o, st', [Async.Request campaignsApi.list;
                Async.Request (alertsApi.recent (Alerts.f_hours (Alerts.filters st)));
                Async.Request (alertsApi.stats
                  (Js.or (Alerts.f_campaign_id (Alerts.filters st)) Js.Undefined))])
    /\ Alerts.filters st' = Alerts.filters st.
Proof.
  unfold Alerts.onMounted.
  cbv [mbind mret async_bind async_ret Async.bind Async.ret Async.throw Async.read
       Async.modify Async.emit Async.try_catch].
  destruct (loadAlerts_run rr rs st) as (o & st' & E & Hf & _). rewrite E.
  destruct o as [[]|e]; simpl.
  - destruct rc; simpl; do 2 eexists; (split; [reflexivity|]); simpl; try exact Hf.
    unfold Alerts.startAutoRefresh. destruct (Alerts.autoRefresh st'); exact Hf.
  - destruct rc; simpl; do 2 eexists; (split; [reflexivity | exact Hf]).
Qed.

Lemma loadMapData_requests (r : Async.reply MapView.MapData) (st : MapView.State) :
  Async.requests (Async.trace_of (MapView.loadMapData r) st) =
  [alertsApi.map
     (if Js.truthy (MapView.f_campaign_id (MapView.filters st))
      then {[ "campaign_id" := MapView.f_campaign_id (MapView.filters st) ]} else ∅)].
Proof.
  unfold MapView.loadMapData, Async.trace_of.
  cbv [mbind mret async_bind async_ret Async.bind Async.ret Async.throw Async.read
       Async.modify Async.emit Async.call Async.try_finally].
  destruct r; reflexivity.
Qed.

(** C7: [alertsApi.recent] issues [GET /alerts/recent] with the
    parameter [hours], 24 when the caller passes none; the alerts view
    starts with [filters.hours = 24], its select offers 1, 6, 24, 72, 168
    and 720, and in every session of the view [filters.hours] and the
    [hours] of every request to [/alerts/recent] is one of these
    integers; the dashboard asks for 24; [alertsApi.map] and the map
    view's load issue [GET /alerts/map]. *)
Theorem recent_alerts_hours (rc : Async.reply unit)
    (rr : Async.reply (list Alerts.Alert)) (rs : Async.reply unit)
    (evs : list Alerts.event) :
  alertsApi.recent Js.Undefined =
    Http.mkConfig Http.GET "/alerts/recent" (Some {[ "hours" := Js.int 24 ]}) None None
  /\ (forall n, alertsApi.recent (Js.int n) =
        Http.mkConfig Http.GET "/alerts/recent" (Some {[ "hours" := Js.int n ]}) None None)
  /\ Alerts.f_hours (Alerts.filters Alerts.initial) = Js.int 24
  /\ map fst Alerts.hourOptions = [1; 6; 24; 72; 168; 720]
  /\ Alerts.hours_allowed (Alerts.f_hours (Alerts.filters (fst (Alerts.session rc rr rs evs))))
  /\ (forall c, In (Async.Request c) (snd (Alerts.session rc rr rs evs)) ->
        Http.cfg_url c = "/alerts/recent" ->
        exists n, In n [1; 6; 24; 72; 168; 720]
          /\ c = Http.mkConfig Http.GET "/alerts/recent"
                 (Some {[ "hours" := Js.int n ]}) None None)
  /\ Alerts.dashboardRecent =
       Http.mkConfig Http.GET "/alerts/recent" (Some {[ "hours" := Js.int 24 ]}) None None
  /\ (forall params, alertsApi.map params =
        Http.mkConfig Http.GET "/alerts/map" (Some params) None None)
  /\ (forall r st, exists params,
        Async.requests (Async.trace_of (MapView.loadMapData r) st) =
        [Http.mkConfig Http.GET "/alerts/map" (Some params) None None]).
Proof.
  assert (H0 : Alerts.hours_allowed (Alerts.f_hours (Alerts.filters Alerts.initial))).
  { exists 24. simpl. tauto. }
  split; [reflexivity|].
  split; [reflexivity|].
  split; [reflexivity|].
  split; [reflexivity|].
  unfold Alerts.session.
  destruct (onMounted_alerts rc rr rs Alerts.initial) as (o & st0 & E & Hf).
  rewrite E.
  assert (H1 : Alerts.hours_allowed (Alerts.f_hours (Alerts.filters st0))).
  { rewrite Hf. exact H0. }
  destruct (run_hours evs st0 H1) as [H2 Hreq].
  destruct (Alerts.run st0 evs) as [st tr]. simpl in *.
  split; [exact H2|].
  split.
  { intros c Hin Hurl.
    destruct Hin as [Hc|[Hc|[Hc|Hin]]].
    - inversion Hc; subst. discriminate.
    - inversion Hc; subst. exists 24. split; [tauto | reflexivity].
    - inversion Hc; subst. discriminate.
    - destruct (Hreq c Hin) as [(h & (n & Hn & ->) & ->)|(id & ->)].
      + exists n. split; [exact Hn | reflexivity].
      + discriminate. }
  split; [reflexivity|].
  split; [reflexivity|].
  intros r st'. rewrite loadMapData_requests. eexists. reflexivity.
Qed.

Lemma recent_alerts_hours_witness :
  exists n, In n [1; 6; 24; 72; 168; 720]
    /\ alertsApi.recent (Js.int 168) =
       Http.mkConfig Http.GET "/alerts/recent" (Some {[ "hours" := Js.int n ]}) None None.
Proof.
  destruct (recent_alerts_hours (Async.Ok tt) (Async.Ok []) (Async.Ok tt)
              [Alerts.SelectHours 4; Alerts.ClickApply (Async.Ok []) (Async.Ok tt)])
    as (_ & _ & _ & _ & _ & H & _).
  apply H.
  - vm_compute. do 3 right. left. reflexivity.
  - reflexivity.
Defined.

Section MapFacts.
Import Js MapView.



End MapFacts.




(** ** Router guard *)

Lemma unauthenticated_without_token (s : Auth.Store) :
  Auth.accessToken s = None -> Auth.isAuthenticated s = false.
Proof. unfold Auth.isAuthenticated. intros ->. reflexivity. Qed.

Lemma navigate_settles (fuel : nat) (p : string) (s : Auth.Store) :
  exists loc,
    Router.navigate (2 + fuel) p s = Some loc
    /\ Router.beforeEach loc s = Router.Proceed
    /\ (Auth.isAuthenticated s = false -> Js.truthy (Router.to_meta_public loc) = true).
Proof.
  simpl. unfold Router.beforeEach at 1.
  destruct (Js.not (Router.to_meta_public (Router.resolve p))) eqn:Epub;
    destruct (Auth.isAuthenticated s) eqn:Eauth; simpl.
  - destruct (String.eqb (Router.to_path (Router.resolve p)) "/login") eqn:Ep.
    + exists (Router.resolve "/"). unfold Router.beforeEach. rewrite Eauth.
      split; [reflexivity|]. split; [reflexivity | discriminate].
    + exists (Router.resolve p). unfold Router.beforeEach.
      rewrite Epub, Eauth, Ep. split; [reflexivity|]. split; [reflexivity | discriminate].
  - exists (Router.resolve "/login"). unfold Router.beforeEach. rewrite Eauth.
    split; [reflexivity|]. split; reflexivity.
  - destruct (String.eqb (Router.to_path (Router.resolve p)) "/login") eqn:Ep.
    + exists (Router.resolve "/"). unfold Router.beforeEach. rewrite Eauth.
      split; [reflexivity|]. split; [reflexivity | discriminate].
    + exists (Router.resolve p). unfold Router.beforeEach.
      rewrite Epub, Eauth, Ep. split; [reflexivity|]. split; [reflexivity | discriminate].
  - exists (Router.resolve p). unfold Router.beforeEach.
    rewrite Epub, Eauth. simpl. rewrite andb_false_r.
    split; [reflexivity|]. split; [reflexivity|].
    intros _. unfold Js.not in Epub. apply negb_false_iff in Epub. exact Epub.
Qed.

(** C9: the guard sends a session without an access token that targets
    a route lacking [meta.public] to [/login], sends an authenticated
    session that targets [/login] to [/], and lets every other
    navigation proceed; a navigation settles after at most one redirect,
    and an unauthenticated session ends on a public route. *)
Theorem guard_protects_routes (to : Router.Location) (authStore : Auth.Store)
    (p : string) (fuel : nat) :
  (Auth.accessToken authStore = None -> Auth.isAuthenticated authStore = false)
  /\ (Js.truthy (Router.to_meta_public to) = false ->
      Auth.isAuthenticated authStore = false ->
      Router.beforeEach to authStore = Router.Redirect "/login")
  /\ (Router.to_path to = "/login" ->
      Auth.isAuthenticated authStore = true ->
      Router.beforeEach to authStore = Router.Redirect "/")
  /\ (Js.truthy (Router.to_meta_public to) = true \/ Auth.isAuthenticated authStore = true ->
      Router.to_path to <> "/login" \/ Auth.isAuthenticated authStore = false ->
      Router.beforeEach to authStore = Router.Proceed)
  /\ exists loc,
      Router.navigate (2 + fuel) p authStore = Some loc
      /\ (Auth.isAuthenticated authStore = false ->
          Js.truthy (Router.to_meta_public loc) = true).
Proof.
  split; [apply unauthenticated_without_token|].
  split.
  { intros Hp Ha. unfold Router.beforeEach, Js.not. rewrite Hp, Ha. reflexivity. }
  split.
  { intros Hp Ha. unfold Router.beforeEach. rewrite Hp, Ha.
    rewrite andb_false_r. reflexivity. }
  split.
  { intros H1 H2. unfold Router.beforeEach, Js.not.
    destruct (Js.truthy (Router.to_meta_public to)) eqn:Ep,
      (Auth.isAuthenticated authStore) eqn:Ea; simpl.
    - destruct H2 as [H2|H2]; [|discriminate].
      apply String.eqb_neq in H2. rewrite H2. reflexivity.
    - rewrite andb_false_r. reflexivity.
    - destruct H2 as [H2|H2]; [|discriminate].
      apply String.eqb_neq in H2. rewrite H2. reflexivity.
    - destruct H1; discriminate. }
  destruct (navigate_settles fuel p authStore) as (loc & E & _ & H).
  exists loc. auto.
Qed.

Lemma guard_protects_routes_witness :
  Router.beforeEach (Router.resolve "/drives/7") (Auth.useAuthStore ∅)
    = Router.Redirect "/login"
  /\ Router.beforeEach (Router.resolve "/login")
       (Auth.useAuthStore {[ "accessToken" := "eyJ" ]})
     = Router.Redirect "/"
  /\ Router.beforeEach (Router.resolve "/drives/7")
       (Auth.useAuthStore {[ "accessToken" := "eyJ" ]})
     = Router.Proceed.
Proof.
  split; [|split].
  - apply (guard_protects_routes (Router.resolve "/drives/7") (Auth.useAuthStore ∅) "/" 0);
      reflexivity.
  - apply (guard_protects_routes (Router.resolve "/login")
             (Auth.useAuthStore {[ "accessToken" := "eyJ" ]}) "/" 0); reflexivity.
  - apply (guard_protects_routes (Router.resolve "/drives/7")
             (Auth.useAuthStore {[ "accessToken" := "eyJ" ]}) "/" 0).
    + right. reflexivity.
    + left. discriminate.
Defined.

(** ** Response interceptor *)

Section TransportFacts.
Import Auth Transport.

Lemma onRequest_retry (w : World) (r : Request) :
  _retry (onRequest w r) = _retry r /\ config (onRequest w r) = config r.
Proof.
  unfold onRequest. destruct (localStorage w !! "accessToken") as [tok|]; [|auto].
  destruct (truthy_item (Some tok)); auto.
Qed.

(** A request that carries the mark is sent once and never replayed. *)
Lemma api_marked (fuel : nat) (r : Request) (w : World) :
  _retry r = true ->
  api (S fuel) r w =
    Some (match server w (log w ++ [SentApi (onRequest w r)]) with
          | Success d => Resolved d
          | Failure s => Rejected s (onRequest w r)
          end,
          mkWorld (localStorage w) (location_href w)
                  (log w ++ [SentApi (onRequest w r)]) (server w)).
Proof.
  intros Hr. simpl. unfold send. simpl.
  destruct (server w (log w ++ [SentApi (onRequest w r)])) as [d|s]; [reflexivity|].
  destruct (onRequest_retry w r) as [E _]. rewrite E, Hr.
  rewrite andb_false_r. reflexivity.
Qed.

(** The replay carries the new token whatever the request interceptor does. *)
Lemma onRequest_replay (w : World) (c : Http.config) (newToken : string) :
  localStorage w !! "accessToken" = Some newToken ->
  onRequest w (mkRequest c (Some ("Bearer " +:+ newToken)) true) =
  mkRequest c (Some ("Bearer " +:+ newToken)) true.
Proof.
  intros H. unfold onRequest. rewrite H.
  destruct (truthy_item (Some newToken)); reflexivity.
Qed.

Lemma truthy_item_some (tok : string) :
  tok <> "" -> truthy_item (Some tok) = true.
Proof. intros H. simpl. apply negb_true_iff, String.eqb_neq. exact H. Qed.

(** Two rounds are enough: the outcome of [api] written out. *)
Lemma api_unfold (fuel : nat) (req : Request) (w : World) :
  api (2 + fuel) req w =
  let r1 := onRequest w req in
  let log1 := log w ++ [SentApi r1] in
  let marked := mkRequest (config r1) (authorization r1) true in
  match server w log1 with
  | Success d => Some (Resolved d, mkWorld (localStorage w) (location_href w) log1 (server w))
  | Failure status =>
      if is_401 status && negb (_retry req)
      then
        match localStorage w !! "refreshToken" with
        | Some tok =>
            if truthy_item (Some tok)
            then
              match server w (log1 ++ [SentRefresh tok]) with
              | Success data =>
                  let newToken := toString (access_token data) in
                  let replay :=
                    mkRequest (config r1) (Some ("Bearer " +:+ newToken)) true in
                  let log3 := (log1 ++ [SentRefresh tok]) ++ [SentApi replay] in
                  Some (match server w log3 with
                        | Success d => Resolved d
                        | Failure s => Rejected s replay
                        end,
                        mkWorld (<["refreshToken" := toString (refresh_token data)]>
                                   (<["accessToken" := newToken]> (localStorage w)))
                                (location_href w) log3 (server w))
              | Failure _ =>
                  Some (Rejected status marked,
                        mkWorld (delete "refreshToken" (delete "accessToken" (localStorage w)))
                                "/login" (log1 ++ [SentRefresh tok]) (server w))
              end
            else Some (Rejected status marked,
                       mkWorld (localStorage w) (location_href w) log1 (server w))
        | None => Some (Rejected status marked,
                        mkWorld (localStorage w) (location_href w) log1 (server w))
        end
      else Some (Rejected status r1,
                 mkWorld (localStorage w) (location_href w) log1 (server w))
  end.
Proof.
  change (2 + fuel)%nat with (S (S fuel)).
  cbn [api]. unfold send. cbn [localStorage location_href log server].
  destruct (onRequest_retry w req) as [Er Ec]. rewrite Er.
  destruct (server w (log w ++ [SentApi (onRequest w req)])) as [d|status];
    [reflexivity|].
  destruct (is_401 status && negb (_retry req)); [|reflexivity].
  destruct (localStorage w !! "refreshToken") as [tok|]; [|reflexivity].
  destruct (truthy_item (Some tok)); [|reflexivity].
  destruct (server w ((log w ++ [SentApi (onRequest w req)]) ++ [SentRefresh tok]))
    as [data|s2]; [|reflexivity].
  cbn [config authorization _retry].
  rewrite onRequest_replay.
  - cbn [localStorage location_href log server].
    destruct (server w _) as [d|s3]; [reflexivity|].
    cbn [_retry negb]. rewrite andb_false_r. reflexivity.
  - cbn [localStorage].
    rewrite lookup_insert_ne by discriminate. apply lookup_insert_eq.
Qed.
End TransportFacts.

(** C8: a call through the axios instance settles within two rounds and
    sends the request at most twice.  After a 401 on a request without
    the retry mark, with a refresh token stored: when the refresh call
    succeeds the new tokens are stored and the original request is
    replayed once, marked and with the new access token, and the replay's
    result is the result of the call, a failure of the replay being
    rejected without another round; when the refresh call fails both
    tokens are removed, the browser is sent to [/login] and the 401 is
    rejected.  A 401 on a marked request, or without a stored refresh
    token, is rejected after the one exchange: nothing else is sent and
    nothing is stored. *)
Theorem response_interceptor (fuel : nat) (req : Transport.Request) (w : Transport.World) :
  let r1 := Transport.onRequest w req in
  let log1 := Transport.log w ++ [Transport.SentApi r1] in
  exists o w',
    Transport.api (2 + fuel) req w = Some (o, w')
    /\ (length (Transport.api_sends (Transport.since (length (Transport.log w)) w')) <= 2)%nat
    /\ (forall status tok data,
          Transport.server w log1 = Transport.Failure status ->
          Transport.is_401 status = true ->
          Transport._retry req = false ->
          Transport.localStorage w !! "refreshToken" = Some tok -> tok <> "" ->
          Transport.server w (log1 ++ [Transport.SentRefresh tok]) = Transport.Success data ->
          let newToken := Transport.toString (Transport.access_token data) in
          let replay := Transport.mkRequest (Transport.config req)
                          (Some ("Bearer " +:+ newToken)) true in
          let log3 := log1 ++ [Transport.SentRefresh tok; Transport.SentApi replay] in
          Transport.log w' = log3
          /\ Transport.localStorage w' !! "accessToken" = Some newToken
          /\ Transport.localStorage w' !! "refreshToken"
               = Some (Transport.toString (Transport.refresh_token data))
          /\ o = match Transport.server w log3 with
                 | Transport.Success d => Transport.Resolved d
                 | Transport.Failure s => Transport.Rejected s replay
                 end)
    /\ (forall status tok s2,
          Transport.server w log1 = Transport.Failure status ->
          Transport.is_401 status = true ->
          Transport._retry req = false ->
          Transport.localStorage w !! "refreshToken" = Some tok -> tok <> "" ->
          Transport.server w (log1 ++ [Transport.SentRefresh tok]) = Transport.Failure s2 ->
          Transport.log w' = log1 ++ [Transport.SentRefresh tok]
          /\ Transport.localStorage w' !! "accessToken" = None
          /\ Transport.localStorage w' !! "refreshToken" = None
          /\ Transport.location_href w' = "/login"
          /\ exists r, o = Transport.Rejected status r)
    /\ (forall status,
          Transport.server w log1 = Transport.Failure status ->
          Transport.is_401 status = true ->
          Transport._retry req = true
          \/ Auth.truthy_item (Transport.localStorage w !! "refreshToken") = false ->
          Transport.log w' = log1
          /\ Transport.localStorage w' = Transport.localStorage w
          /\ Transport.location_href w' = Transport.location_href w
          /\ exists r, o = Transport.Rejected status r).
Proof.
  intros r1 log1.
  rewrite api_unfold. cbv zeta.
  destruct (onRequest_retry w req) as [_ Ec]. rewrite Ec. fold r1 log1.
  assert (Hdrop : forall l, drop (length (Transport.log w)) (Transport.log w ++ l) = l).
  { intros l. rewrite drop_app_length. reflexivity. }
  unfold Transport.since.
  destruct (Transport.server w log1) as [d|status] eqn:E1.
  { do 2 eexists. split; [reflexivity|]. simpl. subst log1. rewrite Hdrop. simpl.
    split; [lia|]. repeat split; intros; discriminate. }
  destruct (Transport.is_401 status) eqn:E401; cbn [andb negb].
  2: { do 2 eexists. split; [reflexivity|]. simpl. subst log1. rewrite Hdrop. simpl.
       split; [lia|].
       split; [intros ? ? ? Hs; inversion Hs; subst; congruence|].
       split; [intros ? ? ? Hs; inversion Hs; subst; congruence|].
       intros ? Hs; inversion Hs; subst; congruence. }
  destruct (Transport._retry req) eqn:Er; cbn [andb negb].
  { do 2 eexists. split; [reflexivity|]. simpl. subst log1. rewrite Hdrop. simpl.
    split; [lia|].
    split; [intros; discriminate|].
    split; [intros; discriminate|].
    intros status' Hs _ _. inversion Hs; subst. eauto. }
  destruct (Transport.localStorage w !! "refreshToken") as [tok|] eqn:Etok.
  2: { do 2 eexists. split; [reflexivity|]. simpl. subst log1. rewrite Hdrop. simpl.
       split; [lia|].
       split; [intros; discriminate|].
       split; [intros; discriminate|].
       intros status' Hs _ _. inversion Hs; subst. eauto. }
  destruct (Auth.truthy_item (Some tok)) eqn:Etruthy.
  2: { do 2 eexists. split; [reflexivity|]. simpl. subst log1. rewrite Hdrop. simpl.
       split; [lia|].
       assert (tok = "") as ->.
       { simpl in Etruthy. apply negb_false_iff, String.eqb_eq in Etruthy. exact Etruthy. }
       split; [intros ? ? ? _ _ _ Ht Hne; inversion Ht; subst; congruence|].
       split; [intros ? ? ? _ _ _ Ht Hne; inversion Ht; subst; congruence|].
       intros status' Hs _ _. inversion Hs; subst. eauto. }
  destruct (Transport.server w (log1 ++ [Transport.SentRefresh tok])) as [data|s2] eqn:E2.
  - do 2 eexists. split; [reflexivity|]. simpl.
    split.
    { subst log1. rewrite <- !app_assoc, Hdrop. simpl. lia. }
    split.
    { intros status' tok' data' Hs _ _ Ht _ Hd.
      inversion Hs; inversion Ht; subst.
      rewrite E2 in Hd. inversion Hd; subst.
      rewrite <- app_assoc. simpl.
      split; [reflexivity|].
      split; [rewrite lookup_insert_ne by discriminate; apply lookup_insert_eq|].
      split; [apply lookup_insert_eq|].
      reflexivity. }
    split.
    { intros status' tok' s2' _ _ _ Ht _ Hd. inversion Ht; subst. congruence. }
    intros status' _ _ [H|H]; discriminate.
  - do 2 eexists. split; [reflexivity|]. simpl.
    split.
    { subst log1. rewrite <- !app_assoc, Hdrop. simpl. lia. }
    split.
    { intros status' tok' data' _ _ _ Ht _ Hd. inversion Ht; subst. congruence. }
    split.
    { intros status' tok' s2' Hs _ _ Ht _ _.
      inversion Hs; inversion Ht; subst.
      split; [reflexivity|].
      split; [rewrite lookup_delete_ne by discriminate; apply lookup_delete_eq|].
      split; [apply lookup_delete_eq|].
      split; [reflexivity | eauto]. }
    intros status' _ _ [H|H]; discriminate.
Qed.


Lemma response_interceptor_witness :
  let body := Transport.mkBody (Some "new") (Some "r2") in
  let req := Transport.fresh (drivesApi.get "7") in
  let ls : Auth.storage := <["accessToken" := "old"]> {[ "refreshToken" := "r1" ]} in
  let refreshed := fun l : list Transport.sent =>
    match length l with
    | 1%nat => Transport.Failure (Some 401)
    | 2%nat => Transport.Success body
    | _ => Transport.Success (Transport.mkBody None None)
    end in
  let denied := fun l : list Transport.sent => Transport.Failure (Some 401) in
  (exists o w',
     Transport.api 2 req (Transport.mkWorld ls "/drives/7" [] refreshed) = Some (o, w')
     /\ Transport.localStorage w' !! "accessToken" = Some "new"
     /\ o = Transport.Resolved (Transport.mkBody None None))
  /\ (exists o w',
     Transport.api 2 req (Transport.mkWorld ls "/drives/7" [] denied) = Some (o, w')
     /\ Transport.localStorage w' !! "accessToken" = None
     /\ Transport.location_href w' = "/login")
  /\ (exists o w',
     Transport.api 2 req (Transport.mkWorld ∅ "/drives/7" [] denied) = Some (o, w')
     /\ Transport.log w' = [Transport.SentApi req]).
Proof.
  intros body req ls refreshed denied.
  split; [|split].
  - destruct (response_interceptor 0 req (Transport.mkWorld ls "/drives/7" [] refreshed))
      as (o & w' & E & _ & H & _).
    exists o, w'. split; [exact E|].
    destruct (H (Some 401) "r1" body) as (_ & Ha & _ & Ho);
      try reflexivity; try discriminate.
    split; [exact Ha | exact Ho].
  - destruct (response_interceptor 0 req (Transport.mkWorld ls "/drives/7" [] denied))
      as (o & w' & E & _ & _ & H & _).
    exists o, w'. split; [exact E|].
    destruct (H (Some 401) "r1" (Some 401)) as (_ & Ha & _ & Hl & _);
      try reflexivity; try discriminate.
    split; [exact Ha | exact Hl].
  - destruct (response_interceptor 0 req (Transport.mkWorld ∅ "/drives/7" [] denied))
      as (o & w' & E & _ & _ & _ & H).
    exists o, w'. split; [exact E|].
    destruct (H (Some 401)) as (Hl & _); try reflexivity.
    + right. reflexivity.
    + exact Hl.
Defined.

(** ** Trigger ingestion *)

Section PipelineFacts.
Import Pipeline.
Variable authentic : Payload -> bool.
Variable payload_hash : Payload -> Z.
Variable lookup : string -> option Geo.
Variable window : Z.

Lemma fingerprint_eqb_refl (fp : Fingerprint) : fingerprint_eqb fp fp = true.
Proof.
  destruct fp as [[[t s] ts] h]. simpl.
  rewrite !String.eqb_refl, !Z.eqb_refl. reflexivity.
Qed.

(** A fingerprint unseen within the window stays unseen later on. *)
Lemma prior_none_later (now1 now2 : Z) (fp : Fingerprint) (st : State) :
  now1 <= now2 ->
  prior window now1 fp st = None -> prior window now2 fp st = None.
Proof.
  unfold prior, evict. intros Hle.
  induction (recent st) as [|[[fp' t] r] l IH]; simpl; [reflexivity|].
  destruct (now2 - t <=? window) eqn:E2.
  - assert (E1 : (now1 - t <=? window) = true).
    { apply Z.leb_le. apply Z.leb_le in E2. lia. }
    rewrite E1. simpl. destruct (fingerprint_eqb fp' fp); [discriminate | exact IH].
  - destruct (now1 - t <=? window); simpl; [|exact IH].
    destruct (fingerprint_eqb fp' fp); [discriminate | exact IH].
Qed.

(** A fingerprint just recorded is found while it is in the window. *)
Lemma prior_recorded (now1 now2 : Z) (fp : Fingerprint) (r : IngestResult)
    (st : State) (l : list (Fingerprint * Z * IngestResult)) :
  now2 - now1 <= window ->
  recent st = (fp, now1, r) :: l ->
  prior window now2 fp st = Some r.
Proof.
  intros Hw Hr. unfold prior, evict. rewrite Hr. simpl.
  apply Z.leb_le in Hw. rewrite Hw. simpl.
  rewrite fingerprint_eqb_refl. reflexivity.
Qed.


End PipelineFacts.

Section DeliveryFacts.
Import Pipeline Deliveries.
Variable authentic : Payload -> bool.
Variable payload_hash : Payload -> Z.
Variable lookup : string -> option Geo.
Variable window : Z.













End DeliveryFacts.



(** ** Auth store *)

Section AuthStoreFacts.
Import Auth Http Async AuthStore.

Lemma logout_loggedOut (s : session) : loggedOut (Auth.logout (fst s) (snd s)).
Proof.
  unfold loggedOut, Auth.logout. simpl. split; [reflexivity|]. split.
  - rewrite lookup_delete_ne by discriminate. apply lookup_delete_eq.
  - apply lookup_delete_eq.
Qed.

Lemma loggedOut_synced (s : session) : loggedOut s -> synced s.
Proof. intros (E & Ha & Hr). unfold synced. rewrite E, Ha, Hr. auto. Qed.

Lemma setTokens_synced (data : Transport.Body) (s : session) :
  is_Some (Transport.access_token data) -> is_Some (Transport.refresh_token data) ->
  synced (setTokens data s).
Proof.
  intros [a Ha] [r Hr]. unfold synced, setTokens. simpl. rewrite Ha, Hr. simpl.
  split.
  - rewrite lookup_insert_ne by discriminate. rewrite lookup_insert_eq. reflexivity.
  - rewrite lookup_insert_eq. reflexivity.
Qed.

(** Every call of the instance returns within two rounds; it keeps the
    server, sends its request first and at most two more, and leaves the
    location alone unless it rejects, when it may have set it to
    [/login]. *)
Lemma api_returns (fuel : nat) (req : Transport.Request) (w : Transport.World) :
  exists o w' more,
    Transport.api (2 + fuel) req w = Some (o, w')
    /\ Transport.server w' = Transport.server w
    /\ Transport.log w' = Transport.log w ++ Transport.SentApi (Transport.onRequest w req) :: more
    /\ (length more <= 2)%nat
    /\ (Transport.location_href w' = Transport.location_href w
        \/ (Transport.location_href w' = "/login"
            /\ exists s r, o = Transport.Rejected s r)).
Proof.
  rewrite api_unfold. cbv zeta.
  repeat match goal with
         | |- context [match ?x with _ => _ end] => destruct x
         end;
    do 3 eexists; (split; [reflexivity|]); cbn [Transport.server Transport.log];
    (split; [reflexivity|]); rewrite <- ?app_assoc; cbn [app];
    (split; [reflexivity|]); (split; [simpl; lia|]);
    cbn [Transport.location_href]; first [left; reflexivity | right; eauto].
Qed.

(** Without a 401 the response interceptor stays out of the way. *)
Lemma api_plain (fuel : nat) (req : Transport.Request) (w : Transport.World) :
  never_401 w ->
  Transport.api (2 + fuel) req w =
    Some (match Transport.server w
                  (Transport.log w ++ [Transport.SentApi (Transport.onRequest w req)]) with
          | Transport.Success d => Transport.Resolved d
          | Transport.Failure s => Transport.Rejected s (Transport.onRequest w req)
          end,
          Transport.mkWorld (Transport.localStorage w) (Transport.location_href w)
            (Transport.log w ++ [Transport.SentApi (Transport.onRequest w req)])
            (Transport.server w)).
Proof.
  intros Hn. rewrite api_unfold. cbv zeta.
  destruct (Transport.server w _) as [d|status] eqn:E; [reflexivity|].
  rewrite (Hn _ _ E). reflexivity.
Qed.

Lemma fetchUser_synced (fuel : nat) (userOf : Transport.Body -> string) (b : page) :
  never_401 (snd b) -> synced (session_of b) ->
  exists b',
    fetchUser (2 + fuel) userOf b = Some (Resolved tt, b')
    /\ Transport.server (snd b') = Transport.server (snd b)
    /\ synced (session_of b').
Proof.
  intros Hn Hs. unfold fetchUser.
  destruct (truthy_item (accessToken (fst b))); cbn [negb]; [|eauto].
  rewrite (api_plain fuel _ _ Hn).
  destruct (Transport.server (snd b) _) as [d|status]; eexists;
    (split; [reflexivity|]); (split; [reflexivity|]).
  - exact Hs.
  - apply loggedOut_synced. apply (logout_loggedOut (fst b, _)).
Qed.

Lemma perform_synced (fuel : nat) (userOf : Transport.Body -> string) (a : action)
    (b : page) :
  never_401 (snd b) -> complete (snd b) -> synced (session_of b) ->
  exists o b',
    perform (2 + fuel) userOf a b = Some (o, b')
    /\ Transport.server (snd b') = Transport.server (snd b)
    /\ synced (session_of b').
Proof.
  intros Hn Hc Hs. destruct a as [u p| | |]; cbn [perform].
  - unfold login. rewrite (api_plain fuel _ _ Hn).
    destruct (Transport.server (snd b) _) as [data|status] eqn:E.
    + destruct (Hc _ _ _ (ltac:(destruct (onRequest_retry (snd b)
                   (Transport.fresh (post_data "/auth/login"
                      (<["username" := Js.Str u]> {["password" := Js.Str p]})))) as [_ Ec];
                   unfold token_request; rewrite Ec; reflexivity)) E) as [Ha Hr].
      match goal with
      | |- context [fetchUser _ _ ?b1] =>
          destruct (fetchUser_synced fuel userOf b1) as (b' & E' & Es & Hs')
      end.
      * exact Hn.
      * apply (setTokens_synced data (fst b, _) Ha Hr).
      * exists (Resolved tt), b'. auto.
    + do 2 eexists. split; [reflexivity|]. split; [reflexivity | exact Hs].
  - destruct (fetchUser_synced fuel userOf b Hn Hs) as (b' & E' & Es & Hs'). eauto.
  - unfold refresh.
    destruct (refreshToken (fst b)) as [token|]; [|eauto].
    destruct (truthy_item (Some token)); cbn [negb]; [|eauto].
    rewrite (api_plain fuel _ _ Hn).
    destruct (Transport.server (snd b) _) as [data|status] eqn:E.
    + destruct (Hc _ _ _ (ltac:(destruct (onRequest_retry (snd b)
                   (Transport.fresh (post_data "/auth/refresh"
                      {["refresh_token" := Js.Str token]}))) as [_ Ec];
                   unfold token_request; rewrite Ec; reflexivity)) E) as [Ha Hr].
      do 2 eexists. split; [reflexivity|]. split; [reflexivity|].
      apply (setTokens_synced data (fst b, _) Ha Hr).
    + do 2 eexists. split; [reflexivity|]. split; [reflexivity|].
      apply loggedOut_synced. apply (logout_loggedOut (fst b, _)).
  - do 2 eexists. split; [reflexivity|]. split; [reflexivity|].
    apply loggedOut_synced. apply (logout_loggedOut (session_of b)).
Qed.

Lemma run_synced (fuel : nat) (userOf : Transport.Body -> string) (acts : list action)
    (b : page) :
  never_401 (snd b) -> complete (snd b) -> synced (session_of b) ->
  exists b', run (2 + fuel) userOf b acts = Some b' /\ synced (session_of b').
Proof.
  revert b. induction acts as [|a acts IH]; intros b Hn Hc Hs; [simpl; eauto|].
  destruct (perform_synced fuel userOf a b Hn Hc Hs) as (o & b1 & E & Es & Hs1).
  cbn [run]. rewrite E. apply IH; [| |exact Hs1].
  - unfold never_401. rewrite Es. exact Hn.
  - unfold complete. rewrite Es. exact Hc.
Qed.
End AuthStoreFacts.

(** X1: the store and localStorage stay in step as long as the response
    interceptor stays out of the way.  Starting from a store created on
    a page load, after any sequence of logins, user fetches, refreshes
    and logouts in which no request is answered with a 401 and the
    successful replies to login and refresh requests carry both tokens,
    a store created anew from localStorage (a page reload) has the same
    access and refresh token as the live store.  A 401 breaks this: when
    the interceptor repairs a 401 on [GET /auth/me], the user is set and
    the refs of the store keep the tokens they had, while localStorage,
    and with it a store created anew, holds the tokens of the refresh. *)
Theorem store_survives_reload (fuel : nat) (userOf : Transport.Body -> string)
    (w : Transport.World) (acts : list AuthStore.action) :
  (AuthStore.never_401 w -> AuthStore.complete w ->
   exists b0 b,
     AuthStore.create (2 + fuel) userOf w = Some (Async.Resolved tt, b0)
     /\ AuthStore.run (2 + fuel) userOf b0 acts = Some b
     /\ Auth.accessToken (Auth.useAuthStore (Transport.localStorage (snd b)))
        = Auth.accessToken (fst b)
     /\ Auth.refreshToken (Auth.useAuthStore (Transport.localStorage (snd b)))
        = Auth.refreshToken (fst b)
     /\ Auth.isAuthenticated (Auth.useAuthStore (Transport.localStorage (snd b)))
        = Auth.isAuthenticated (fst b))
  /\ (forall st status tok data d,
        let me := Transport.onRequest w (Transport.fresh (Http.get "/auth/me")) in
        let log1 := Transport.log w ++ [Transport.SentApi me] in
        let replay :=
          Transport.mkRequest (Transport.config me)
            (Some ("Bearer " +:+ Transport.toString (Transport.access_token data))) true in
        Auth.truthy_item (Auth.accessToken st) = true ->
        Transport.server w log1 = Transport.Failure status ->
        Transport.is_401 status = true ->
        Transport.localStorage w !! "refreshToken" = Some tok -> tok <> "" ->
        Transport.server w (log1 ++ [Transport.SentRefresh tok]) = Transport.Success data ->
        Transport.server w ((log1 ++ [Transport.SentRefresh tok]) ++ [Transport.SentApi replay])
          = Transport.Success d ->
        exists b',
          AuthStore.fetchUser (2 + fuel) userOf (st, w) = Some (Async.Resolved tt, b')
          /\ fst b' = Auth.mkStore (Some (userOf d)) (Auth.accessToken st) (Auth.refreshToken st)
          /\ Auth.accessToken (Auth.useAuthStore (Transport.localStorage (snd b')))
             = Some (Transport.toString (Transport.access_token data))
          /\ Auth.refreshToken (Auth.useAuthStore (Transport.localStorage (snd b')))
             = Some (Transport.toString (Transport.refresh_token data))).
Proof.
  split.
  - intros Hn Hc.
    assert (H0 : AuthStore.synced
                   (AuthStore.session_of (Auth.useAuthStore (Transport.localStorage w), w)))
      by (split; reflexivity).
    assert (Hcreate : exists b0,
              AuthStore.create (2 + fuel) userOf w = Some (Async.Resolved tt, b0)
              /\ Transport.server (snd b0) = Transport.server w
              /\ AuthStore.synced (AuthStore.session_of b0)).
    { unfold AuthStore.create. cbv zeta.
      destruct (Auth.truthy_item
                  (Auth.accessToken (fst (Auth.useAuthStore (Transport.localStorage w), w)))).
      - apply (fetchUser_synced fuel userOf (Auth.useAuthStore (Transport.localStorage w), w));
          assumption.
      - eexists. split; [reflexivity|]. split; [reflexivity | exact H0]. }
    destruct Hcreate as (b0 & E0 & Es & Hs0).
    destruct (run_synced fuel userOf acts b0) as (b & E & [Ha Hr]); [| |exact Hs0|].
    + unfold AuthStore.never_401. rewrite Es. exact Hn.
    + unfold AuthStore.complete. rewrite Es. exact Hc.
    + exists b0, b. split; [exact E0|]. split; [exact E|].
      cbn [AuthStore.session_of fst snd] in Ha, Hr.
      unfold Auth.isAuthenticated, Auth.useAuthStore. cbn [Auth.accessToken Auth.refreshToken].
      rewrite Ha, Hr. auto.
  - intros st status tok data d me log1 replay Ht H1 H401 Htok Hne H2 H3.
    unfold AuthStore.fetchUser. cbn [fst snd]. rewrite Ht. cbn [negb].
    rewrite api_unfold. cbv zeta. fold me. fold log1. rewrite H1, H401.
    cbn [Transport.fresh Transport._retry negb andb].
    rewrite Htok, (truthy_item_some tok Hne), H2.
    fold replay. rewrite H3.
    eexists. split; [reflexivity|].
    cbn [fst snd AuthStore.in_page AuthStore.session_of AuthStore.setUser
         Transport.localStorage Auth.accessToken Auth.refreshToken Auth.useAuthStore].
    split; [reflexivity|]. split.
    + rewrite lookup_insert_ne by discriminate. apply lookup_insert_eq.
    + apply lookup_insert_eq.
Qed.

Lemma store_survives_reload_witness :
  let tokens := Transport.mkBody (Some "eyJa") (Some "r1") in
  let steady := Transport.mkWorld ∅ "/login" [] (fun _ => Transport.Success tokens) in
  let server := fun l : list Transport.sent =>
    match length l with
    | 1%nat => Transport.Failure (Some 401)
    | 2%nat => Transport.Success (Transport.mkBody (Some "new") (Some "r2"))
    | _ => Transport.Success (Transport.mkBody None None)
    end in
  let w := Transport.mkWorld {[ "accessToken" := "eyJa"; "refreshToken" := "r1" ]}
             "/" [] server in
  (exists b0 b,
     AuthStore.create 2 (fun _ => "alice") steady = Some (Async.Resolved tt, b0)
     /\ AuthStore.run 2 (fun _ => "alice") b0
          [AuthStore.Login "alice" "secret"; AuthStore.Refresh; AuthStore.FetchUser] = Some b
     /\ Auth.accessToken (Auth.useAuthStore (Transport.localStorage (snd b)))
        = Auth.accessToken (fst b)
     /\ Auth.refreshToken (Auth.useAuthStore (Transport.localStorage (snd b)))
        = Auth.refreshToken (fst b)
     /\ Auth.isAuthenticated (Auth.useAuthStore (Transport.localStorage (snd b)))
        = Auth.isAuthenticated (fst b))
  /\ exists b',
       AuthStore.fetchUser 2 (fun _ => "alice")
         (Auth.useAuthStore (Transport.localStorage w), w) = Some (Async.Resolved tt, b')
       /\ fst b' = Auth.mkStore (Some "alice") (Some "eyJa") (Some "r1")
       /\ Auth.accessToken (Auth.useAuthStore (Transport.localStorage (snd b'))) = Some "new"
       /\ Auth.refreshToken (Auth.useAuthStore (Transport.localStorage (snd b'))) = Some "r2".
Proof.
  intros tokens steady server w. split.
  - destruct (store_survives_reload 0 (fun _ => "alice") steady
                [AuthStore.Login "alice" "secret"; AuthStore.Refresh; AuthStore.FetchUser])
      as [H _].
    apply H.
    + intros l status E. discriminate.
    + intros l r data _ E. inversion E. split; eexists; reflexivity.
  - destruct (store_survives_reload 0 (fun _ => "alice") w []) as [_ H].
    apply (H (Auth.useAuthStore (Transport.localStorage w)) (Some 401) "r1"
             (Transport.mkBody (Some "new") (Some "r2")) (Transport.mkBody None None));
      try reflexivity.
    discriminate.
Defined.

(** X2: a login reply without [access_token] splits the session.  The
    live store holds no token, is unauthenticated and does not fetch the
    user, so that the login request is the only one sent, but
    localStorage now holds the text 'undefined', so a store created anew
    from it (a page reload) counts as authenticated. *)
Theorem login_without_token_desyncs (fuel : nat) (userOf : Transport.Body -> string)
    (username password : string) (data : Transport.Body) (b : AuthStore.page) :
  let r1 := Transport.onRequest (snd b)
              (Transport.fresh
                 (Http.post_data "/auth/login"
                    (<["username" := Js.Str username]> {["password" := Js.Str password]}))) in
  Transport.server (snd b) (Transport.log (snd b) ++ [Transport.SentApi r1])
    = Transport.Success data ->
  Transport.access_token data = None ->
  exists b',
    AuthStore.login (2 + fuel) userOf username password b = Some (Async.Resolved tt, b')
    /\ Auth.isAuthenticated (fst b') = false
    /\ Transport.since (length (Transport.log (snd b))) (snd b') = [Transport.SentApi r1]
    /\ Transport.localStorage (snd b') !! "accessToken" = Some "undefined"
    /\ Auth.isAuthenticated (Auth.useAuthStore (Transport.localStorage (snd b'))) = true.
Proof.
  intros r1 Hs Hacc.
  unfold AuthStore.login. rewrite api_unfold. cbv zeta. fold r1. rewrite Hs.
  match goal with |- context [AuthStore.fetchUser _ _ ?b1] => set (b' := b1) end.
  assert (Ha : Auth.accessToken (fst b') = None) by exact Hacc.
  assert (E : Transport.localStorage (snd b') !! "accessToken" = Some "undefined").
  { unfold b', AuthStore.in_page, AuthStore.setTokens, AuthStore.session_of.
    cbn [fst snd Transport.localStorage]. rewrite Hacc.
    rewrite lookup_insert_ne by discriminate. apply lookup_insert_eq. }
  exists b'. unfold AuthStore.fetchUser. rewrite Ha. cbn [Auth.truthy_item negb].
  split; [reflexivity|].
  split; [unfold Auth.isAuthenticated; rewrite Ha; reflexivity|].
  split; [unfold Transport.since; apply drop_app_length|].
  split; [exact E|].
  unfold Auth.isAuthenticated, Auth.useAuthStore. cbn [Auth.accessToken].
  rewrite E. reflexivity.
Qed.

Lemma login_without_token_desyncs_witness :
  let server := fun _ : list Transport.sent =>
    Transport.Success (Transport.mkBody None (Some "r1")) in
  let b : AuthStore.page :=
    (Auth.mkStore None None None, Transport.mkWorld ∅ "/login" [] server) in
  exists b',
    AuthStore.login 2 (fun _ => "alice") "alice" "secret" b = Some (Async.Resolved tt, b')
    /\ Auth.isAuthenticated (fst b') = false
    /\ Transport.localStorage (snd b') !! "accessToken" = Some "undefined"
    /\ Auth.isAuthenticated (Auth.useAuthStore (Transport.localStorage (snd b'))) = true.
Proof.
  intros server b.
  destruct (login_without_token_desyncs 0 (fun _ => "alice") "alice" "secret"
              (Transport.mkBody None (Some "r1")) b eq_refl eq_refl)
    as (b' & E & H1 & _ & H2 & H3).
  exists b'. auto.
Defined.

(** X3: once the login request has succeeded with a truthy access
    token, [login] resolves whatever becomes of [GET /auth/me], after the
    login request, the user request and at most two requests of the
    response interceptor.  Either the user is set and the store holds
    the tokens of the login reply, or the session is logged out again:
    no user and no token in the store, neither token in localStorage.
    A login request that fails without a 401, or with a 401 while no
    refresh token is stored, is rejected with its status and changes
    neither the store nor localStorage nor the location.  A login request
    answered with a 401 over a stored refresh token, whose refresh call
    fails, is rejected with the 401 and leaves the refs of the store as
    they were, but both tokens are removed from localStorage and the
    location is set to [/login]. *)
Theorem login_then_failed_fetch_logs_out (fuel : nat) (userOf : Transport.Body -> string)
    (username password : string) (b : AuthStore.page) :
  let r1 := Transport.onRequest (snd b)
              (Transport.fresh
                 (Http.post_data "/auth/login"
                    (<["username" := Js.Str username]> {["password" := Js.Str password]}))) in
  let log1 := Transport.log (snd b) ++ [Transport.SentApi r1] in
  let n := length (Transport.log (snd b)) in
  (forall data,
     Transport.server (snd b) log1 = Transport.Success data ->
     Auth.truthy_item (Transport.access_token data) = true ->
     exists b',
       AuthStore.login (2 + fuel) userOf username password b = Some (Async.Resolved tt, b')
       /\ (Auth.user (fst b') = None -> AuthStore.loggedOut (AuthStore.session_of b'))
       /\ (forall u, Auth.user (fst b') = Some u ->
             Auth.accessToken (fst b') = Transport.access_token data
             /\ Auth.refreshToken (fst b') = Transport.refresh_token data)
       /\ take 2 (AuthStore.urls (Transport.since n (snd b'))) = ["/auth/login"; "/auth/me"]
       /\ (length (Transport.since n (snd b')) <= 4)%nat
       /\ (Transport.location_href (snd b') = Transport.location_href (snd b)
           \/ (Transport.location_href (snd b') = "/login"
               /\ AuthStore.loggedOut (AuthStore.session_of b'))))
  /\ (forall status,
        Transport.server (snd b) log1 = Transport.Failure status ->
        Transport.is_401 status = false
        \/ Auth.truthy_item (Transport.localStorage (snd b) !! "refreshToken") = false ->
        AuthStore.login (2 + fuel) userOf username password b =
          Some (Async.Rejected (Async.HttpError status),
                (fst b, Transport.mkWorld (Transport.localStorage (snd b))
                          (Transport.location_href (snd b)) log1 (Transport.server (snd b)))))
  /\ (forall status tok s2,
        Transport.server (snd b) log1 = Transport.Failure status ->
        Transport.is_401 status = true ->
        Transport.localStorage (snd b) !! "refreshToken" = Some tok -> tok <> "" ->
        Transport.server (snd b) (log1 ++ [Transport.SentRefresh tok]) = Transport.Failure s2 ->
        AuthStore.login (2 + fuel) userOf username password b =
          Some (Async.Rejected (Async.HttpError status),
                (fst b, Transport.mkWorld
                          (delete "refreshToken"
                             (delete "accessToken" (Transport.localStorage (snd b))))
                          "/login" (log1 ++ [Transport.SentRefresh tok])
                          (Transport.server (snd b))))).
Proof.
  intros r1 log1 n.
  split; [|split].
  - intros data Hs Ht.
    unfold AuthStore.login. rewrite api_unfold. cbv zeta. fold r1. fold log1. rewrite Hs.
    match goal with |- context [AuthStore.fetchUser _ _ ?x] => set (b1 := x) end.
    assert (Ha : Auth.accessToken (fst b1) = Transport.access_token data) by reflexivity.
    assert (Hr : Auth.refreshToken (fst b1) = Transport.refresh_token data) by reflexivity.
    assert (Hl : Transport.log (snd b1) = log1) by reflexivity.
    assert (Hh : Transport.location_href (snd b1) = Transport.location_href (snd b))
      by reflexivity.
    unfold AuthStore.fetchUser. rewrite Ha, Ht. cbn [negb].
    destruct (api_returns fuel (Transport.fresh (Http.get "/auth/me")) (snd b1))
      as (o & w' & more & E & _ & Elog & Hlen & Hloc).
    rewrite E.
    assert (Eurls : take 2 (AuthStore.urls (Transport.since n w')) = ["/auth/login"; "/auth/me"]).
    { unfold Transport.since. rewrite Elog, Hl. unfold log1, n.
      rewrite <- app_assoc. rewrite drop_app_length. cbn [app AuthStore.urls map take].
      destruct (onRequest_retry (snd b)
                  (Transport.fresh
                     (Http.post_data "/auth/login"
                        (<["username" := Js.Str username]> {["password" := Js.Str password]}))))
        as [_ Ec1].
      destruct (onRequest_retry (snd b1) (Transport.fresh (Http.get "/auth/me"))) as [_ Ec2].
      fold r1 in Ec1. rewrite Ec1, Ec2. reflexivity. }
    assert (Elen : (length (Transport.since n w') <= 4)%nat).
    { unfold Transport.since. rewrite Elog, Hl. unfold log1, n.
      rewrite <- app_assoc. rewrite drop_app_length. simpl. lia. }
    destruct o as [d|s r].
    + eexists. split; [reflexivity|].
      cbn [fst snd AuthStore.in_page AuthStore.session_of AuthStore.setUser
           Auth.user Auth.accessToken Auth.refreshToken Transport.log
           Transport.location_href].
      split; [discriminate|]. split; [intros _ _; split; [exact Ha | exact Hr]|].
      split; [exact Eurls|]. split; [exact Elen|].
      left. destruct Hloc as [Hloc|(_ & s & r & Hx)]; [|discriminate].
      rewrite Hloc. exact Hh.
    + eexists. split; [reflexivity|].
      assert (Hout : AuthStore.loggedOut
                       (AuthStore.session_of
                          (AuthStore.in_page (fun s => Auth.logout (fst s) (snd s))
                                             (fst b1, w'))))
        by apply (logout_loggedOut (fst b1, Transport.localStorage w')).
      split; [intros _; exact Hout|].
      split; [intros u Hu; discriminate|].
      cbn [fst snd AuthStore.in_page Transport.log Transport.location_href] in *.
      split; [exact Eurls|]. split; [exact Elen|].
      destruct Hloc as [Hloc|(Hloc & _)].
      * left. rewrite Hloc. exact Hh.
      * right. split; [exact Hloc | exact Hout].
  - intros status Hs Hwhy.
    unfold AuthStore.login. rewrite api_unfold. cbv zeta. fold r1. fold log1. rewrite Hs.
    cbn [Transport.fresh Transport._retry negb]. rewrite andb_true_r.
    destruct (Transport.is_401 status) eqn:E401; [|reflexivity].
    destruct Hwhy as [Hw|Hw]; [discriminate|].
    destruct (Transport.localStorage (snd b) !! "refreshToken") as [tok|]; [|reflexivity].
    rewrite Hw. reflexivity.
  - intros status tok s2 Hs H401 Htok Hne H2.
    unfold AuthStore.login. rewrite api_unfold. cbv zeta. fold r1. fold log1.
    rewrite Hs, H401. cbn [Transport.fresh Transport._retry negb andb].
    rewrite Htok, (truthy_item_some tok Hne), H2. reflexivity.
Qed.

Lemma login_then_failed_fetch_logs_out_witness :
  let server := fun _ : list Transport.sent => Transport.Failure (Some 401) in
  let b : AuthStore.page :=
    (Auth.mkStore None (Some "eyJa") (Some "r1"),
     Transport.mkWorld {[ "accessToken" := "eyJa"; "refreshToken" := "r1" ]} "/" [] server) in
  exists b',
    AuthStore.login 2 (fun _ => "alice") "alice" "wrong" b
      = Some (Async.Rejected (Async.HttpError (Some 401)), b')
    /\ fst b' = fst b
    /\ Transport.localStorage (snd b') !! "accessToken" = None
    /\ Transport.localStorage (snd b') !! "refreshToken" = None
    /\ Transport.location_href (snd b') = "/login"
    /\ AuthStore.urls (Transport.log (snd b')) = ["/auth/login"; "/api/auth/refresh"].
Proof.
  intros server b.
  destruct (login_then_failed_fetch_logs_out 0 (fun _ => "alice") "alice" "wrong" b)
    as (_ & _ & H).
  eexists. split.
  - apply (H (Some 401) "r1" (Some 401)); try reflexivity. discriminate.
  - repeat split.
Defined.



(** X5: the logout of the navigation bar.  From any session it leaves
    the store without user and tokens, removes both tokens from
    localStorage, hides the navigation bar and pushes [/login]; the guard
    lets that navigation through to the Login route, and any other
    navigation of the logged-out session ends on a public route. *)
Theorem appLogout_lands_on_login (s : AuthStore.session) (fuel : nat) (p : string) :
  let run := AuthStore.appLogout s in
  let s' := snd (fst run) in
  snd run = [Async.RouterPush "/login"]
  /\ AuthStore.loggedOut s'
  /\ AuthStore.navShown s' = false
  /\ Router.navigate (2 + fuel) "/login" (fst s') = Some (Router.resolve "/login")
  /\ Router.to_name (Router.resolve "/login") = Some "Login"
  /\ exists loc,
       Router.navigate (2 + fuel) p (fst s') = Some loc
       /\ Js.truthy (Router.to_meta_public loc) = true.
Proof.
  intros run s'. subst s' run.
  split; [reflexivity|].
  split; [apply (logout_loggedOut s)|].
  split; [reflexivity|].
  split; [reflexivity|].
  split; [reflexivity|].
  destruct (navigate_settles fuel p (fst (snd (fst (AuthStore.appLogout s)))))
    as (loc & E & _ & H).
  exists loc. split; [exact E | apply H; reflexivity].
Qed.

(** ** The axios instance: replies other than a first 401 *)

(** X6: a reply that is not a 401 passes through the response
    interceptor untouched, already with one round of [api]: a success
    resolves with its data and a failure with another status, or without
    any response, is rejected with that status and the request as sent;
    in both cases exactly this one request went out, and localStorage and
    the location are unchanged. *)
Theorem api_passes_other_replies (fuel : nat) (req : Transport.Request)
    (w : Transport.World) :
  let r1 := Transport.onRequest w req in
  let log1 := Transport.log w ++ [Transport.SentApi r1] in
  let w1 := Transport.mkWorld (Transport.localStorage w) (Transport.location_href w)
              log1 (Transport.server w) in
  (forall d, Transport.server w log1 = Transport.Success d ->
     Transport.api (S fuel) req w = Some (Transport.Resolved d, w1))
  /\ (forall status, Transport.server w log1 = Transport.Failure status ->
        Transport.is_401 status = false ->
        Transport.api (S fuel) req w = Some (Transport.Rejected status r1, w1)).
Proof.
  intros r1 log1 w1. subst w1 log1 r1. split.
  - intros d H. cbn [Transport.api]. unfold Transport.send.
    cbn [Transport.localStorage Transport.location_href Transport.log Transport.server].
    rewrite H. reflexivity.
  - intros status H H401. cbn [Transport.api]. unfold Transport.send.
    cbn [Transport.localStorage Transport.location_href Transport.log Transport.server].
    rewrite H, H401. reflexivity.
Qed.

Lemma api_passes_other_replies_witness :
  let req := Transport.fresh (drivesApi.get "7") in
  let w := Transport.mkWorld {["accessToken" := "eyJa"]} "/drives/7" []
             (fun _ => Transport.Failure (Some 500)) in
  Transport.api 1 req w =
    Some (Transport.Rejected (Some 500) (Transport.onRequest w req),
          Transport.mkWorld {["accessToken" := "eyJa"]} "/drives/7"
            [Transport.SentApi (Transport.onRequest w req)]
            (fun _ => Transport.Failure (Some 500))).
Proof.
  intros req w.
  destruct (api_passes_other_replies 0 req w) as [_ H].
  apply (H (Some 500)); reflexivity.
Defined.

(** X7: one call of [api] makes at most one refresh call, and makes it
    only for an unmarked request whose first reply is a 401; the token
    it posts is the non-empty refresh token that localStorage held when
    the call began. *)
Theorem api_refreshes_at_most_once (fuel : nat) (req : Transport.Request)
    (w w' : Transport.World) (o : Transport.outcome) :
  Transport.api (2 + fuel) req w = Some (o, w') ->
  let sent := Transport.refresh_sends (Transport.since (length (Transport.log w)) w') in
  (length sent <= 1)%nat
  /\ forall token, In token sent ->
       Transport.localStorage w !! "refreshToken" = Some token
       /\ token <> ""
       /\ Transport._retry req = false
       /\ exists status,
            Transport.server w (Transport.log w ++ [Transport.SentApi (Transport.onRequest w req)])
              = Transport.Failure status
            /\ Transport.is_401 status = true.
Proof.
  rewrite api_unfold. cbv zeta.
  assert (Hdrop : forall l, drop (length (Transport.log w)) (Transport.log w ++ l) = l).
  { intros l. rewrite drop_app_length. reflexivity. }
  unfold Transport.since.
  destruct (Transport.server w _) as [d|status] eqn:E1.
  { intros H. inversion H; subst. simpl. rewrite Hdrop. simpl.
    split; [lia | intros ? []]. }
  destruct (Transport.is_401 status) eqn:E401; cbn [andb].
  2: { intros H. inversion H; subst. simpl. rewrite Hdrop. simpl.
       split; [lia | intros ? []]. }
  destruct (Transport._retry req) eqn:Er; cbn [negb].
  { intros H. inversion H; subst. simpl. rewrite Hdrop. simpl.
    split; [lia | intros ? []]. }
  destruct (Transport.localStorage w !! "refreshToken") as [tok|] eqn:Etok.
  2: { intros H. inversion H; subst. simpl. rewrite Hdrop. simpl.
       split; [lia | intros ? []]. }
  destruct (Auth.truthy_item (Some tok)) eqn:Etruthy.
  2: { intros H. inversion H; subst. simpl. rewrite Hdrop. simpl.
       split; [lia | intros ? []]. }
  assert (Hne : tok <> "").
  { intros ->. discriminate. }
  destruct (Transport.server w (_ ++ [Transport.SentRefresh tok])) as [data|s2].
  - intros H. inversion H; subst. simpl. rewrite <- !app_assoc, Hdrop. simpl.
    split; [lia|]. intros token [<-|[]]. eauto 6.
  - intros H. inversion H; subst. simpl. rewrite <- !app_assoc, Hdrop. simpl.
    split; [lia|]. intros token [<-|[]]. eauto 6.
Qed.

Lemma api_refreshes_at_most_once_witness :
  let req := Transport.fresh (drivesApi.get "7") in
  let w := Transport.mkWorld {["refreshToken" := "eyJr"]} "/drives/7" []
             (fun _ => Transport.Failure (Some 401)) in
  let w' := Transport.mkWorld ∅ "/login"
              [Transport.SentApi req; Transport.SentRefresh "eyJr"]
              (fun _ => Transport.Failure (Some 401)) in
  (length (Transport.refresh_sends (Transport.since (length (Transport.log w)) w')) <= 1)%nat.
Proof.
  intros req w w'.
  apply (api_refreshes_at_most_once 0 req w w'
           (Transport.Rejected (Some 401) (Transport.mkRequest (drivesApi.get "7") None true))).
  vm_compute. reflexivity.
Defined.

(** X8: the reload after a failed refresh ends on the login page.  When
    an unmarked request gets a 401, a refresh token is stored and the
    refresh call fails, the call is rejected with the 401 after those
    two requests, both tokens are removed from localStorage, whose other
    keys stay, and the location is set to [/login]; the store created
    from localStorage on that page load holds no user and no token and
    is unauthenticated, and the guard lets the navigation to the
    location proceed to the Login route. *)
Theorem failed_refresh_reloads_to_login (fuel fuel' : nat) (req : Transport.Request)
    (w : Transport.World) (status s2 : option Z) (tok : string) :
  let r1 := Transport.onRequest w req in
  let log1 := Transport.log w ++ [Transport.SentApi r1] in
  Transport.server w log1 = Transport.Failure status ->
  Transport.is_401 status = true ->
  Transport._retry req = false ->
  Transport.localStorage w !! "refreshToken" = Some tok -> tok <> "" ->
  Transport.server w (log1 ++ [Transport.SentRefresh tok]) = Transport.Failure s2 ->
  exists w',
    Transport.api (2 + fuel) req w =
      Some (Transport.Rejected status
              (Transport.mkRequest (Transport.config r1) (Transport.authorization r1) true),
            w')
    /\ Transport.location_href w' = "/login"
    /\ Transport.localStorage w' !! "accessToken" = None
    /\ Transport.localStorage w' !! "refreshToken" = None
    /\ (forall k, k <> "accessToken" -> k <> "refreshToken" ->
          Transport.localStorage w' !! k = Transport.localStorage w !! k)
    /\ Transport.since (length (Transport.log w)) w'
       = [Transport.SentApi r1; Transport.SentRefresh tok]
    /\ Transport.server w' = Transport.server w
    /\ Auth.useAuthStore (Transport.localStorage w') = Auth.mkStore None None None
    /\ Auth.isAuthenticated (Auth.useAuthStore (Transport.localStorage w')) = false
    /\ Router.navigate (2 + fuel') (Transport.location_href w')
         (Auth.useAuthStore (Transport.localStorage w'))
       = Some (Router.resolve "/login")
    /\ Router.to_name (Router.resolve "/login") = Some "Login".
Proof.
  intros r1 log1 H1 H401 Hr Htok Hne H2.
  rewrite api_unfold. cbv zeta. fold r1. fold log1.
  rewrite H1, H401, Hr, Htok. cbn [andb negb].
  rewrite (truthy_item_some tok Hne), H2.
  eexists. split; [reflexivity|].
  cbn [Transport.localStorage Transport.location_href Transport.log Transport.server].
  assert (Ea : (delete "refreshToken" (delete "accessToken" (Transport.localStorage w))
                : Auth.storage) !! "accessToken" = None).
  { rewrite lookup_delete_ne by discriminate. apply lookup_delete_eq. }
  assert (Er : (delete "refreshToken" (delete "accessToken" (Transport.localStorage w))
                : Auth.storage) !! "refreshToken" = None)
    by apply lookup_delete_eq.
  assert (Es : Auth.useAuthStore
                 (delete "refreshToken" (delete "accessToken" (Transport.localStorage w)))
               = Auth.mkStore None None None).
  { unfold Auth.useAuthStore. rewrite Ea, Er. reflexivity. }
  split; [reflexivity|]. split; [exact Ea|]. split; [exact Er|].
  split.
  { intros k Hk1 Hk2. rewrite !lookup_delete_ne by congruence. reflexivity. }
  split.
  { unfold Transport.since, log1. cbn [Transport.log].
    rewrite <- app_assoc. apply drop_app_length. }
  split; [reflexivity|]. split; [exact Es|].
  rewrite Es. split; [reflexivity|]. split; reflexivity.
Qed.

Lemma failed_refresh_reloads_to_login_witness :
  let req := Transport.fresh (drivesApi.get "7") in
  let w := Transport.mkWorld (<["accessToken" := "old"]> {["refreshToken" := "eyJr"]})
             "/drives/7" [] (fun _ => Transport.Failure (Some 401)) in
  exists w',
    Transport.api 2 req w =
      Some (Transport.Rejected (Some 401)
              (Transport.mkRequest (drivesApi.get "7") (Some "Bearer old") true), w')
    /\ Transport.location_href w' = "/login"
    /\ Transport.localStorage w' = ∅
    /\ Router.navigate 2 (Transport.location_href w')
         (Auth.useAuthStore (Transport.localStorage w'))
       = Some (Router.resolve "/login").
Proof.
  intros req w.
  destruct (failed_refresh_reloads_to_login 0 0 req w (Some 401) (Some 401) "eyJr")
    as (w' & E & Hloc & _ & _ & _ & _ & _ & _ & _ & Hnav & _);
    try reflexivity; [discriminate|].
  exists w'. split; [exact E|]. split; [exact Hloc|]. split; [|exact Hnav].
  vm_compute in E. inversion E. reflexivity.
Defined.

(** X9: after a successful refresh the new access token is the one in
    use.  When an unmarked request gets a 401, a refresh token is stored
    and the refresh call returns a non-empty access token, the next
    request through the instance carries [Bearer] and that token, and a
    store created from localStorage holds it and is authenticated. *)
Theorem refreshed_token_is_used (fuel : nat) (req : Transport.Request)
    (w : Transport.World) (status : option Z) (tok newToken : string)
    (data : Transport.Body) (next : Http.config) :
  let log1 := Transport.log w ++ [Transport.SentApi (Transport.onRequest w req)] in
  Transport.server w log1 = Transport.Failure status ->
  Transport.is_401 status = true ->
  Transport._retry req = false ->
  Transport.localStorage w !! "refreshToken" = Some tok -> tok <> "" ->
  Transport.server w (log1 ++ [Transport.SentRefresh tok]) = Transport.Success data ->
  Transport.access_token data = Some newToken -> newToken <> "" ->
  exists o w',
    Transport.api (2 + fuel) req w = Some (o, w')
    /\ Transport.authorization (Transport.onRequest w' (Transport.fresh next))
       = Some ("Bearer " +:+ newToken)
    /\ Auth.accessToken (Auth.useAuthStore (Transport.localStorage w')) = Some newToken
    /\ Auth.isAuthenticated (Auth.useAuthStore (Transport.localStorage w')) = true.
Proof.
  intros log1 H1 H401 Hr Htok Hne H2 Hnew Hnn. subst log1.
  rewrite api_unfold. cbv zeta.
  rewrite H1, H401, Hr, Htok. cbn [andb negb].
  rewrite (truthy_item_some tok Hne), H2, Hnew.
  do 2 eexists. split; [reflexivity|].
  cbn [Transport.localStorage].
  change (Transport.toString (Some newToken)) with newToken.
  assert (E : (<["refreshToken" := Transport.toString (Transport.refresh_token data)]>
                 (<["accessToken" := newToken]> (Transport.localStorage w)) : Auth.storage)
              !! "accessToken" = Some newToken).
  { rewrite lookup_insert_ne by discriminate. apply lookup_insert_eq. }
  split.
  { unfold Transport.onRequest. cbn [Transport.localStorage].
    rewrite E, (truthy_item_some newToken Hnn). reflexivity. }
  unfold Auth.isAuthenticated, Auth.useAuthStore. cbn [Auth.accessToken].
  rewrite E.
  split; [reflexivity | apply (truthy_item_some newToken Hnn)].
Qed.

Lemma refreshed_token_is_used_witness :
  let req := Transport.fresh (drivesApi.get "7") in
  let w := Transport.mkWorld (<["accessToken" := "old"]> {["refreshToken" := "eyJr"]})
             "/drives/7" []
             (fun l => match length l with
                       | 1%nat => Transport.Failure (Some 401)
                       | _ => Transport.Success (Transport.mkBody (Some "new") (Some "r2"))
                       end) in
  exists o w',
    Transport.api 2 req w = Some (o, w')
    /\ Transport.authorization (Transport.onRequest w' (Transport.fresh campaignsApi.list))
       = Some "Bearer new"
    /\ Auth.accessToken (Auth.useAuthStore (Transport.localStorage w')) = Some "new"
    /\ Auth.isAuthenticated (Auth.useAuthStore (Transport.localStorage w')) = true.
Proof.
  intros req w.
  apply (refreshed_token_is_used 0 req w (Some 401) "eyJr" "new"
           (Transport.mkBody (Some "new") (Some "r2")) campaignsApi.list);
    try reflexivity; discriminate.
Defined.

(** ** Drive detail view: failures *)

Section DriveDetailFailures.
Import Model Js Http Async DriveDetail.
Variable route_id : string.
Variable parseFloat : string -> float.

Lemma handle_without_drive (st : State) (ev : event) :
  drive st = None ->
  drive (snd (fst (handle route_id parseFloat ev st))) = None
  /\ forall c, ~ In (Request c) (snd (handle route_id parseFloat ev st)).
Proof.
  intros Hd. destruct ev; simpl.
  - rewrite prepareDrive_run, Hd. split; [exact Hd | intros c []].
  - rewrite downloadDrive_run, Hd. split; [exact Hd | intros c []].
  - split; [exact Hd | intros c []].
  - split; [exact Hd | intros c []].
  - split; [exact Hd | intros c []].
  - split; [exact Hd | intros c []].
  - split; [exact Hd | intros c []].
  - destruct geo as [[[lat lng]|]|]; simpl; (split; [exact Hd|]); intros c H;
      repeat (destruct H as [H|H]; [discriminate|]); destruct H.
  - rewrite deployDrive_run, Hd.
    destruct (guard_passes st); simpl; (split; [exact Hd|]); intros c H;
      repeat (destruct H as [H|H]; [discriminate|]); destruct H.
  - split; [exact Hd | intros c []].
Qed.

Lemma run_without_drive (evs : list event) : forall st : State,
  drive st = None ->
  forall c, ~ In (Request c) (snd (run route_id parseFloat st evs)).
Proof.
  induction evs as [|ev evs IH]; intros st Hd c; simpl; [intros []|].
  unfold step.
  destruct (offered st ev).
  - destruct (handle_without_drive st ev Hd) as [Hd1 Hn].
    destruct (handle route_id parseFloat ev st) as [[o st1] tr1]. simpl in *.
    specialize (IH st1 Hd1 c).
    destruct (run route_id parseFloat st1 evs) as [st2 tr2]. simpl in *.
    intros H. apply in_app_or in H as [H|H]; [exact (Hn c H) | exact (IH H)].
  - specialize (IH st Hd c).
    destruct (run route_id parseFloat st evs) as [st2 tr2]. simpl in *. exact IH.
Qed.
End DriveDetailFailures.

(** X10: [loadDrive] is all or nothing.  When the drive or its tokens
    cannot be fetched, the error is logged, the router is pushed to
    [/drives], the drive and the tokens shown stay as they were (also
    when only one of the two requests failed) and the promise still
    resolves; when both succeed both are replaced and nothing is pushed.
    Either way both requests are sent and [loading] ends false. *)
Theorem loadDrive_all_or_nothing (route_id : string) (r : DriveDetail.reload)
    (st : DriveDetail.State) :
  let run := DriveDetail.loadDrive route_id r st in
  let st' := snd (fst run) in
  fst (fst run) = Async.Resolved tt
  /\ DriveDetail.loading st' = false
  /\ Async.requests (snd run) = [drivesApi.get route_id; drivesApi.tokens route_id]
  /\ (forall d ts, DriveDetail.r_get r = Async.Ok d -> DriveDetail.r_tokens r = Async.Ok ts ->
        DriveDetail.drive st' = Some d /\ DriveDetail.tokens st' = ts
        /\ ~ In (Async.RouterPush "/drives") (snd run))
  /\ ((exists s, DriveDetail.r_get r = Async.Err s)
      \/ (exists s, DriveDetail.r_tokens r = Async.Err s) ->
        DriveDetail.drive st' = DriveDetail.drive st
        /\ DriveDetail.tokens st' = DriveDetail.tokens st
        /\ In (Async.RouterPush "/drives") (snd run)).
Proof.
  intros run st'. subst st' run. rewrite loadDrive_run.
  destruct (DriveDetail.r_get r) as [d|s1], (DriveDetail.r_tokens r) as [ts|s2]; simpl;
    (split; [reflexivity|]); (split; [reflexivity|]); (split; [reflexivity|]); split.
  all: try (intros ? ? E1 E2; inversion E1; inversion E2; subst;
            split; [reflexivity|]; split; [reflexivity|];
            intros [H|[H|[]]]; discriminate).
  all: try (intros ? ? E1 E2; discriminate).
  all: try (intros _; split; [reflexivity|]; split; [reflexivity|]; tauto).
  intros [[s E]|[s E]]; discriminate.
Qed.

Lemma loadDrive_all_or_nothing_witness :
  let d := Model.mkDrive "7" (Js.Str "prepared") "USB-A1B2-ACME" in
  let st := DriveDetail.set_drive (Some d) DriveDetail.initial in
  let run := DriveDetail.loadDrive "7"
               (DriveDetail.mkReload
                  (Async.Ok (Model.mkDrive "7" (Js.Str "deployed") "USB-A1B2-ACME"))
                  (Async.Err (Some 500))) st in
  DriveDetail.drive (snd (fst run)) = Some d
  /\ DriveDetail.tokens (snd (fst run)) = []
  /\ In (Async.RouterPush "/drives") (snd run).
Proof.
  intros d st run.
  destruct (loadDrive_all_or_nothing "7"
              (DriveDetail.mkReload
                 (Async.Ok (Model.mkDrive "7" (Js.Str "deployed") "USB-A1B2-ACME"))
                 (Async.Err (Some 500))) st) as (_ & _ & _ & _ & H).
  apply H. right. exists (Some 500). reflexivity.
Defined.

(** X11: a detail page whose initial load failed sends nothing more.
    The drive stays [null]; the action buttons are not rendered, and a
    submit of the deploy form, which [?action=deploy] may still have
    opened, stops at [drive.value.id] before any request: whatever the
    operator does afterwards, the only requests of the session are the
    two of the initial load. *)
Theorem failed_load_sends_nothing_more (route_id : string) (route_action : Js.value)
    (parseFloat : string -> float) (r : DriveDetail.reload)
    (evs : list DriveDetail.event) :
  (exists s, DriveDetail.r_get r = Async.Err s)
  \/ (exists s, DriveDetail.r_tokens r = Async.Err s) ->
  Async.requests (snd (DriveDetail.session route_id route_action parseFloat r evs))
    = [drivesApi.get route_id; drivesApi.tokens route_id].
Proof.
  intros Hfail. unfold DriveDetail.session. rewrite onMounted_run, loadDrive_run.
  set (failed := (Async.Resolved tt,
                  DriveDetail.set_loading false (DriveDetail.set_loading true DriveDetail.initial),
                  [Async.Request (drivesApi.get route_id);
                   Async.Request (drivesApi.tokens route_id);
                   Async.ConsoleError "Failed to load drive:";
                   Async.RouterPush "/drives"])
                 : Async.outcome unit * DriveDetail.State * list Async.effect).
  assert (E : match DriveDetail.r_get r, DriveDetail.r_tokens r with
              | Async.Ok d, Async.Ok ts =>
                  (Async.Resolved tt,
                   DriveDetail.set_loading false
                     (DriveDetail.set_tokens ts
                        (DriveDetail.set_drive (Some d)
                           (DriveDetail.set_loading true DriveDetail.initial))),
                   [Async.Request (drivesApi.get route_id);
                    Async.Request (drivesApi.tokens route_id)])
              | _, _ => failed
              end = failed).
  { destruct Hfail as [[s E]|[s E]]; rewrite E; [reflexivity|].
    destruct (DriveDetail.r_get r); reflexivity. }
  rewrite E. subst failed. cbv zeta. cbn [fst snd].
  set (st0 := if Js.strict_eq route_action (Js.Str "deploy") then _ else _).
  assert (Hd : DriveDetail.drive st0 = None).
  { subst st0. destruct (Js.strict_eq _ _); reflexivity. }
  pose proof (run_without_drive route_id parseFloat evs st0 Hd) as Hn.
  destruct (DriveDetail.run route_id parseFloat st0 evs) as [st tr]. cbn [fst snd] in *.
  unfold Async.requests. rewrite omap_app. simpl.
  assert (Hnil : omap (fun e => match e with Async.Request c => Some c | _ => None end) tr = []).
  { clear -Hn. induction tr as [|e tr IH]; [reflexivity|].
    simpl. destruct e as [c| | | |].
    - exfalso. apply (Hn c). left. reflexivity.
    - apply IH. intros c H. apply (Hn c). right. exact H.
    - apply IH. intros c H. apply (Hn c). right. exact H.
    - apply IH. intros c H. apply (Hn c). right. exact H.
    - apply IH. intros c H. apply (Hn c). right. exact H. }
  rewrite Hnil. reflexivity.
Qed.

Lemma failed_load_sends_nothing_more_witness :
  Async.requests (snd (DriveDetail.session "7" (Js.Str "deploy") (fun _ => PrimFloat.nan)
     (DriveDetail.mkReload (Async.Err (Some 404)) (Async.Err (Some 404)))
     [DriveDetail.ClickUseCurrentLocation (Some (Some ((75 / 2)%float, (-489 / 4)%float)));
      DriveDetail.SubmitDeployForm (Async.Ok tt)
        (DriveDetail.mkReload (Async.Err (Some 404)) (Async.Err (Some 404)))]))
  = [drivesApi.get "7"; drivesApi.tokens "7"].
Proof.
  apply failed_load_sends_nothing_more. left. exists (Some 404). reflexivity.
Defined.

(** X12: a failed deployment request is not reported.  When the guard
    passes and a drive is loaded, a failing [POST /drives/{id}/deploy]
    makes [deployDrive] reject with the error: nothing but that request
    is in the trace (no alert, no reload), the modal stays open with the
    form as it was, and [deploying] is reset.  On success the modal is
    closed, the drive is reloaded and [deploying] is reset too. *)
Theorem deployDrive_failure_is_silent (route_id : string) (r : DriveDetail.reload)
    (st : DriveDetail.State) (d : Model.Drive) :
  DriveDetail.guard_passes st = true ->
  DriveDetail.drive st = Some d ->
  (forall status,
     let run := DriveDetail.deployDrive route_id (Async.Err status) r st in
     fst (fst run) = Async.Rejected (Async.HttpError status)
     /\ snd run = [Async.Request (drivesApi.deploy (Model.id d) (DriveDetail.deployment st))]
     /\ DriveDetail.showDeployModal (snd (fst run)) = DriveDetail.showDeployModal st
     /\ DriveDetail.deployment (snd (fst run)) = DriveDetail.deployment st
     /\ DriveDetail.deploying (snd (fst run)) = false)
  /\ (let run := DriveDetail.deployDrive route_id (Async.Ok tt) r st in
      fst (fst run) = Async.Resolved tt
      /\ Async.requests (snd run) =
           [drivesApi.deploy (Model.id d) (DriveDetail.deployment st);
            drivesApi.get route_id; drivesApi.tokens route_id]
      /\ DriveDetail.showDeployModal (snd (fst run)) = false
      /\ DriveDetail.deploying (snd (fst run)) = false).
Proof.
  intros Hg Hd. split.
  - intros status run. subst run. rewrite deployDrive_run, Hg, Hd.
    repeat split; reflexivity.
  - cbv zeta. rewrite deployDrive_run, Hg, Hd, loadDrive_run.
    destruct (DriveDetail.r_get r), (DriveDetail.r_tokens r); repeat split; reflexivity.
Qed.

Lemma deployDrive_failure_is_silent_witness :
  let d := Model.mkDrive "7" (Js.Str "prepared") "USB-A1B2-ACME" in
  let st := DriveDetail.set_deployment "longitude" (Js.Num (-489 / 4)%float)
              (DriveDetail.set_deployment "latitude" (Js.Num (75 / 2)%float)
                 (DriveDetail.set_showDeployModal true
                    (DriveDetail.set_drive (Some d) DriveDetail.initial))) in
  let run := DriveDetail.deployDrive "7" (Async.Err (Some 422))
               (DriveDetail.mkReload (Async.Ok d) (Async.Ok [])) st in
  fst (fst run) = Async.Rejected (Async.HttpError (Some 422))
  /\ snd run = [Async.Request (drivesApi.deploy "7" (DriveDetail.deployment st))]
  /\ DriveDetail.showDeployModal (snd (fst run)) = true
  /\ DriveDetail.deployment (snd (fst run)) = DriveDetail.deployment st
  /\ DriveDetail.deploying (snd (fst run)) = false.
Proof.
  intros d st.
  destruct (deployDrive_failure_is_silent "7"
              (DriveDetail.mkReload (Async.Ok d) (Async.Ok [])) st d eq_refl eq_refl)
    as [H _].
  exact (H (Some 422)).
Defined.

(** X13: the geolocation button.  Without geolocation support, or when
    the position cannot be obtained, the operator gets an alert and the
    form keeps its coordinates; [gettingLocation] is never left set.  A
    position that is delivered is written to both coordinates, leaving
    the description and the name; if neither coordinate is zero or NaN a
    following submit sends the deployment request with exactly that
    position. *)
Theorem geolocation_fills_the_form (route_id : string) (r : DriveDetail.reload)
    (st : DriveDetail.State) (d : Model.Drive) (lat lng : float) :
  DriveDetail.drive st = Some d ->
  (forall geo, geo = None \/ geo = Some None ->
     let run := DriveDetail.getCurrentLocation geo st in
     DriveDetail.deployment (snd (fst run)) = DriveDetail.deployment st
     /\ (exists msg, In (Async.Alert msg) (snd run))
     /\ (geo = Some None -> DriveDetail.gettingLocation (snd (fst run)) = false))
  /\ (let st1 := snd (fst (DriveDetail.getCurrentLocation (Some (Some (lat, lng))) st)) in
      DriveDetail.deployment st1 =
        <["longitude" := Js.Num lng]> (<["latitude" := Js.Num lat]> (DriveDetail.deployment st))
      /\ DriveDetail.gettingLocation st1 = false
      /\ Http.field (DriveDetail.deployment st1) "location_description"
           = Http.field (DriveDetail.deployment st) "location_description"
      /\ Http.field (DriveDetail.deployment st1) "deployed_by"
           = Http.field (DriveDetail.deployment st) "deployed_by"
      /\ (Js.truthy (Js.Num lat) = true -> Js.truthy (Js.Num lng) = true ->
          forall rd, exists rest,
            snd (DriveDetail.deployDrive route_id rd r st1) =
              Async.Request (drivesApi.deploy (Model.id d)
                (<["longitude" := Js.Num lng]>
                   (<["latitude" := Js.Num lat]> (DriveDetail.deployment st)))) :: rest)).
Proof.
  intros Hd. split.
  - intros geo [-> | ->] run; subst run; simpl.
    + split; [reflexivity|]. split; [eexists; left; reflexivity | discriminate].
    + split; [reflexivity|]. split; [eexists; right; left; reflexivity | reflexivity].
  - cbv zeta.
    set (st1 := snd (fst (DriveDetail.getCurrentLocation (Some (Some (lat, lng))) st))).
    assert (Hdep : DriveDetail.deployment st1 =
              <["longitude" := Js.Num lng]>
                (<["latitude" := Js.Num lat]> (DriveDetail.deployment st))) by reflexivity.
    assert (Hdr : DriveDetail.drive st1 = Some d) by exact Hd.
    split; [exact Hdep|]. split; [reflexivity|].
    rewrite Hdep.
    split; [rewrite !field_insert_ne by discriminate; reflexivity|].
    split; [rewrite !field_insert_ne by discriminate; reflexivity|].
    intros Hlat Hlng rd. rewrite deployDrive_run.
    unfold DriveDetail.guard_passes. rewrite Hdep, Hdr.
    rewrite field_insert_ne by discriminate. rewrite !field_insert_eq.
    rewrite Hlat, Hlng. cbn [andb].
    destruct rd.
    + destruct (DriveDetail.loadDrive route_id r _) as [[o s'] tr]. eexists. reflexivity.
    + eexists. reflexivity.
Qed.

Lemma geolocation_fills_the_form_witness :
  let d := Model.mkDrive "7" (Js.Str "prepared") "USB-A1B2-ACME" in
  let st := DriveDetail.set_showDeployModal true
              (DriveDetail.set_drive (Some d) DriveDetail.initial) in
  let st1 := snd (fst (DriveDetail.getCurrentLocation
                         (Some (Some ((75 / 2)%float, (-489 / 4)%float))) st)) in
  exists rest,
    snd (DriveDetail.deployDrive "7" (Async.Err None)
           (DriveDetail.mkReload (Async.Ok d) (Async.Ok [])) st1) =
      Async.Request (drivesApi.deploy "7"
        (<["longitude" := Js.Num (-489 / 4)%float]>
           (<["latitude" := Js.Num (75 / 2)%float]> (DriveDetail.deployment st)))) :: rest.
Proof.
  intros d st st1.
  destruct (geolocation_fills_the_form "7" (DriveDetail.mkReload (Async.Ok d) (Async.Ok []))
              st d (75 / 2)%float (-489 / 4)%float eq_refl) as (_ & _ & _ & _ & _ & H).
  apply (H eq_refl eq_refl (Async.Err None)).
Defined.

(** ** Drives list and campaign views *)

Section ListFacts.
Import Js Http Async.

Ltac async_unfold :=
  cbv [mbind mret async_bind async_ret Async.bind Async.ret Async.throw Async.read
       Async.modify Async.emit Async.call Async.call_both Async.try_catch
       Async.try_finally Async.deref Async.trace_of Async.state_of Async.outcome_of].

Lemma loadDrives_run (r : reply (list Model.Drive)) (st : Drives.State) :
  Drives.loadDrives r st =
  let fc := Drives.f_campaign_id (Drives.filters st) in
  let fs := Drives.f_status (Drives.filters st) in
  let p1 : object := if truthy fc then <["campaign_id" := fc]> ∅ else ∅ in
  let p2 : object := if truthy fs then <["status" := fs]> p1 else p1 in
  (match r with Ok _ => Resolved tt | Err s => Rejected (HttpError s) end,
   Drives.mkState (match r with Ok rows => rows | Err _ => Drives.drives st end)
     false (Drives.showCreateModal st) (Drives.filters st) (Drives.newDrive st),
   [Request (drivesApi.list p2)]).
Proof.
  unfold Drives.loadDrives. async_unfold.
  destruct r; reflexivity.
Qed.
End ListFacts.

(** X14: the filters of the drives list reach the server only when set.
    [loadDrives] sends one [GET /drives] whose parameters hold
    [campaign_id] exactly when that filter is truthy, [status] exactly
    when that filter is truthy, and nothing else; after [clearFilters]
    the request has no parameters.  A failed request keeps the rows that
    were shown, and [loading] ends false either way. *)
Theorem loadDrives_sends_set_filters (r : Async.reply (list Model.Drive))
    (st : Drives.State) :
  (exists params,
     Async.requests (snd (Drives.loadDrives r st)) =
       [Http.mkConfig Http.GET "/drives" (Some params) None None]
     /\ forall k v,
          params !! k = Some v <->
          (k = "campaign_id" /\ v = Drives.f_campaign_id (Drives.filters st)
           /\ Js.truthy v = true)
          \/ (k = "status" /\ v = Drives.f_status (Drives.filters st)
              /\ Js.truthy v = true))
  /\ Async.requests (snd (DrivesFilters.clearFilters r st)) =
       [Http.mkConfig Http.GET "/drives" (Some ∅) None None]
  /\ Drives.loading (snd (fst (Drives.loadDrives r st))) = false
  /\ (forall s, r = Async.Err s ->
        Drives.drives (snd (fst (Drives.loadDrives r st))) = Drives.drives st).
Proof.
  split.
  { rewrite loadDrives_run. cbv zeta. eexists. split; [reflexivity|].
    intros k v.
    destruct (Js.truthy (Drives.f_campaign_id (Drives.filters st))) eqn:Ec,
             (Js.truthy (Drives.f_status (Drives.filters st))) eqn:Es.
    - rewrite lookup_insert. destruct (decide ("status" = k)) as [<-|Hk].
      + split.
        * intros E. inversion E; subst. right. auto.
        * intros [(Hk & _)|(_ & -> & _)]; [discriminate | reflexivity].
      + rewrite lookup_insert. destruct (decide ("campaign_id" = k)) as [<-|Hk2].
        * split.
          -- intros E. inversion E; subst. left. auto.
          -- intros [(_ & -> & _)|(Hk' & _)]; [reflexivity | discriminate].
        * rewrite lookup_empty. split; [discriminate|].
          intros [(-> & _)|(-> & _)]; congruence.
    - rewrite lookup_insert. destruct (decide ("campaign_id" = k)) as [<-|Hk2].
      + split.
        * intros E. inversion E; subst. left. auto.
        * intros [(_ & -> & _)|(Hk' & _)]; [reflexivity | discriminate].
      + rewrite lookup_empty. split; [discriminate|].
        intros [(-> & _)|(_ & -> & Ht)]; congruence.
    - rewrite lookup_insert. destruct (decide ("status" = k)) as [<-|Hk].
      + split.
        * intros E. inversion E; subst. right. auto.
        * intros [(Hk & _)|(_ & -> & _)]; [discriminate | reflexivity].
      + rewrite lookup_empty. split; [discriminate|].
        intros [(_ & -> & Ht)|(-> & _)]; congruence.
    - rewrite lookup_empty. split; [discriminate|].
      intros [(_ & -> & Ht)|(_ & -> & Ht)]; congruence. }
  split.
  { unfold DrivesFilters.clearFilters.
    cbv [mbind async_bind Async.bind Async.modify].
    rewrite loadDrives_run. reflexivity. }
  split.
  { rewrite loadDrives_run. reflexivity. }
  intros s ->. rewrite loadDrives_run. reflexivity.
Qed.

Lemma loadDrives_sends_set_filters_witness :
  let st := DrivesFilters.selectStatus (Js.Str "deployed") Drives.initial in
  Drives.drives (snd (fst (Drives.loadDrives (Async.Err (Some 500)) st))) = []
  /\ Async.requests (snd (Drives.loadDrives (Async.Err (Some 500)) st)) =
       [Http.mkConfig Http.GET "/drives" (Some {["status" := Js.Str "deployed"]}) None None].
Proof.
  intros st. split.
  - destruct (loadDrives_sends_set_filters (Async.Err (Some 500)) st) as (_ & _ & _ & H).
    apply (H (Some 500)). reflexivity.
  - reflexivity.
Defined.

(** ** Drives list: writes *)

(** X15: a failed write leaves the drives list as it was.  When the
    POST of [createDrive] or of [prepareDrive] fails, the handler
    rejects after that one request and changes nothing: the form, the
    modal and the rows stay, and the list is not reloaded.  When the POST
    succeeds the list is reloaded with the filters in force, and
    [createDrive] has closed the modal and emptied the form first.  A
    failed download saves no file; a successful one saves
    [drive-{id}.zip]. *)
Theorem drives_failed_write_changes_nothing (id : string) (r_write : Async.reply unit)
    (r_list : Async.reply (list Model.Drive)) (st : Drives.State) :
  (forall s, r_write = Async.Err s ->
     Drives.createDrive r_write r_list st
       = (Async.Rejected (Async.HttpError s), st,
          [Async.Request (drivesApi.create (Drives.newDrive st))])
     /\ Drives.prepareDrive id r_write r_list st
        = (Async.Rejected (Async.HttpError s), st,
           [Async.Request (drivesApi.prepare id)])
     /\ Drives.downloadDrive id r_write st
        = (Async.Rejected (Async.HttpError s), st,
           [Async.Request (drivesApi.download id)]))
  /\ (forall u, r_write = Async.Ok u ->
        (exists params,
           Async.trace_of (Drives.createDrive r_write r_list) st
             = [Async.Request (drivesApi.create (Drives.newDrive st));
                Async.Request (drivesApi.list params)]
           /\ Async.trace_of (Drives.prepareDrive id r_write r_list) st
              = [Async.Request (drivesApi.prepare id);
                 Async.Request (drivesApi.list params)]
           /\ Async.trace_of (Drives.loadDrives r_list) st
              = [Async.Request (drivesApi.list params)])
        /\ Drives.newDrive (Async.state_of (Drives.createDrive r_write r_list) st)
           = Drives.emptyDrive
        /\ Drives.showCreateModal (Async.state_of (Drives.createDrive r_write r_list) st)
           = false
        /\ Drives.newDrive (Async.state_of (Drives.prepareDrive id r_write r_list) st)
           = Drives.newDrive st
        /\ Drives.downloadDrive id r_write st
           = (Async.Resolved tt, st,
              [Async.Request (drivesApi.download id);
               Async.SaveFile ("drive-" +:+ id +:+ ".zip")])).
Proof.
  split.
  - intros s ->. repeat split.
  - intros u ->.
    unfold Async.trace_of, Async.state_of, Drives.createDrive, Drives.prepareDrive,
      Drives.downloadDrive.
    cbv [mbind mret async_bind async_ret Async.bind Async.ret Async.read
         Async.modify Async.emit Async.call].
    rewrite !loadDrives_run. cbv zeta. cbn [fst snd Drives.filters Drives.newDrive
      Drives.showCreateModal app].
    split; [eexists; repeat split|]. destruct u. repeat split.
Qed.

Lemma drives_failed_write_changes_nothing_witness :
  let st := Drives.mkState [] false true (Drives.mkFilters (Js.Str "") (Js.Str "created"))
              (<["label" := Js.Str "Lobby"]> Drives.emptyDrive) in
  Drives.createDrive (Async.Err (Some 422)) (Async.Ok []) st
    = (Async.Rejected (Async.HttpError (Some 422)), st,
       [Async.Request (drivesApi.create (Drives.newDrive st))])
  /\ Drives.prepareDrive "12" (Async.Err (Some 422)) (Async.Ok []) st
     = (Async.Rejected (Async.HttpError (Some 422)), st,
        [Async.Request (drivesApi.prepare "12")])
  /\ Drives.downloadDrive "12" (Async.Err (Some 422)) st
     = (Async.Rejected (Async.HttpError (Some 422)), st,
        [Async.Request (drivesApi.download "12")]).
Proof.
  intros st.
  destruct (drives_failed_write_changes_nothing "12" (Async.Err (Some 422)) (Async.Ok []) st)
    as [H _].
  apply (H (Some 422)). reflexivity.
Defined.

(** ** Campaign views: create, save and delete *)

(** X16: a failed create keeps what the operator typed.  When
    [POST /campaigns] fails, [createCampaign] rejects after that one
    request, and the form and the modal are as before; when it succeeds
    the modal is closed, the form is emptied and the list is requested
    again. *)
Theorem createCampaign_keeps_form_on_failure (r_list : Async.reply (list Campaigns.Row))
    (st : Campaigns.State) :
  (forall status,
     Campaigns.createCampaign (Async.Err status) r_list st =
       (Async.Rejected (Async.HttpError status), st,
        [Async.Request (campaignsApi.create (Campaigns.newCampaign st))]))
  /\ (let run := Campaigns.createCampaign (Async.Ok tt) r_list st in
      Async.requests (snd run) =
        [campaignsApi.create (Campaigns.newCampaign st); campaignsApi.list]
      /\ Campaigns.newCampaign (snd (fst run)) = Campaigns.emptyCampaign
      /\ Campaigns.showCreateModal (snd (fst run)) = false
      /\ Campaigns.loading (snd (fst run)) = false
      /\ (forall rows, r_list = Async.Ok rows ->
            Campaigns.campaigns (snd (fst run)) = rows)
      /\ (forall s, r_list = Async.Err s ->
            Campaigns.campaigns (snd (fst run)) = Campaigns.campaigns st
            /\ fst (fst run) = Async.Rejected (Async.HttpError s))).
Proof.
  split.
  - intros status. reflexivity.
  - cbv zeta. unfold Campaigns.createCampaign, Campaigns.loadCampaigns.
    cbv [mbind mret async_bind async_ret Async.bind Async.ret Async.throw Async.read
         Async.modify Async.emit Async.call Async.try_finally].
    destruct r_list as [rows|s]; simpl.
    + repeat split; try reflexivity.
      * intros ? E. inversion E. reflexivity.
      * discriminate.
      * discriminate.
    + repeat split; try reflexivity.
      * discriminate.
      * inversion H. reflexivity.
Qed.

Lemma createCampaign_keeps_form_on_failure_witness :
  let st := Campaigns.type Campaigns.NameInput "Q1 2024 Assessment"
              (Campaigns.setModal true Campaigns.initial) in
  let run := Campaigns.createCampaign (Async.Ok tt) (Async.Err (Some 500)) st in
  Campaigns.campaigns (snd (fst run)) = []
  /\ fst (fst run) = Async.Rejected (Async.HttpError (Some 500)).
Proof.
  intros st.
  destruct (createCampaign_keeps_form_on_failure (Async.Err (Some 500)) st)
    as (_ & _ & _ & _ & _ & _ & H).
  apply (H (Some 500)). reflexivity.
Defined.

Section CampaignDetailFacts.
Import Js Http Async CampaignDetail.
Variable route_id : string.

Lemma loadCampaign_state (rg : reply Campaign) (rs : reply SuccessRate.Stats) (st : State) :
  snd (fst (loadCampaign route_id rg rs st)) =
  match rg, rs with
  | Ok c, Ok s => mkState (Some c) (Some s) false (showEditModal st) (formOf c)
  | _, _ => mkState (campaign st) (stats st) false (showEditModal st) (editForm st)
  end.
Proof.
  unfold loadCampaign.
  cbv [mbind mret async_bind async_ret Async.bind Async.ret Async.throw Async.read
       Async.modify Async.emit Async.call Async.call_both Async.try_catch
       Async.try_finally].
  destruct rg, rs; reflexivity.
Qed.

Lemma formOf_fields (c : Campaign) :
  field (formOf c) "name" = name c
  /\ field (formOf c) "client_name" = client_name c
  /\ field (formOf c) "description" = description c
  /\ field (formOf c) "status" = status c
  /\ dom (formOf c) = {[ "name"; "client_name"; "description"; "status" ]}.
Proof.
  unfold formOf, field.
  split; [rewrite lookup_insert_eq; reflexivity|].
  split; [rewrite lookup_insert_ne by discriminate; rewrite lookup_insert_eq; reflexivity|].
  split; [rewrite !lookup_insert_ne by discriminate; rewrite lookup_insert_eq; reflexivity|].
  split; [rewrite !lookup_insert_ne by discriminate; rewrite lookup_singleton_eq; reflexivity|].
  rewrite !dom_insert_L, dom_singleton_L.
  apply set_eq. intros k. rewrite !elem_of_union, !elem_of_singleton. tauto.
Qed.
End CampaignDetailFacts.

(** X17: saving an unedited campaign sends back what was loaded.  After
    a successful [loadCampaign] the edit form holds exactly the name,
    client name, description and status of the campaign, and an
    [updateCampaign] that follows puts these four fields, unchanged, to
    [/campaigns/{id}].  A failed load leaves the campaign, the stats and
    the edit form as they were. *)
Theorem unedited_save_returns_loaded_fields (route_id : string)
    (c : CampaignDetail.Campaign) (stats : SuccessRate.Stats)
    (st : CampaignDetail.State) :
  (let st1 := snd (fst (CampaignDetail.loadCampaign route_id (Async.Ok c) (Async.Ok stats) st)) in
   CampaignDetail.editForm st1 = CampaignDetail.formOf c
   /\ Http.field (CampaignDetail.editForm st1) "name" = CampaignDetail.name c
   /\ Http.field (CampaignDetail.editForm st1) "client_name" = CampaignDetail.client_name c
   /\ Http.field (CampaignDetail.editForm st1) "description" = CampaignDetail.description c
   /\ Http.field (CampaignDetail.editForm st1) "status" = CampaignDetail.status c
   /\ dom (CampaignDetail.editForm st1) = {[ "name"; "client_name"; "description"; "status" ]}
   /\ forall ru rg rs, exists rest,
        Async.requests (Async.trace_of (CampaignDetail.updateCampaign route_id ru rg rs) st1)
        = Http.mkConfig Http.PUT ("/campaigns/" +:+ CampaignDetail.id c) None
            (Some (CampaignDetail.formOf c)) None :: rest)
  /\ (forall rg rs,
        (exists s, rg = Async.Err s) \/ (exists s, rs = Async.Err s) ->
        let st1 := snd (fst (CampaignDetail.loadCampaign route_id rg rs st)) in
        CampaignDetail.campaign st1 = CampaignDetail.campaign st
        /\ CampaignDetail.stats st1 = CampaignDetail.stats st
        /\ CampaignDetail.editForm st1 = CampaignDetail.editForm st
        /\ CampaignDetail.loading st1 = false).
Proof.
  split.
  - cbv zeta. rewrite loadCampaign_state. cbn [CampaignDetail.editForm].
    destruct (formOf_fields c) as (H1 & H2 & H3 & H4 & H5).
    split; [reflexivity|].
    split; [exact H1|]. split; [exact H2|]. split; [exact H3|]. split; [exact H4|].
    split; [exact H5|].
    intros ru rg rs. rewrite updateCampaign_requests. cbn [CampaignDetail.campaign].
    eexists. reflexivity.
  - intros rg rs Hfail st1. subst st1. rewrite loadCampaign_state.
    destruct Hfail as [[s ->]|[s ->]]; [|destruct rg]; repeat split; reflexivity.
Qed.

Lemma unedited_save_returns_loaded_fields_witness :
  let c := CampaignDetail.mkCampaign "42" (Js.Str "Q1 2024 Assessment") (Js.Str "Acme Corp")
             Js.Null (Js.Str "active") in
  let st1 := snd (fst (CampaignDetail.loadCampaign "42" (Async.Ok c) (Async.Err (Some 500))
                         CampaignDetail.initial)) in
  CampaignDetail.campaign st1 = None
  /\ CampaignDetail.stats st1 = None
  /\ CampaignDetail.editForm st1 = ∅
  /\ CampaignDetail.loading st1 = false.
Proof.
  intros c.
  destruct (unedited_save_returns_loaded_fields "42" c
              (SuccessRate.mkStats Js.Null Js.Null Js.Null) CampaignDetail.initial)
    as [_ H].
  apply (H (Async.Ok c) (Async.Err (Some 500))). right. exists (Some 500). reflexivity.
Defined.

(** X18: deleting a campaign.  Without the operator's confirmation
    nothing is sent; with it one [DELETE /campaigns/{id}] is sent, and
    the router goes to [/campaigns] only if the request succeeded: a
    failed delete rejects and leaves the page where it is. *)
Theorem deleteCampaign_needs_confirmation (st : CampaignDetail.State)
    (c : CampaignDetail.Campaign) (r_delete : Async.reply unit) :
  CampaignDetail.campaign st = Some c ->
  CampaignDetail.deleteCampaign false r_delete st = (Async.Resolved tt, st, [])
  /\ (forall u, r_delete = Async.Ok u ->
        CampaignDetail.deleteCampaign true r_delete st =
          (Async.Resolved tt, st,
           [Async.Request (Http.mkConfig Http.DELETE ("/campaigns/" +:+ CampaignDetail.id c)
                             None None None);
            Async.RouterPush "/campaigns"]))
  /\ (forall s, r_delete = Async.Err s ->
        CampaignDetail.deleteCampaign true r_delete st =
          (Async.Rejected (Async.HttpError s), st,
           [Async.Request (Http.mkConfig Http.DELETE ("/campaigns/" +:+ CampaignDetail.id c)
                             None None None)])).
Proof.
  intros Hc. split; [reflexivity|].
  unfold CampaignDetail.deleteCampaign.
  cbv [mbind mret async_bind async_ret Async.bind Async.ret Async.throw Async.read
       Async.modify Async.emit Async.call Async.deref].
  rewrite Hc. split.
  - intros u ->. reflexivity.
  - intros s ->. reflexivity.
Qed.

Lemma deleteCampaign_needs_confirmation_witness :
  let c := CampaignDetail.mkCampaign "42" (Js.Str "Q1 2024 Assessment") (Js.Str "Acme Corp")
             Js.Null (Js.Str "active") in
  let st := CampaignDetail.mkState (Some c) None false true (CampaignDetail.formOf c) in
  CampaignDetail.deleteCampaign true (Async.Err (Some 403)) st =
    (Async.Rejected (Async.HttpError (Some 403)), st,
     [Async.Request (Http.mkConfig Http.DELETE "/campaigns/42" None None None)]).
Proof.
  intros c st.
  destruct (deleteCampaign_needs_confirmation st c (Async.Err (Some 403)) eq_refl)
    as (_ & _ & H).
  apply (H (Some 403)). reflexivity.
Defined.

(** ** Alerts view: the campaign filter and the refresh timer *)

Section AlertsFacts.
Import Js Http Async Alerts AlertsTimer.

Lemma loadAlerts_state (rr : reply (list Alert)) (rs : reply unit) (st : State) :
  state_of (loadAlerts rr rs) st =
  match rr, rs with
  | Ok data, Ok _ =>
      mkState (if truthy (f_campaign_id (filters st))
               then filter (fun a => strict_eq (campaign_id a) (f_campaign_id (filters st)) = true)
                           data
               else data)
              false (autoRefresh st) (refreshInterval st) (filters st)
  | _, _ => mkState (alerts st) false (autoRefresh st) (refreshInterval st) (filters st)
  end.
Proof.
  unfold loadAlerts, state_of.
  cbv [mbind mret async_bind async_ret Async.bind Async.ret Async.throw Async.read
       Async.modify Async.emit Async.call Async.call_both Async.try_finally].
  destruct rr, rs; reflexivity.
Qed.

Lemma loadAlerts_outcome (rr : reply (list Alert)) (rs : reply unit) (st : State) :
  outcome_of (loadAlerts rr rs) st =
  match rr, rs with
  | Ok _, Ok _ => Resolved tt
  | Err s, _ => Rejected (HttpError s)
  | _, Err s => Rejected (HttpError s)
  end.
Proof.
  unfold loadAlerts, outcome_of.
  cbv [mbind mret async_bind async_ret Async.bind Async.ret Async.throw Async.read
       Async.modify Async.emit Async.call Async.call_both Async.try_finally].
  destruct rr, rs; reflexivity.
Qed.


Lemma run_state_cons (ev : event) (evs : list event) (st : State) :
  fst (run st (ev :: evs)) = fst (run (state_of (handle ev) st) evs).
Proof.
  simpl. unfold state_of.
  destruct (handle ev st) as [[o st1] tr1]. simpl.
  destruct (run st1 evs). reflexivity.
Qed.

Lemma run_trace_cons (ev : event) (evs : list event) (st : State) :
  snd (run st (ev :: evs)) =
  trace_of (handle ev) st ++ snd (run (state_of (handle ev) st) evs).
Proof.
  simpl. unfold state_of, trace_of.
  destruct (handle ev st) as [[o st1] tr1]. simpl.
  destruct (run st1 evs). reflexivity.
Qed.


Lemma session_split (rc : reply unit) (rr : reply (list Alert)) (rs : reply unit)
    (evs : list event) :
  session rc rr rs evs =
  (fst (run (state_of (onMounted rc rr rs) initial) evs),
   trace_of (onMounted rc rr rs) initial
   ++ snd (run (state_of (onMounted rc rr rs) initial) evs)).
Proof.
  unfold session, state_of, trace_of.
  destruct (onMounted rc rr rs initial) as [[o st0] tr0]. simpl.
  destruct (run st0 evs). reflexivity.
Qed.

Lemma onMounted_state (rc : reply unit) (rr : reply (list Alert)) (rs : reply unit) :
  state_of (onMounted rc rr rs) initial =
  match rc, rr, rs with
  | Ok _, Ok data, Ok _ => mkState data false true true (mkFilters (Str "") (int 24))
  | _, Ok data, Ok _ => mkState data false true false (mkFilters (Str "") (int 24))
  | _, _, _ => mkState [] false true false (mkFilters (Str "") (int 24))
  end.
Proof.
  unfold onMounted, loadAlerts, state_of.
  cbv [mbind mret async_bind async_ret Async.bind Async.ret Async.throw Async.read
       Async.modify Async.emit Async.call Async.call_both Async.try_catch
       Async.try_finally].
  destruct rc, rr, rs; reflexivity.
Qed.

Lemma handle_without_timer (ev : event) (st : State) :
  refreshInterval st = false -> autoRefresh st = true ->
  keeps_timer ev = true ->
  refreshInterval (state_of (handle ev) st) = false
  /\ autoRefresh (state_of (handle ev) st) = true
  /\ (is_click ev = false -> trace_of (handle ev) st = []).
Proof.
  intros Hr Ha Hk.
  destruct ev as [i|id|rr rs|rr rs|rr rs|]; try discriminate.
  - unfold state_of, trace_of, handle, modify. simpl. unfold selectHours.
    destruct (hourOptions !! i); auto.
  - unfold state_of, trace_of, handle, modify. simpl. auto.
  - change (handle (ClickApply rr rs)) with (loadAlerts rr rs).
    rewrite loadAlerts_state.
    split; [destruct rr, rs; exact Hr|]. split; [destruct rr, rs; exact Ha|].
    discriminate.
  - change (handle (ClickRefresh rr rs)) with (loadAlerts rr rs).
    rewrite loadAlerts_state.
    split; [destruct rr, rs; exact Hr|]. split; [destruct rr, rs; exact Ha|].
    discriminate.
  - unfold state_of, trace_of, handle.
    cbv [mbind mret async_bind async_ret Async.bind Async.ret Async.read].
    rewrite Hr. simpl. auto.
Qed.

Lemma run_without_timer (evs : list event) (st : State) :
  refreshInterval st = false -> autoRefresh st = true ->
  forallb keeps_timer evs = true ->
  refreshInterval (fst (run st evs)) = false
  /\ autoRefresh (fst (run st evs)) = true
  /\ (forallb (fun ev => negb (is_click ev)) evs = true -> snd (run st evs) = []).
Proof.
  revert st. induction evs as [|ev evs IH]; intros st Hr Ha Hk.
  - simpl. auto.
  - simpl in Hk. apply andb_true_iff in Hk as [Hk1 Hk2].
    destruct (handle_without_timer ev st Hr Ha Hk1) as (Hr1 & Ha1 & Ht1).
    destruct (IH _ Hr1 Ha1 Hk2) as (Hr2 & Ha2 & Ht2).
    rewrite run_state_cons, run_trace_cons.
    split; [exact Hr2|]. split; [exact Ha2|].
    intros Hc. simpl in Hc. apply andb_true_iff in Hc as [Hc1 Hc2].
    apply negb_true_iff in Hc1.
    rewrite (Ht1 Hc1), (Ht2 Hc2). reflexivity.
Qed.
End AlertsFacts.

(** X19: the campaign filter of the alerts view.  When both requests of
    [loadAlerts] succeed and a campaign is chosen, the list holds
    exactly the alerts of the reply whose [campaign_id] is strictly
    equal to the chosen one, in the order of the reply; without a chosen
    campaign it holds the whole reply.  When either request fails the
    call rejects and the list is the one shown before; [loading] is
    false afterwards in every case. *)
Theorem loadAlerts_filters_by_campaign (rr : Async.reply (list Alerts.Alert))
    (rs : Async.reply unit) (st : Alerts.State) :
  let cid := Alerts.f_campaign_id (Alerts.filters st) in
  let st' := Async.state_of (Alerts.loadAlerts rr rs) st in
  Alerts.loading st' = false
  /\ (forall data u, rr = Async.Ok data -> rs = Async.Ok u ->
        Async.outcome_of (Alerts.loadAlerts rr rs) st = Async.Resolved tt
        /\ (Js.truthy cid = false -> Alerts.alerts st' = data)
        /\ (Js.truthy cid = true ->
              (forall a, In a (Alerts.alerts st') <->
                         In a data /\ Js.strict_eq (Alerts.campaign_id a) cid = true)
              /\ exists dropped, length data = (length (Alerts.alerts st') + dropped)%nat))
  /\ ((exists s, rr = Async.Err s) \/ (exists s, rs = Async.Err s) ->
        Alerts.alerts st' = Alerts.alerts st
        /\ exists s, Async.outcome_of (Alerts.loadAlerts rr rs) st
                     = Async.Rejected (Async.HttpError s)).
Proof.
  intros cid st'. subst st'. rewrite loadAlerts_state, loadAlerts_outcome.
  split; [destruct rr, rs; reflexivity|].
  split.
  - intros data u -> ->. split; [reflexivity|]. fold cid.
    split.
    + intros ->. reflexivity.
    + intros ->. cbn [Alerts.alerts]. split.
      * intros a. rewrite <- !list_elem_of_In, list_elem_of_filter. tauto.
      * exists (length data
                - length (filter (fun a => Js.strict_eq (Alerts.campaign_id a) cid = true) data))%nat.
        pose proof (length_filter (fun a => Js.strict_eq (Alerts.campaign_id a) cid = true) data).
        lia.
  - intros [[s ->]|[s ->]].
    + split; [reflexivity|]. exists s. reflexivity.
    + destruct rr as [data|s']; (split; [reflexivity|]); eexists; reflexivity.
Qed.

Lemma loadAlerts_filters_by_campaign_witness :
  let a7 := Alerts.mkAlert (Js.int 1) (Js.int 7) (Js.int 3) (Js.Str "USB-0003") (Js.Str "dns")
              Js.Null (Js.Str "203.0.113.9") Js.Null Js.Null Js.Null
              (Js.Str "2024-01-15T10:30:00Z") in
  let a8 := Alerts.mkAlert (Js.int 2) (Js.int 8) (Js.int 4) (Js.Str "USB-0004") (Js.Str "word")
              Js.Null (Js.Str "203.0.113.10") Js.Null Js.Null Js.Null
              (Js.Str "2024-01-15T10:31:00Z") in
  let st := Alerts.selectCampaign (Js.int 7) Alerts.initial in
  Alerts.alerts (Async.state_of (Alerts.loadAlerts (Async.Err (Some 500)) (Async.Ok tt))
                   (Alerts.mkState [a7; a8] false true true (Alerts.filters st)))
  = [a7; a8].
Proof.
  intros a7 a8 st.
  destruct (loadAlerts_filters_by_campaign (Async.Err (Some 500)) (Async.Ok tt)
              (Alerts.mkState [a7; a8] false true true (Alerts.filters st)))
    as (_ & _ & H).
  apply H. left. exists (Some 500). reflexivity.
Defined.



(** X21: when one of the three requests of the mount fails, the timer is
    never started although the auto-refresh checkbox stays ticked: until
    the operator toggles the checkbox the view refreshes only on a click
    of Apply or Refresh, and a session without such a click sends
    nothing after the mount. *)
Theorem failed_mount_never_refreshes (rc : Async.reply unit)
    (rr : Async.reply (list Alerts.Alert)) (rs : Async.reply unit)
    (evs : list Alerts.event) :
  (exists s, rc = Async.Err s) \/ (exists s, rr = Async.Err s) \/ (exists s, rs = Async.Err s) ->
  forallb AlertsTimer.keeps_timer evs = true ->
  Alerts.autoRefresh (fst (Alerts.session rc rr rs evs)) = true
  /\ Alerts.refreshInterval (fst (Alerts.session rc rr rs evs)) = false
  /\ (forallb (fun ev => negb (AlertsTimer.is_click ev)) evs = true ->
      snd (Alerts.session rc rr rs evs) =
        [Async.Request campaignsApi.list;
         Async.Request (alertsApi.recent (Js.int 24));
         Async.Request (alertsApi.stats Js.Undefined)]).
Proof.
  intros Hfail Hk. rewrite session_split. cbn [fst snd].
  assert (H0 : Alerts.refreshInterval (Async.state_of (Alerts.onMounted rc rr rs) Alerts.initial) = false
               /\ Alerts.autoRefresh (Async.state_of (Alerts.onMounted rc rr rs) Alerts.initial) = true).
  { rewrite onMounted_state.
    destruct Hfail as [[s ->]|[[s ->]|[s ->]]].
    - destruct rr, rs; split; reflexivity.
    - destruct rc; split; reflexivity.
    - destruct rc, rr; split; reflexivity. }
  destruct H0 as [Hr Ha].
  destruct (run_without_timer evs _ Hr Ha Hk) as (Hr' & Ha' & Ht).
  split; [exact Ha'|]. split; [exact Hr'|].
  intros Hc. rewrite (Ht Hc), app_nil_r.
  destruct (onMounted_alerts rc rr rs Alerts.initial) as (o & st' & E & _).
  unfold Async.trace_of. rewrite E. reflexivity.
Qed.

Lemma failed_mount_never_refreshes_witness :
  Alerts.autoRefresh
    (fst (Alerts.session (Async.Err (Some 500)) (Async.Ok []) (Async.Ok tt)
            [Alerts.Tick (Async.Ok []) (Async.Ok tt); Alerts.SelectHours 0;
             Alerts.Tick (Async.Ok []) (Async.Ok tt)])) = true
  /\ Alerts.refreshInterval
       (fst (Alerts.session (Async.Err (Some 500)) (Async.Ok []) (Async.Ok tt)
               [Alerts.Tick (Async.Ok []) (Async.Ok tt); Alerts.SelectHours 0;
                Alerts.Tick (Async.Ok []) (Async.Ok tt)])) = false.
Proof.
  destruct (failed_mount_never_refreshes (Async.Err (Some 500)) (Async.Ok []) (Async.Ok tt)
              [Alerts.Tick (Async.Ok []) (Async.Ok tt); Alerts.SelectHours 0;
               Alerts.Tick (Async.Ok []) (Async.Ok tt)]) as (H1 & H2 & _).
  - left. exists (Some 500). reflexivity.
  - reflexivity.
  - split; [exact H1 | exact H2].
Defined.

(** ** Map view: the markers *)

Section MapFacts.
Import Js Http Async MapView MapMarkers.









End MapFacts.







(** ** Dashboard *)

Section DashboardFacts.
Import Js Http Async Dashboard.

Lemma dashboard_onMounted_run (rs : reply Summary) (ra : reply (list Alerts.Alert))
    (st : State) :
  onMounted rs ra st =
  match rs, ra with
  | Ok s, Ok alerts =>
      (Resolved tt, mkState (Some s) (take 10 alerts) false,
       [Request reportsApi.summary; Request (alertsApi.recent (int 24))])
  | _, _ =>
      (Resolved tt, mkState (stats st) (recentAlerts st) false,
       [Request reportsApi.summary; Request (alertsApi.recent (int 24));
        ConsoleError "Failed to load dashboard data:"])
  end.
Proof.
  unfold onMounted.
  cbv [mbind mret async_bind async_ret Async.bind Async.ret Async.throw Async.read
       Async.modify Async.emit Async.call Async.call_both Async.try_catch
       Async.try_finally].
  destruct rs, ra; reflexivity.
Qed.
End DashboardFacts.

(** X25: the dashboard's mount never rejects.  With both replies it
    shows the summary and the first ten alerts of the last day, in the
    order of the reply; when either request fails it logs the error and
    keeps the summary and the alerts it had, so that a freshly opened
    dashboard whose load failed shows a zero on every card and the
    notice that there were no alerts. *)
Theorem dashboard_failure_looks_empty (rs : Async.reply Dashboard.Summary)
    (ra : Async.reply (list Alerts.Alert)) (st : Dashboard.State) :
  Async.outcome_of (Dashboard.onMounted rs ra) st = Async.Resolved tt
  /\ Dashboard.loading (Async.state_of (Dashboard.onMounted rs ra) st) = false
  /\ (forall s alerts, rs = Async.Ok s -> ra = Async.Ok alerts ->
        let st' := Async.state_of (Dashboard.onMounted rs ra) st in
        Dashboard.stats st' = Some s
        /\ (length (Dashboard.recentAlerts st') <= 10)%nat
        /\ Dashboard.recentAlerts st' ++ drop 10 alerts = alerts
        /\ ((length alerts <= 10)%nat -> Dashboard.recentAlerts st' = alerts))
  /\ ((exists e, rs = Async.Err e) \/ (exists e, ra = Async.Err e) ->
        let st' := Async.state_of (Dashboard.onMounted rs ra) st in
        Dashboard.stats st' = Dashboard.stats st
        /\ Dashboard.recentAlerts st' = Dashboard.recentAlerts st
        /\ In (Async.ConsoleError "Failed to load dashboard data:")
              (Async.trace_of (Dashboard.onMounted rs ra) st)
        /\ (st = Dashboard.initial ->
            Dashboard.render st' =
              Dashboard.Loaded (repeat (Js.int 0) 7) [] true)).
Proof.
  unfold Async.outcome_of, Async.state_of, Async.trace_of.
  rewrite dashboard_onMounted_run.
  split; [destruct rs, ra; reflexivity|].
  split; [destruct rs, ra; reflexivity|].
  split.
  - intros s alerts -> ->. cbn [fst snd Dashboard.stats Dashboard.recentAlerts].
    split; [reflexivity|].
    split; [rewrite length_take; lia|].
    split; [apply take_drop|].
    intros Hle. apply take_ge. lia.
  - intros Hfail.
    assert (E : match rs, ra with
                | Async.Ok s, Async.Ok alerts =>
                    (Async.Resolved tt, Dashboard.mkState (Some s) (take 10 alerts) false,
                     [Async.Request reportsApi.summary;
                      Async.Request (alertsApi.recent (Js.int 24))])
                | _, _ =>
                    (Async.Resolved tt,
                     Dashboard.mkState (Dashboard.stats st) (Dashboard.recentAlerts st) false,
                     [Async.Request reportsApi.summary;
                      Async.Request (alertsApi.recent (Js.int 24));
                      Async.ConsoleError "Failed to load dashboard data:"])
                end =
                (Async.Resolved tt,
                 Dashboard.mkState (Dashboard.stats st) (Dashboard.recentAlerts st) false,
                 [Async.Request reportsApi.summary;
                  Async.Request (alertsApi.recent (Js.int 24));
                  Async.ConsoleError "Failed to load dashboard data:"])).
    { destruct Hfail as [[e ->]|[e ->]]; [|destruct rs]; reflexivity. }
    rewrite E. cbn [fst snd Dashboard.stats Dashboard.recentAlerts].
    split; [reflexivity|]. split; [reflexivity|].
    split; [right; right; left; reflexivity|].
    intros ->. reflexivity.
Qed.

Lemma dashboard_failure_looks_empty_witness :
  Dashboard.render
    (Async.state_of (Dashboard.onMounted (Async.Err (Some 503)) (Async.Ok []))
       Dashboard.initial)
  = Dashboard.Loaded (repeat (Js.int 0) 7) [] true.
Proof.
  destruct (dashboard_failure_looks_empty (Async.Err (Some 503)) (Async.Ok [])
              Dashboard.initial) as (_ & _ & _ & H).
  destruct H as (_ & _ & _ & H).
  - left. exists (Some 503). reflexivity.
  - apply H. reflexivity.
Defined.

(** ** Reports view *)

Section ReportsFacts.
Import Js Http Async Reports.
Variable ToString : value -> string.

Lemma loadReport_run (r : reply SuccessRate.Stats) (st : State) :
  loadReport ToString r st =
  if truthy (selectedCampaign st)
  then (match r with Ok _ => Resolved tt | Err e => Rejected (HttpError e) end,
        mkState (campaigns st) (selectedCampaign st)
                (match r with Ok rep => Some rep | Err _ => report st end) false,
        [Request (reportsApi.campaign (ToString (selectedCampaign st)))])
  else (Resolved tt, st, []).
Proof.
  unfold loadReport.
  cbv [mbind mret async_bind async_ret Async.bind Async.ret Async.throw Async.read
       Async.modify Async.emit Async.call Async.try_finally].
  destruct (truthy (selectedCampaign st)); [|reflexivity].
  destruct r; reflexivity.
Qed.

Lemma loadReport_chosen (rows : list Campaigns.Row) (r : reply SuccessRate.Stats)
    (st : State) :
  chosen_from rows st ->
  chosen_from rows (state_of (loadReport ToString r) st)
  /\ all_about ToString rows (trace_of (loadReport ToString r) st).
Proof.
  intros [Hc Hs]. unfold state_of, trace_of. rewrite loadReport_run.
  destruct (truthy (selectedCampaign st)) eqn:Et; cbn [fst snd].
  - split.
    + split; [exact Hc|]. intros _. exact (Hs eq_refl).
    + intros e [<-|[]]. destruct (Hs eq_refl) as (c & Hin & E).
      exists c. split; [exact Hin|]. left. rewrite E. reflexivity.
  - split; [|intros e []]. split; [exact Hc|]. intros H. congruence.
Qed.

Lemma select_chosen (rows : list Campaigns.Row) (c : Campaigns.Row) (st : State) :
  campaigns st = rows -> In c rows ->
  chosen_from rows (set_selectedCampaign (Campaigns.id c) st).
Proof.
  intros Hc Hin. split; [exact Hc|]. intros _. exists c. split; [exact Hin | reflexivity].
Qed.

Lemma handle_chosen (rows : list Campaigns.Row) (ev : event) (st : State) :
  chosen_from rows st ->
  chosen_from rows (state_of (handle ToString ev) st)
  /\ all_about ToString rows (trace_of (handle ToString ev) st).
Proof.
  intros Hinv. pose proof Hinv as [Hc Hs].
  destruct ev as [i r|r]; unfold state_of, trace_of, handle.
  - cbv [mbind mret async_bind async_ret Async.bind Async.ret Async.read Async.modify].
    destruct (campaigns st !! i) as [c|] eqn:Ei.
    + assert (Hin : In c rows).
      { rewrite <- Hc. apply list_elem_of_In. eapply list_elem_of_lookup_2. exact Ei. }
      pose proof (loadReport_chosen rows r _ (select_chosen rows c st Hc Hin)) as [H1 H2].
      unfold state_of, trace_of in H1, H2.
      destruct (loadReport ToString r (set_selectedCampaign (Campaigns.id c) st))
        as [[o st'] tr]. cbn [fst snd] in *. split; assumption.
    + cbn [fst snd]. split; [exact Hinv|]. intros e [].
  - cbv [mbind mret async_bind async_ret Async.bind Async.ret Async.read].
    destruct (truthy (selectedCampaign st)) eqn:Et.
    + destruct (Hs eq_refl) as (c & Hin & E).
      unfold exportCsv.
      cbv [mbind mret async_bind async_ret Async.bind Async.ret Async.read Async.emit
           Async.call].
      destruct r as [u|s]; cbn [fst snd].
      * split; [exact Hinv|]. intros e [<-|[<-|[]]]; exists c; (split; [exact Hin|]);
          rewrite E; unfold about; auto.
      * split; [exact Hinv|]. intros e [<-|[]]; exists c; (split; [exact Hin|]);
          rewrite E; unfold about; auto.
    + cbn [fst snd]. split; [exact Hinv|]. intros e [].
Qed.

Lemma reports_run_cons (ev : event) (evs : list event) (st : State) :
  run ToString st (ev :: evs) =
  (fst (run ToString (state_of (handle ToString ev) st) evs),
   trace_of (handle ToString ev) st
   ++ snd (run ToString (state_of (handle ToString ev) st) evs)).
Proof.
  simpl. unfold state_of, trace_of.
  destruct (handle ToString ev st) as [[o st1] tr1]. cbn [fst snd].
  destruct (run ToString st1 evs). reflexivity.
Qed.

Lemma run_chosen (rows : list Campaigns.Row) (evs : list event) (st : State) :
  chosen_from rows st ->
  chosen_from rows (fst (run ToString st evs))
  /\ all_about ToString rows (snd (run ToString st evs)).
Proof.
  revert st. induction evs as [|ev evs IH]; intros st Hinv.
  - split; [exact Hinv|]. intros e [].
  - rewrite reports_run_cons. cbn [fst snd].
    destruct (handle_chosen rows ev st Hinv) as [H1 H2].
    destruct (IH _ H1) as [H3 H4].
    split; [exact H3|]. intros e He. apply in_app_iff in He as [He|He]; auto.
Qed.

Lemma reports_loadCampaigns_run (rl : reply (list Campaigns.Row)) (rr : reply SuccessRate.Stats)
    (st : State) :
  loadCampaigns ToString rl rr st =
  match rl with
  | Err e => (Rejected (HttpError e), set_loading false st, [Request campaignsApi.list])
  | Ok [] => (Resolved tt, mkState [] (selectedCampaign st) (report st) false,
              [Request campaignsApi.list])
  | Ok (first :: rest) =>
      let st1 := mkState (first :: rest) (Campaigns.id first) (report st) true in
      (outcome_of (loadReport ToString rr) st1,
       set_loading false (state_of (loadReport ToString rr) st1),
       Request campaignsApi.list :: trace_of (loadReport ToString rr) st1)
  end.
Proof.
  unfold loadCampaigns, outcome_of, state_of, trace_of.
  cbv [mbind mret async_bind async_ret Async.bind Async.ret Async.throw Async.read
       Async.modify Async.emit Async.call Async.try_finally].
  destruct rl as [[|first rest]|e]; cbn [fst snd]; try reflexivity.
  unfold set_selectedCampaign, set_loading. cbn [campaigns selectedCampaign report loading].
  destruct (loadReport ToString rr _) as [[o st'] tr]. destruct o; reflexivity.
Qed.

Lemma mount_chosen (rl : reply (list Campaigns.Row)) (rr : reply SuccessRate.Stats) :
  chosen_from (listed rl) (state_of (loadCampaigns ToString rl rr) initial)
  /\ exists tr, trace_of (loadCampaigns ToString rl rr) initial
                = Request campaignsApi.list :: tr
                /\ all_about ToString (listed rl) tr
                /\ ((exists e, rl = Err e) \/ rl = Ok [] -> tr = []).
Proof.
  unfold state_of, trace_of. rewrite reports_loadCampaigns_run.
  destruct rl as [[|first rest]|e]; cbn [fst snd listed].
  - split; [split; [reflexivity | discriminate]|].
    exists []. split; [reflexivity|]. split; [intros e []|]. reflexivity.
  - set (st1 := mkState (first :: rest) (Campaigns.id first) (report initial) true).
    assert (H1 : chosen_from (first :: rest) st1).
    { split; [reflexivity|]. intros _. exists first. split; [left|]; reflexivity. }
    destruct (loadReport_chosen _ rr _ H1) as [[H2 H3] H4].
    split; [split; [exact H2 | exact H3]|].
    eexists. split; [reflexivity|]. split; [exact H4|].
    intros [[e E]|E]; discriminate.
  - split; [split; [reflexivity | discriminate]|].
    exists []. split; [reflexivity|]. split; [intros e' []|]. reflexivity.
Qed.

Lemma session_chosen (rl : reply (list Campaigns.Row)) (rr : reply SuccessRate.Stats)
    (evs : list event) :
  chosen_from (listed rl) (fst (session ToString rl rr evs))
  /\ exists tr, snd (session ToString rl rr evs) = Request campaignsApi.list :: tr
                /\ all_about ToString (listed rl) tr.
Proof.
  destruct (mount_chosen rl rr) as (H0 & tr0 & E0 & A0 & _).
  unfold session, state_of, trace_of in *.
  destruct (loadCampaigns ToString rl rr initial) as [[o st0] tr]. cbn [fst snd] in *.
  destruct (run_chosen (listed rl) evs st0 H0) as [H1 H2].
  destruct (run ToString st0 evs) as [st' tr']. cbn [fst snd] in *.
  split; [exact H1|]. subst tr. exists (tr0 ++ tr'). split; [reflexivity|].
  intros e He. apply in_app_iff in He as [He|He]; auto.
Qed.
End ReportsFacts.

(** X26: the reports view asks only about campaigns of the list it
    loaded.  In a session of the view, whatever the replies and whatever
    the operator selects or exports, the first request is the one for
    the list, and every later request and every file saved is for a
    campaign of that list: a report, a CSV export, or the file
    [campaign-{id}-report.csv].  When the list cannot be loaded or is
    empty, nothing is chosen and nothing else is ever sent. *)
Theorem reports_only_for_listed_campaigns (ToString : Js.value -> string)
    (r_list : Async.reply (list Campaigns.Row))
    (r_report : Async.reply SuccessRate.Stats) (evs : list Reports.event) :
  exists tr,
    snd (Reports.session ToString r_list r_report evs)
      = Async.Request campaignsApi.list :: tr
    /\ (forall e, In e tr ->
          exists c, In c (Reports.listed r_list) /\ Reports.about ToString c e)
    /\ (Reports.listed r_list = [] ->
          tr = []
          /\ Reports.selectedCampaign (fst (Reports.session ToString r_list r_report evs))
             = Js.Str "").
Proof.
  destruct (session_chosen ToString r_list r_report evs) as ([Hc Hs] & tr & E & Ha).
  exists tr. split; [exact E|]. split; [exact Ha|].
  intros Hnil. rewrite Hnil in *.
  assert (Htr : tr = []).
  { destruct tr as [|e tr']; [reflexivity|].
    destruct (Ha e (or_introl eq_refl)) as (c & [] & _). }
  split; [exact Htr|].
  clear E Ha Htr tr.
  assert (Hinv : forall evs st,
             Reports.campaigns st = [] -> Reports.selectedCampaign st = Js.Str "" ->
             Reports.selectedCampaign (fst (Reports.run ToString st evs)) = Js.Str "").
  { clear. induction evs as [|ev evs IH]; intros st H1 H2; [exact H2|].
    rewrite reports_run_cons. cbn [fst].
    assert (E : Async.state_of (Reports.handle ToString ev) st = st).
    { unfold Async.state_of. destruct ev as [i r|r]; unfold Reports.handle;
        cbv [mbind mret async_bind async_ret Async.bind Async.ret Async.read].
      - rewrite H1. reflexivity.
      - rewrite H2. reflexivity. }
    rewrite E. apply IH; assumption. }
  unfold Reports.session.
  pose proof (reports_loadCampaigns_run ToString r_list r_report Reports.initial) as E.
  destruct r_list as [[|first rest]|e]; try discriminate; rewrite E;
    match goal with
    | |- context [Reports.run ToString ?s evs] =>
        pose proof (Hinv evs s eq_refl eq_refl) as H;
        destruct (Reports.run ToString s evs); exact H
    end.
Qed.

Lemma reports_only_for_listed_campaigns_witness :
  let ToString := fun v : Js.value => match v with Js.Str s => s | _ => "7" end in
  Reports.selectedCampaign
    (fst (Reports.session ToString (Async.Err (Some 500))
            (Async.Ok (SuccessRate.mkStats (Js.int 3) (Js.int 2) (Js.int 1)))
            [Reports.SelectCampaign 0 (Async.Err None); Reports.ClickExport (Async.Ok tt)]))
  = Js.Str "".
Proof.
  intros ToString.
  destruct (reports_only_for_listed_campaigns ToString (Async.Err (Some 500))
              (Async.Ok (SuccessRate.mkStats (Js.int 3) (Js.int 2) (Js.int 1)))
              [Reports.SelectCampaign 0 (Async.Err None); Reports.ClickExport (Async.Ok tt)])
    as (tr & _ & _ & H).
  apply H. reflexivity.
Defined.

(** X27: the mount of the reports view.  With a list that is not empty
    it chooses the first campaign and asks for its report, provided the
    id of that campaign is truthy; the outcome of the mount is then the
    outcome of that request.  A failed report request leaves the list
    and the choice in place and the report as it was; in every case the
    spinner is off at the end. *)
Theorem reports_mount_selects_first (ToString : Js.value -> string)
    (first : Campaigns.Row) (rest : list Campaigns.Row)
    (r_report : Async.reply SuccessRate.Stats) (st : Reports.State) :
  let m := Reports.loadCampaigns ToString (Async.Ok (first :: rest)) r_report in
  Reports.campaigns (Async.state_of m st) = first :: rest
  /\ Reports.selectedCampaign (Async.state_of m st) = Campaigns.id first
  /\ Reports.loading (Async.state_of m st) = false
  /\ (Js.truthy (Campaigns.id first) = true ->
        Async.requests (Async.trace_of m st)
          = [campaignsApi.list; reportsApi.campaign (ToString (Campaigns.id first))]
        /\ (forall rep, r_report = Async.Ok rep ->
              Reports.report (Async.state_of m st) = Some rep
              /\ Async.outcome_of m st = Async.Resolved tt)
        /\ (forall e, r_report = Async.Err e ->
              Reports.report (Async.state_of m st) = Reports.report st
              /\ Async.outcome_of m st = Async.Rejected (Async.HttpError e)))
  /\ (Js.truthy (Campaigns.id first) = false ->
        Async.requests (Async.trace_of m st) = [campaignsApi.list]
        /\ Reports.report (Async.state_of m st) = Reports.report st
        /\ Async.outcome_of m st = Async.Resolved tt).
Proof.
  intros m. subst m. unfold Async.state_of, Async.trace_of, Async.outcome_of.
  rewrite reports_loadCampaigns_run. cbv zeta. cbn [fst snd].
  unfold Async.state_of, Async.trace_of, Async.outcome_of.
  rewrite loadReport_run. cbn [Reports.selectedCampaign Reports.campaigns Reports.report].
  destruct (Js.truthy (Campaigns.id first)) eqn:Et; cbn [fst snd].
  - split; [reflexivity|]. split; [reflexivity|]. split; [reflexivity|].
    split; [|discriminate]. intros _.
    split; [reflexivity|]. split.
    + intros rep ->. split; reflexivity.
    + intros e ->. split; reflexivity.
  - split; [reflexivity|]. split; [reflexivity|]. split; [reflexivity|].
    split; [discriminate|]. intros _. repeat split.
Qed.

Lemma reports_mount_selects_first_witness :
  let ToString := fun v : Js.value => match v with Js.Str s => s | _ => "7" end in
  let c := Campaigns.mkRow (Js.int 7) (Js.Str "Q1 2024 Assessment") (Js.Str "Acme Corp")
             (Js.Str "active") (Js.int 3) (Js.int 1) in
  let m := Reports.loadCampaigns ToString (Async.Ok [c]) (Async.Err (Some 404)) in
  Async.requests (Async.trace_of m Reports.initial)
    = [campaignsApi.list; reportsApi.campaign "7"]
  /\ Reports.report (Async.state_of m Reports.initial) = None
  /\ Async.outcome_of m Reports.initial = Async.Rejected (Async.HttpError (Some 404)).
Proof.
  intros ToString c m.
  destruct (reports_mount_selects_first ToString c [] (Async.Err (Some 404)) Reports.initial)
    as (_ & _ & _ & H & _).
  destruct (H eq_refl) as (H1 & _ & H2).
  split; [exact H1|]. apply (H2 (Some 404)). reflexivity.
Defined.

(** ** Profile form: the token types *)

Section ProfilesFacts.
Import Profiles.

Lemma includes_In (t : string) (ts : list string) :
  includes t ts = true <-> In t ts.
Proof.
  unfold includes. rewrite existsb_exists. split.
  - intros (x & Hx & E). apply String.eqb_eq in E. subst x. exact Hx.
  - intros H. exists t. split; [exact H | apply String.eqb_refl].
Qed.

Lemma indexOf_None (t : string) (ts : list string) :
  indexOf t ts = None <-> ~ In t ts.
Proof.
  induction ts as [|x ts IH]; simpl.
  - tauto.
  - destruct (String.eqb x t) eqn:E.
    + apply String.eqb_eq in E. split; [discriminate | tauto].
    + apply String.eqb_neq in E. destruct (indexOf t ts) as [j|]; simpl.
      * split; [discriminate|]. intros H. exfalso.
        assert (Hn : ~ In t ts) by tauto.
        apply IH in Hn. discriminate.
      * split; [|reflexivity]. intros _ [H|H]; [congruence|].
        destruct IH as [IH _]. apply (IH eq_refl H).
Qed.

Lemma indexOf_Some (t : string) (ts : list string) (i : nat) :
  indexOf t ts = Some i ->
  ts = take i ts ++ t :: drop (S i) ts.
Proof.
  revert i. induction ts as [|x ts IH]; intros i; simpl; [discriminate|].
  destruct (String.eqb x t) eqn:E.
  - apply String.eqb_eq in E. subst x. intros H. inversion H. reflexivity.
  - destruct (indexOf t ts) as [j|]; simpl; [|discriminate].
    intros H. inversion H; subst i. simpl. f_equal. apply IH. reflexivity.
Qed.

Lemma toggle_NoDup (t : string) (ts : list string) :
  NoDup ts -> NoDup (toggleTokenType t ts).
Proof.
  intros Hnd. unfold toggleTokenType.
  destruct (indexOf t ts) as [i|] eqn:E.
  - apply indexOf_Some in E. unfold splice1. rewrite E in Hnd.
    apply NoDup_app in Hnd as (H1 & H2 & H3). apply NoDup_cons in H3 as [H3 H4].
    apply NoDup_app. split; [exact H1|]. split; [|exact H4].
    intros x Hx Hx'. apply (H2 x Hx). right. exact Hx'.
  - apply indexOf_None in E. apply NoDup_app. split; [exact Hnd|].
    split; [|apply NoDup_singleton].
    intros x Hx Hx'. apply list_elem_of_In in Hx. apply list_elem_of_In in Hx'.
    destruct Hx' as [<-|[]]. contradiction.
Qed.

Lemma toggle_In (t t' : string) (ts : list string) :
  NoDup ts ->
  In t' (toggleTokenType t ts) <-> (if String.eqb t' t then ~ In t ts else In t' ts).
Proof.
  intros Hnd. unfold toggleTokenType.
  destruct (indexOf t ts) as [i|] eqn:E.
  - apply indexOf_Some in E. unfold splice1.
    assert (Hnd' : ~ In t (take i ts ++ drop (S i) ts)).
    { pose proof Hnd as Hnd'. rewrite E in Hnd'.
      apply NoDup_app in Hnd' as (H1 & H2 & H3). apply NoDup_cons in H3 as [H3 H4].
      intros Hin. apply in_app_iff in Hin as [Hin|Hin].
      - apply list_elem_of_In in Hin. apply (H2 t Hin). left.
      - apply list_elem_of_In in Hin. contradiction. }
    assert (Hin : In t ts) by (rewrite E; apply in_app_iff; right; left; reflexivity).
    destruct (String.eqb t' t) eqn:Et.
    + apply String.eqb_eq in Et. subst t'. tauto.
    + apply String.eqb_neq in Et. rewrite E at 3.
      rewrite !in_app_iff. simpl. split; [tauto|].
      intros [H|[H|H]]; [tauto | congruence | tauto].
  - apply indexOf_None in E. rewrite in_app_iff. simpl.
    destruct (String.eqb t' t) eqn:Et.
    + apply String.eqb_eq in Et. subst t'. tauto.
    + apply String.eqb_neq in Et. split; [|tauto].
      intros [H|[H|[]]]; [exact H | congruence].
Qed.

Lemma toggle_includes (t t' : string) (ts : list string) :
  NoDup ts ->
  includes t' (toggleTokenType t ts)
  = if String.eqb t' t then negb (includes t' ts) else includes t' ts.
Proof.
  intros Hnd. pose proof (toggle_In t t' ts Hnd) as H.
  destruct (String.eqb t' t) eqn:Et.
  - apply String.eqb_eq in Et. subst t'.
    destruct (includes t ts) eqn:E1, (includes t (toggleTokenType t ts)) eqn:E2;
      try reflexivity.
    + apply includes_In in E1. apply includes_In in E2. tauto.
    + exfalso. assert (Hn : ~ In t ts).
      { intros Hin. apply includes_In in Hin. congruence. }
      apply H in Hn. apply includes_In in Hn. congruence.
  - destruct (includes t' ts) eqn:E1, (includes t' (toggleTokenType t ts)) eqn:E2;
      try reflexivity.
    + apply includes_In in E1. apply H in E1. apply includes_In in E1. congruence.
    + apply includes_In in E2. apply H in E2. apply includes_In in E2. congruence.
Qed.

Lemma clicks_snoc (ts : list string) (cs : list string) (c : string) :
  clicks ts (cs ++ [c]) = toggleTokenType c (clicks ts cs).
Proof. unfold clicks. rewrite fold_left_app. reflexivity. Qed.

Lemma clicked_snoc (t : string) (cs : list string) (c : string) :
  clicked t (cs ++ [c]) = (clicked t cs + (if String.eqb t c then 1 else 0))%nat.
Proof.
  unfold clicked. rewrite List.filter_app, length_app. simpl.
  destruct (String.eqb t c); reflexivity.
Qed.

Lemma clicks_parity (ts cs : list string) :
  NoDup ts ->
  NoDup (clicks ts cs)
  /\ forall t, includes t (clicks ts cs) = xorb (includes t ts) (Nat.odd (clicked t cs)).
Proof.
  intros Hnd. induction cs as [|c cs IH] using rev_ind.
  - split; [exact Hnd|]. intros t. simpl. rewrite xorb_false_r. reflexivity.
  - destruct IH as [IH1 IH2]. rewrite clicks_snoc.
    split; [apply toggle_NoDup, IH1|].
    intros t. rewrite (toggle_includes c t _ IH1), clicked_snoc, IH2.
    destruct (String.eqb t c).
    + replace (clicked t cs + 1)%nat with (S (clicked t cs)) by lia.
      rewrite Nat.odd_succ, <- Nat.negb_odd.
      destruct (includes t ts), (Nat.odd (clicked t cs)); reflexivity.
    + rewrite Nat.add_0_r. reflexivity.
Qed.
End ProfilesFacts.

(** X28: the token-type buttons of the profile form.  Starting from a
    list without repetition, as the fresh form's [dns, word] is, any
    series of clicks leaves a list without repetition, and a type is
    selected afterwards exactly when its button was clicked an odd
    number of times if it was not selected before, an even number of
    times if it was.  A click on a type that is not selected appends it,
    and a second click gives the list back as it was. *)
Theorem token_type_selected_by_parity (types cs : list string) (type : string) :
  NoDup types ->
  NoDup (Profiles.clicks types cs)
  /\ Profiles.includes type (Profiles.clicks types cs)
     = xorb (Profiles.includes type types) (Nat.odd (Profiles.clicked type cs))
  /\ (Profiles.includes type types = false ->
      Profiles.toggleTokenType type types = types ++ [type]
      /\ Profiles.toggleTokenType type (Profiles.toggleTokenType type types) = types).
Proof.
  intros Hnd. destruct (clicks_parity types cs Hnd) as [H1 H2].
  split; [exact H1|]. split; [apply H2|].
  intros Hinc.
  assert (Hn : ~ In type types).
  { intros Hin. apply includes_In in Hin. congruence. }
  assert (E : Profiles.toggleTokenType type types = types ++ [type]).
  { unfold Profiles.toggleTokenType. apply indexOf_None in Hn. rewrite Hn. reflexivity. }
  split; [exact E|]. rewrite E.
  clear E Hinc H1 H2 Hnd. unfold Profiles.toggleTokenType.
  induction types as [|x ts IH]; simpl.
  - rewrite String.eqb_refl. reflexivity.
  - destruct (String.eqb x type) eqn:Ex.
    + apply String.eqb_eq in Ex. exfalso. apply Hn. left. exact Ex.
    + assert (Hn' : ~ In type ts) by (intros H; apply Hn; right; exact H).
      specialize (IH Hn').
      destruct (Profiles.indexOf type (ts ++ [type])) as [i|] eqn:Ei; simpl.
      * unfold Profiles.splice1 in *. simpl. f_equal. exact IH.
      * exfalso. apply indexOf_None in Ei. apply Ei. apply in_app_iff. right. left.
        reflexivity.
Qed.

Lemma token_type_selected_by_parity_witness :
  NoDup (Profiles.clicks Profiles.defaultTypes ["pdf"; "dns"; "pdf"; "qr"; "pdf"])
  /\ Profiles.includes "pdf"
       (Profiles.clicks Profiles.defaultTypes ["pdf"; "dns"; "pdf"; "qr"; "pdf"])
     = true.
Proof.
  assert (Hnd : NoDup Profiles.defaultTypes).
  { unfold Profiles.defaultTypes. apply NoDup_cons. split.
    - intros H. apply list_elem_of_In in H. destruct H as [H|[]]. discriminate.
    - apply NoDup_singleton. }
  destruct (token_type_selected_by_parity Profiles.defaultTypes
              ["pdf"; "dns"; "pdf"; "qr"; "pdf"] "pdf" Hnd) as (H1 & H2 & _).
  split; [exact H1|]. rewrite H2. reflexivity.
Defined.

(** ** Profile form: the label suggestions *)

Section LabelFacts.
Import Profiles.

Lemma split_not_nil (s : jsstring) : split s <> [].
Proof.
  destruct s as [|c s]; simpl; [discriminate|].
  destruct (c =? comma); [discriminate|].
  destruct (split s); discriminate.
Qed.

Lemma split_no_comma (s x : jsstring) : In x (split s) -> ~ In comma x.
Proof.
  revert x. induction s as [|c s IH]; intros x; simpl.
  - intros [<-|[]] [].
  - destruct (c =? comma) eqn:Ec.
    + intros [<-|H]; [intros []|]. apply IH, H.
    + apply Z.eqb_neq in Ec. destruct (split s) as [|y ys] eqn:Es.
      * intros [<-|[]] [H|[]]. congruence.
      * intros [<-|H].
        -- intros [H|H]; [congruence|]. apply (IH y); [left; reflexivity | exact H].
        -- apply IH. right. exact H.
Qed.

Lemma split_without_comma (l : jsstring) : ~ In comma l -> split l = [l].
Proof.
  induction l as [|c l IH]; intros Hn; simpl; [reflexivity|].
  destruct (c =? comma) eqn:Ec.
  - apply Z.eqb_eq in Ec. exfalso. apply Hn. left. exact Ec.
  - rewrite IH; [reflexivity|]. intros H. apply Hn. right. exact H.
Qed.

Lemma split_app_comma (l r : jsstring) :
  ~ In comma l -> split (l ++ comma :: r) = l :: split r.
Proof.
  induction l as [|c l IH]; intros Hn; simpl.
  - reflexivity.
  - destruct (c =? comma) eqn:Ec.
    + apply Z.eqb_eq in Ec. exfalso. apply Hn. left. exact Ec.
    + rewrite IH; [reflexivity|]. intros H. apply Hn. right. exact H.
Qed.

Lemma split_snoc_comma (s : jsstring) : split (s ++ [comma]) = split s ++ [[]].
Proof.
  induction s as [|c s IH]; simpl; [reflexivity|].
  destruct (c =? comma); [rewrite IH; reflexivity|].
  rewrite IH. destruct (split s) as [|x xs] eqn:Es; [|reflexivity].
  exfalso. exact (split_not_nil s Es).
Qed.

Lemma split_snoc_other (s : jsstring) (c : Z) :
  c <> comma ->
  exists xs x, split s = xs ++ [x] /\ split (s ++ [c]) = xs ++ [x ++ [c]].
Proof.
  intros Hc. induction s as [|d s IH]; simpl.
  - apply Z.eqb_neq in Hc. rewrite Hc. exists [], []. split; reflexivity.
  - destruct IH as (xs & x & E1 & E2). rewrite E1, E2.
    destruct (d =? comma).
    + exists ([] :: xs), x. split; reflexivity.
    + destruct xs as [|y ys]; simpl.
      * exists [], (d :: x). split; reflexivity.
      * exists ((d :: y) :: ys), x. split; reflexivity.
Qed.

Lemma trimStart_suffix (s : jsstring) : exists p, s = p ++ trimStart s.
Proof.
  induction s as [|c s [p IH]]; simpl.
  - exists []. reflexivity.
  - destruct (isWhiteSpace c).
    + exists (c :: p). simpl. f_equal. exact IH.
    + exists []. reflexivity.
Qed.

Lemma trimStart_length (s : jsstring) : (length (trimStart s) <= length s)%nat.
Proof.
  destruct (trimStart_suffix s) as [p E]. rewrite E at 2. rewrite length_app. lia.
Qed.

Lemma trimStart_In (s : jsstring) (c : Z) : In c (trimStart s) -> In c s.
Proof.
  destruct (trimStart_suffix s) as [p E]. intros H. rewrite E.
  apply in_app_iff. right. exact H.
Qed.

Lemma trimStart_head (c : Z) (s : jsstring) :
  trimStart (c :: s) = c :: s <-> isWhiteSpace c = false.
Proof.
  simpl. destruct (isWhiteSpace c) eqn:E.
  - split; [|discriminate]. intros H.
    pose proof (trimStart_length s) as Hl. rewrite H in Hl. simpl in Hl. lia.
  - split; reflexivity.
Qed.

Lemma trimStart_idem (s : jsstring) : trimStart (trimStart s) = trimStart s.
Proof.
  induction s as [|c s IH]; simpl; [reflexivity|].
  destruct (isWhiteSpace c) eqn:E; [exact IH|].
  simpl. rewrite E. reflexivity.
Qed.

Lemma trimEnd_prefix (s : jsstring) : exists q, s = trimEnd s ++ q.
Proof.
  unfold trimEnd. destruct (trimStart_suffix (rev s)) as [p E].
  exists (rev p). rewrite <- rev_app_distr, <- E, rev_involutive. reflexivity.
Qed.

Lemma trimEnd_In (s : jsstring) (c : Z) : In c (trimEnd s) -> In c s.
Proof.
  unfold trimEnd. intros H. apply in_rev in H. apply trimStart_In in H.
  apply in_rev. exact H.
Qed.

(** Stripping the end of a string that starts with no white space
    leaves a string that starts with none. *)
Lemma trimEnd_keeps_start (u : jsstring) :
  trimStart u = u -> trimStart (trimEnd u) = trimEnd u.
Proof.
  intros Hu. destruct (trimEnd_prefix u) as [q E].
  destruct (trimEnd u) as [|c r] eqn:Et; [reflexivity|].
  rewrite E in Hu. simpl in Hu. apply trimStart_head in Hu.
  apply trimStart_head. exact Hu.
Qed.

Lemma trim_clean (s : jsstring) :
  trim s <> [] -> ~ In comma s -> clean (trim s).
Proof.
  intros Hne Hc. unfold clean. split; [exact Hne|]. split.
  - intros H. apply Hc. unfold trim in H. apply trimEnd_In, trimStart_In in H. exact H.
  - split.
    + unfold trim. apply trimEnd_keeps_start, trimStart_idem.
    + unfold trim, trimEnd. rewrite rev_involutive. apply trimStart_idem.
Qed.

Lemma trim_of_clean (l : jsstring) : clean l -> trim l = l /\ trim (space :: l) = l.
Proof.
  intros (_ & _ & H1 & H2).
  assert (E : trim l = l).
  { unfold trim, trimEnd. rewrite H1, H2. apply rev_involutive. }
  split; [exact E|].
  unfold trim in *. simpl. exact E.
Qed.

Lemma split_join (l : jsstring) (ls : list jsstring) :
  Forall clean (l :: ls) ->
  split (join (l :: ls)) = l :: map (cons space) ls.
Proof.
  revert l. induction ls as [|l2 ls IH]; intros l Hall.
  - simpl. apply split_without_comma.
    apply Forall_cons in Hall as [(_ & H & _) _]. exact H.
  - apply Forall_cons in Hall as [(_ & Hc & _) Hall].
    change (join (l :: l2 :: ls)) with (l ++ comma :: space :: join (l2 :: ls)).
    rewrite (split_app_comma _ _ Hc).
    change (split (space :: join (l2 :: ls)))
      with (match split (join (l2 :: ls)) with
            | x :: xs => (space :: x) :: xs
            | [] => [[space]]
            end).
    rewrite (IH l2 Hall). reflexivity.
Qed.

Lemma parse_join (labels : list jsstring) :
  Forall clean labels -> parse (join labels) = labels.
Proof.
  intros Hall. destruct labels as [|l ls]; [reflexivity|].
  unfold parse. rewrite (split_join l ls Hall).
  pose proof Hall as Hall'. apply Forall_cons in Hall' as [Hl Hls].
  cbn [map]. destruct (trim_of_clean l Hl) as [-> _].
  cbn [List.filter].
  destruct l as [|c l]; [destruct Hl as [Hl _]; contradiction|].
  cbn [length Nat.eqb negb]. f_equal.
  clear Hall Hl. induction ls as [|x xs IH]; [reflexivity|].
  apply Forall_cons in Hls as [Hx Hxs].
  cbn [map]. destruct (trim_of_clean x Hx) as [_ ->].
  cbn [List.filter].
  destruct x as [|d x]; [destruct Hx as [Hx _]; contradiction|].
  cbn [length Nat.eqb negb]. f_equal. apply IH, Hxs.
Qed.

Lemma parse_clean (text l : jsstring) : In l (parse text) -> clean l.
Proof.
  unfold parse. intros H. apply filter_In in H as [H Hne].
  apply in_map_iff in H as (x & <- & Hx).
  apply trim_clean.
  - intros E. rewrite E in Hne. discriminate.
  - apply (split_no_comma text), Hx.
Qed.

Lemma trimStart_snoc (x : jsstring) (c : Z) :
  isWhiteSpace c = true ->
  trimStart (x ++ [c]) = match trimStart x with [] => [] | _ => trimStart x ++ [c] end.
Proof.
  intros Hc. induction x as [|d x IH]; simpl.
  - rewrite Hc. reflexivity.
  - destruct (isWhiteSpace d); [exact IH | reflexivity].
Qed.

Lemma trim_snoc (x : jsstring) (c : Z) :
  isWhiteSpace c = true -> trim (x ++ [c]) = trim x.
Proof.
  intros Hc. unfold trim. rewrite (trimStart_snoc x c Hc).
  destruct (trimStart x) as [|d u]; [reflexivity|].
  unfold trimEnd. rewrite rev_app_distr. simpl rev at 1. simpl app at 1.
  cbn [trimStart]. rewrite Hc. reflexivity.
Qed.

Lemma parse_snoc (text : jsstring) (c : Z) :
  c = comma \/ isWhiteSpace c = true -> parse (text ++ [c]) = parse text.
Proof.
  intros [->|Hc]; unfold parse.
  - rewrite split_snoc_comma, map_app, List.filter_app. simpl. apply app_nil_r.
  - assert (Hne : c <> comma) by (intros ->; discriminate).
    destruct (split_snoc_other text c Hne) as (xs & x & E1 & E2).
    rewrite E1, E2, !map_app, !List.filter_app. cbn [map].
    rewrite (trim_snoc x c Hc). reflexivity.
Qed.
End LabelFacts.

(** X29: the label-suggestions field of the profile form.  Whatever the
    text, every label the [@input] handler stores is not empty, holds no
    comma and neither starts nor ends with white space.  A list of such
    labels survives the round trip through the field: parsing the text
    that [join(', ')] displays gives the same list back.  A comma or a
    white-space character typed at the end of the text changes nothing
    in the stored list. *)
Theorem label_suggestions_round_trip (text : Profiles.jsstring)
    (labels : list Profiles.jsstring) (c : Z) :
  (forall l, In l (Profiles.parse text) -> Profiles.clean l)
  /\ (Forall Profiles.clean labels -> Profiles.parse (Profiles.join labels) = labels)
  /\ Profiles.parse (Profiles.join (Profiles.parse text)) = Profiles.parse text
  /\ (c = Profiles.comma \/ Profiles.isWhiteSpace c = true ->
      Profiles.parse (text ++ [c]) = Profiles.parse text).
Proof.
  split; [apply parse_clean|].
  split; [apply parse_join|].
  split; [|apply parse_snoc].
  apply parse_join. apply Forall_forall. intros l Hl.
  apply list_elem_of_In in Hl. apply (parse_clean text), Hl.
Qed.

Lemma label_suggestions_round_trip_witness :
  (* "Payroll Q4", "HR" and the text "Payroll Q4, HR" *)
  let payroll := [80; 97; 121; 114; 111; 108; 108; 32; 81; 52] in
  let hr := [72; 82] in
  Profiles.parse (Profiles.join [payroll; hr]) = [payroll; hr]
  /\ Profiles.parse (Profiles.join [payroll; hr] ++ [Profiles.comma])
     = Profiles.parse (Profiles.join [payroll; hr]).
Proof.
  intros payroll hr.
  destruct (label_suggestions_round_trip (Profiles.join [payroll; hr]) [payroll; hr]
              Profiles.comma) as (_ & H1 & _ & H2).
  split.
  - apply H1. repeat constructor; try discriminate; vm_compute; intuition lia.
  - apply H2. left. reflexivity.
Defined.

(** ** The guard without a token *)

Section RouterFacts.
Import Router.

Lemma public_route_is_login (r : RouteRecord) :
  In r routes -> Js.truthy (meta_public r) = true -> name r = "Login".
Proof.
  unfold routes. intros Hin Ht.
  repeat (destruct Hin as [<-|Hin]; [first [reflexivity | discriminate]|]).
  destruct Hin.
Qed.

Lemma resolve_public (p : string) :
  Js.truthy (to_meta_public (resolve p)) = true ->
  to_name (resolve p) = Some "Login".
Proof.
  unfold resolve. destruct (List.find (fun r => matches r p) routes) as [r|] eqn:E.
  - apply find_some in E as [Hin _]. cbn [to_meta_public to_name].
    intros Ht. rewrite (public_route_is_login r Hin Ht). reflexivity.
  - cbn [to_meta_public]. discriminate.
Qed.
End RouterFacts.

(** X30: without an access token every navigation ends on the login
    page.  Whatever path a session that is not authenticated asks for,
    the guard lets it reach the route named [Login] and no other, after
    at most one redirect. *)
Theorem unauthenticated_lands_on_login (p : string) (authStore : Auth.Store) (fuel : nat) :
  Auth.isAuthenticated authStore = false ->
  exists loc,
    Router.navigate (2 + fuel) p authStore = Some loc
    /\ Router.to_name loc = Some "Login"
    /\ Js.truthy (Router.to_meta_public loc) = true
    /\ (Router.to_path loc = p \/ Router.to_path loc = "/login").
Proof.
  intros Hauth. cbn [Nat.add Router.navigate].
  unfold Router.beforeEach at 1. rewrite Hauth. cbn [negb]. rewrite !andb_false_r, andb_true_r.
  unfold Js.not.
  destruct (Js.truthy (Router.to_meta_public (Router.resolve p))) eqn:Ep; cbn [negb].
  - exists (Router.resolve p). split; [reflexivity|].
    split; [apply resolve_public, Ep|]. split; [exact Ep|]. left.
    unfold Router.resolve. destruct (List.find _ Router.routes); reflexivity.
  - exists (Router.resolve "/login").
    assert (E : Router.beforeEach (Router.resolve "/login") authStore = Router.Proceed).
    { unfold Router.beforeEach. rewrite Hauth. reflexivity. }
    rewrite E. split; [reflexivity|]. split; [reflexivity|]. split; [reflexivity|].
    right. reflexivity.
Qed.

Lemma unauthenticated_lands_on_login_witness :
  exists loc,
    Router.navigate 2 "/campaigns/42" (Auth.mkStore None None (Some "eyJr")) = Some loc
    /\ Router.to_name loc = Some "Login"
    /\ Js.truthy (Router.to_meta_public loc) = true
    /\ (Router.to_path loc = "/campaigns/42" \/ Router.to_path loc = "/login").
Proof.
  apply (unauthenticated_lands_on_login "/campaigns/42"
           (Auth.mkStore None None (Some "eyJr")) 0).
  reflexivity.
Defined.
